(** * xiaomi_aqara_custom: a shallow embedding of the gateway component

    The development follows the two Python modules of the component:
    [__init__.py] (configuration schema, gateway discovery, [setup], the
    service [play_ringtone], the base entity [XiaomiDevice]) and
    [switch.py] ([setup_platform], the Zigbee switches and the gateway
    radio switch).

    Conventions of the embedding:
    - a method of a Python object is a function from the object's state to
      an outcome and the state the call leaves behind; an exception is an
      outcome, and the state mutated before it was raised is kept;
    - Python [float] is IEEE 754 binary64, taken from [SpecFloat] with
      [prec = 53] and [emax = 1024];
    - dictionaries are [gmap]s, lists are lists, [None]-able attributes are
      [option]s;
    - what lives outside the repository (the hub library, the miio client,
      the resolver, the builtins [int(str)] and [float(str)]) is a
      parameter of the definitions that call it. *)

From Stdlib Require Import ZArith Lia Bool List Ascii String.
From Stdlib Require Import Floats.SpecFloat.
From stdpp Require Import base option strings gmap list pretty.

Open Scope string_scope.
Open Scope Z_scope.

(** ** Outcomes of a call *)

Inductive exn : Set :=
  | TypeError
  | ValueError
  | KeyError
  | OverflowError
  | ZeroDivisionError
  | UnboundLocalError.

Inductive res (A : Type) : Type :=
  | Ok (a : A)
  | Raise (e : exn).

Arguments Ok {A} a.
Arguments Raise {A} e.

(** A method over an object of type [S]. *)
Definition M (S A : Type) : Type := S -> res A * S.

Definition ret {S A} (a : A) : M S A := fun s => (Ok a, s).

Definition raise {S A} (e : exn) : M S A := fun s => (Raise e, s).

Definition bind {S A B} (m : M S A) (k : A -> M S B) : M S B :=
  fun s =>
    match m s with
    | (Ok a, s') => k a s'
    | (Raise e, s') => (Raise e, s')
    end.

Definition lift {S A} (r : res A) : M S A := fun s => (r, s).

Definition modify {S} (f : S -> S) : M S unit := fun s => (Ok tt, f s).

Definition gets {S A} (f : S -> A) : M S A := fun s => (Ok (f s), s).

Declare Scope py_scope.
Delimit Scope py_scope with py.
Notation "'let*' x ':=' m 'in' k" := (bind m (fun x => k))
  (at level 10, x name, m at level 100, k at level 200) : py_scope.
Notation "m1 '>>' m2" := (bind m1 (fun _ => m2))
  (at level 100, m2 at level 200, right associativity) : py_scope.
Open Scope py_scope.

(** ** Python floats *)

Definition prec : Z := 53.
Definition emax : Z := 1024.

Definition float : Set := spec_float.

Definition is_finite (x : float) : bool :=
  match x with
  | S754_zero _ | S754_finite _ _ _ => true
  | _ => false
  end.

Definition is_zero (x : float) : bool :=
  match x with
  | S754_zero _ => true
  | _ => false
  end.

(** [float(n)] for an int: the nearest double, ties to even;
    [OverflowError] when the int is too large for a double. *)
Definition nearest_float (z : Z) : float := binary_normalize prec emax z 0 false.

Definition float_of_int (z : Z) : res float :=
  if is_finite (nearest_float z) then Ok (nearest_float z) else Raise OverflowError.

(** The double nearest to the quotient [a / b] of two integers, [b <> 0]. *)
Definition nearest_quotient (a b : Z) : float :=
  match a with
  | Z0 => S754_zero (Z.ltb b 0)
  | _ =>
      SFdiv prec emax
        (S754_finite (Z.ltb a 0) (Z.to_pos (Z.abs a)) 0)
        (S754_finite (Z.ltb b 0) (Z.to_pos (Z.abs b)) 0)
  end.

(** [a / b] on ints (true division): correctly rounded. *)
Definition int_truediv (a b : Z) : res float :=
  if Z.eqb b 0 then Raise ZeroDivisionError
  else if is_finite (nearest_quotient a b) then Ok (nearest_quotient a b)
  else Raise OverflowError.

(** [x / y] and [x * y] on floats. *)
Definition float_truediv (x y : float) : res float :=
  if is_zero y then Raise ZeroDivisionError else Ok (SFdiv prec emax x y).

Definition float_mul (x y : float) : float := SFmul prec emax x y.

(** Quotient of [n] by [d > 0] rounded to the nearest integer, ties to
    the even one. *)
Definition div_half_even (n d : Z) : Z :=
  let q := n / d in
  match 2 * (n mod d) ?= d with
  | Lt => q
  | Gt => q + 1
  | Eq => if Z.even q then q else q + 1
  end.

(** [round(x, ndigits)] for a float and [ndigits >= 0]: the exact binary
    value of [x] is rounded to [ndigits] decimals, ties to even, and the
    decimal obtained is read back as the nearest double.  Infinities and
    NaN round to themselves; the sign of a zero result is the sign of [x]. *)
Definition py_round (x : float) (ndigits : Z) : float :=
  match x with
  | S754_finite s m e =>
      let p := 10 ^ ndigits in
      let n :=
        match e with
        | Zneg k => div_half_even (Zpos m * p) (2 ^ Zpos k)
        | _ => Zpos m * 2 ^ e * p
        end in
      match n with
      | Zpos n' =>
          SFdiv prec emax (S754_finite s n' 0) (S754_finite false (Z.to_pos p) 0)
      | _ => S754_zero s
      end
  | _ => x
  end.

Definition float_le (x y : float) : bool := SFleb x y.

(** Literals used by the component. *)
Definition f1000 : float := nearest_float 1000.
Definition f100 : float := nearest_float 100.

(** ** Payloads

    A decoded report is a JSON object; the hub sends integers and strings
    as member values. *)

Inductive value : Set :=
  | VInt (z : Z)
  | VStr (s : string).

Abbreviation payload := (gmap string value).

(** Numbers held by entity attributes. *)
Inductive num : Set :=
  | NInt (z : Z)
  | NFloat (x : float).

(** [x in d] for a dict. *)
Definition contains (d : payload) (k : string) : bool := bool_decide (is_Some (d !! k)).

(** [d[k]]. *)
Definition getitem (d : payload) (k : string) : res value :=
  match d !! k with
  | Some v => Ok v
  | None => Raise KeyError
  end.

(** The builtins [int(s)] and [float(s)] on a [str]; [None] is [ValueError]. *)
Class Builtins := {
  int_of_str : string -> option Z;
  float_of_str : string -> option float
}.

Definition py_int `{Builtins} (v : value) : res Z :=
  match v with
  | VInt z => Ok z
  | VStr s => match int_of_str s with Some z => Ok z | None => Raise ValueError end
  end.

Definition py_float `{Builtins} (v : value) : res float :=
  match v with
  | VInt z => float_of_int z
  | VStr s => match float_of_str s with Some x => Ok x | None => Raise ValueError end
  end.

(** ** The base entity: [XiaomiDevice]

    Points in time and durations are counted in microseconds, the
    resolution of [datetime] and [timedelta]. *)

Definition minutes (n : Z) : Z := n * 60 * 1000000.

Definition TIME_TILL_UNAVAILABLE : Z := minutes 150.

(** [homeassistant.const] *)
Definition ATTR_BATTERY_LEVEL : string := "battery_level".
Definition ATTR_VOLTAGE : string := "voltage".

(** The attributes [XiaomiDevice.__init__] creates and the base class
    uses.  [_remove_unavailability_tracker] holds the handle returned by
    [async_track_point_in_utc_time]; the handle is identified with the point
    in time its timer was armed for, and calling it cancels that timer.
    [ha_state_updates] counts the calls to [async_schedule_update_ha_state]
    and [schedule_update_ha_state], the only trace of the entity in the
    framework that the component relies on. *)
Record XiaomiDevice : Type := mkXiaomiDevice {
  _sid : string;
  _is_available : bool;
  _device_state_attributes : gmap string float;
  _remove_unavailability_tracker : option Z;
  ha_state_updates : nat
}.

Definition set_is_available (b : bool) (d : XiaomiDevice) : XiaomiDevice :=
  mkXiaomiDevice (_sid d) b (_device_state_attributes d)
    (_remove_unavailability_tracker d) (ha_state_updates d).

Definition set_attribute (k : string) (x : float) (d : XiaomiDevice) : XiaomiDevice :=
  mkXiaomiDevice (_sid d) (_is_available d) (<[k := x]> (_device_state_attributes d))
    (_remove_unavailability_tracker d) (ha_state_updates d).

Definition set_tracker (t : option Z) (d : XiaomiDevice) : XiaomiDevice :=
  mkXiaomiDevice (_sid d) (_is_available d) (_device_state_attributes d)
    t (ha_state_updates d).

Definition count_state_update (d : XiaomiDevice) : XiaomiDevice :=
  mkXiaomiDevice (_sid d) (_is_available d) (_device_state_attributes d)
    (_remove_unavailability_tracker d) (S (ha_state_updates d)).

Definition async_schedule_update_ha_state : M XiaomiDevice unit :=
  modify count_state_update.

(** The timer fired: [_async_set_unavailable]. *)
Definition _async_set_unavailable : M XiaomiDevice unit :=
  modify (set_tracker None) >>
  modify (set_is_available false) >>
  async_schedule_update_ha_state.

(** [_async_track_unavailable], called at [now = utcnow()]: a pending timer
    is cancelled and a new one replaces it. *)
Definition _async_track_unavailable (now : Z) : M XiaomiDevice bool :=
  modify (set_tracker (Some (now + TIME_TILL_UNAVAILABLE))) >>
  let* available := gets _is_available in
  if negb available then
    modify (set_is_available true) >> ret true
  else ret false.

(** Lines 453-460 of [parse_voltage], on an int reading: the battery level
    in percent. *)
Definition max_volt : Z := 3300.
Definition min_volt : Z := 2800.

Definition battery_level (voltage : Z) : res float :=
  let voltage := Z.min voltage max_volt in
  let voltage := Z.max voltage min_volt in
  match int_truediv (voltage - min_volt) (max_volt - min_volt) with
  | Ok q => Ok (py_round (float_mul q f100) 1)
  | Raise e => Raise e
  end.

(** [parse_voltage].  The first operation on the reading is
    [voltage / 1000.0], which raises [TypeError] on a [str] before any
    attribute is written. *)
Definition parse_voltage (data : payload) : M XiaomiDevice bool :=
  let voltage_key :=
    if contains data "voltage" then Some "voltage"
    else if contains data "battery_voltage" then Some "battery_voltage"
    else None in
  match voltage_key with
  | None => ret false
  | Some voltage_key =>
      let* voltage := lift (getitem data voltage_key) in
      match voltage with
      | VStr _ => raise TypeError
      | VInt voltage =>
          let* x := lift (float_of_int voltage) in
          let* volts := lift (float_truediv x f1000) in
          modify (set_attribute ATTR_VOLTAGE (py_round volts 2)) >>
          let* percent := lift (battery_level voltage) in
          modify (set_attribute ATTR_BATTERY_LEVEL percent) >>
          ret true
      end
  end.

(** An entity class derived from [XiaomiDevice]: its state extends the base
    attributes and it implements [parse_data] ([XiaomiDevice.parse_data]
    itself raises [NotImplementedError]). *)
Class XiaomiEntity (E : Type) := {
  device : E -> XiaomiDevice;
  with_device : XiaomiDevice -> E -> E;
  parse_data : payload -> payload -> M E bool
}.

(** A base-class method run on a derived object. *)
Definition super {E} `{XiaomiEntity E} {A} (m : M XiaomiDevice A) : M E A :=
  fun e =>
    let '(r, d) := m (device e) in (r, with_device d e).

(** [push_data], called at [now = utcnow()]. *)
Definition push_data {E} `{XiaomiEntity E} (now : Z) (data raw_data : payload) : M E unit :=
  let* was_unavailable := super (_async_track_unavailable now) in
  let* is_data := parse_data data raw_data in
  let* is_voltage := super (parse_voltage data) in
  if is_data || is_voltage || was_unavailable then
    super async_schedule_update_ha_state
  else ret tt.

(** What the base class expects of a derived class: the base attributes
    are stored and read back faithfully, and the decoder of the derived
    class only writes attributes of its own. *)
Class LawfulEntity (E : Type) `{XiaomiEntity E} : Prop := {
  device_with_device : forall d e, device (with_device d e) = d;
  with_device_device : forall e, with_device (device e) e = e;
  with_device_twice : forall d d' e, with_device d (with_device d' e) = with_device d e;
  parse_data_device : forall data raw_data e,
    device (snd (parse_data data raw_data e)) = device e
}.

(** ** [switch.py]: the Zigbee switches *)

Definition LOAD_POWER : string := "load_power".
Definition POWER_CONSUMED : string := "power_consumed".
Definition ENERGY_CONSUMED : string := "energy_consumed".
Definition IN_USE : string := "inuse".

(** The hub of an entity, of the library [xiaomi_gateway]:
    [write_to_hub sid kwargs] is what the call answers. *)
Class XiaomiHub := {
  write_to_hub : string -> list (string * string) -> res bool
}.

Module GenericSwitch.

(** [_state] is created by [XiaomiDevice.__init__] as [None]; the class
    only ever stores a [bool] in it. *)
Record XiaomiGenericSwitch : Type := mkXiaomiGenericSwitch {
  base : XiaomiDevice;
  _state : option bool;
  _data_key : string;
  _in_use : option Z;
  _load_power : option num;
  _power_consumed : option float;
  _supports_power_consumption : bool
}.

Definition set_base (d : XiaomiDevice) (s : XiaomiGenericSwitch) :=
  mkXiaomiGenericSwitch d (_state s) (_data_key s) (_in_use s) (_load_power s)
    (_power_consumed s) (_supports_power_consumption s).

Definition set_state (b : option bool) (s : XiaomiGenericSwitch) :=
  mkXiaomiGenericSwitch (base s) b (_data_key s) (_in_use s) (_load_power s)
    (_power_consumed s) (_supports_power_consumption s).

Definition set_in_use (n : option Z) (s : XiaomiGenericSwitch) :=
  mkXiaomiGenericSwitch (base s) (_state s) (_data_key s) n (_load_power s)
    (_power_consumed s) (_supports_power_consumption s).

Definition set_load_power (p : option num) (s : XiaomiGenericSwitch) :=
  mkXiaomiGenericSwitch (base s) (_state s) (_data_key s) (_in_use s) p
    (_power_consumed s) (_supports_power_consumption s).

Definition set_power_consumed (p : option float) (s : XiaomiGenericSwitch) :=
  mkXiaomiGenericSwitch (base s) (_state s) (_data_key s) (_in_use s) (_load_power s)
    p (_supports_power_consumption s).

(** [value not in ['on', 'off']] for [value = data.get(key)] *)
Definition on_or_off (value : option value) : option bool :=
  match value with
  | Some (VStr s) =>
      if String.eqb s "on" then Some true
      else if String.eqb s "off" then Some false
      else None
  | _ => None
  end.

(** [self._state == state] *)
Definition state_is (st : option bool) (state : bool) : bool :=
  match st with
  | Some b => Bool.eqb b state
  | None => false
  end.

Definition parse_data `{Builtins} (data raw_data : payload) : M XiaomiGenericSwitch bool :=
  (if contains data IN_USE then
     let* v := lift (getitem data IN_USE) in
     let* n := lift (py_int v) in
     modify (set_in_use (Some n)) >>
     if Z.eqb n 0 then modify (set_load_power (Some (NInt 0))) else ret tt
   else ret tt) >>
  (match List.find (contains data) [POWER_CONSUMED; ENERGY_CONSUMED] with
   | Some key =>
       let* v := lift (getitem data key) in
       let* x := lift (py_float v) in
       modify (set_power_consumed (Some (py_round x 2)))
   | None => ret tt
   end) >>
  (if contains data LOAD_POWER then
     let* v := lift (getitem data LOAD_POWER) in
     let* x := lift (py_float v) in
     modify (set_load_power (Some (NFloat (py_round x 2))))
   else ret tt) >>
  let* data_key := gets _data_key in
  match on_or_off (data !! data_key) with
  | None => ret false
  | Some state =>
      let* st := gets _state in
      if state_is st state then ret false
      else modify (set_state (Some state)) >> ret true
  end.

#[global] Instance entity `{Builtins} : XiaomiEntity XiaomiGenericSwitch := {
  device := base;
  with_device := set_base;
  parse_data := parse_data
}.

Definition schedule_update_ha_state : M XiaomiGenericSwitch unit :=
  modify (fun s => set_base (count_state_update (base s)) s).

(** [turn_on] and [turn_off]: the write carries [{self._data_key: "on"}]. *)
Definition turn_on `{XiaomiHub} : M XiaomiGenericSwitch unit :=
  let* sid := gets (fun s => _sid (base s)) in
  let* data_key := gets _data_key in
  let* written := lift (write_to_hub sid [(data_key, "on")]) in
  if written then
    modify (set_state (Some true)) >> schedule_update_ha_state
  else ret tt.

Definition turn_off `{XiaomiHub} : M XiaomiGenericSwitch unit :=
  let* sid := gets (fun s => _sid (base s)) in
  let* data_key := gets _data_key in
  let* written := lift (write_to_hub sid [(data_key, "off")]) in
  if written then
    modify (set_state (Some false)) >> schedule_update_ha_state
  else ret tt.

(** The [device_state_attributes] property. *)
Inductive attribute : Type :=
  | ANone
  | AInt (z : Z)
  | ANum (n : num)
  | AFloat (x : float).

Definition device_state_attributes (s : XiaomiGenericSwitch) : gmap string attribute :=
  let attrs : gmap string attribute :=
    if _supports_power_consumption s then
      <["in_use" := from_option AInt ANone (_in_use s)]>
      (<["load_power" := from_option ANum ANone (_load_power s)]>
      (<["power_consumed" := from_option AFloat ANone (_power_consumed s)]> ∅))
    else ∅ in
  (AFloat <$> _device_state_attributes (base s)) ∪ attrs.

End GenericSwitch.

(** ** [switch.py]: the gateway radio switch *)

(** What the miio client returns for a command: the [result] member of the
    reply. *)
Inductive miio_result : Type :=
  | MList (l : list value)
  | MDict (d : gmap string value)
  | MStr (s : string)
  | MInt (z : Z).

Class MiioDevice := {
  raw_command : string -> list string -> res miio_result
}.

Definition value_eqb (a b : value) : bool :=
  match a, b with
  | VInt x, VInt y => Z.eqb x y
  | VStr x, VStr y => String.eqb x y
  | _, _ => false
  end.

(** ['ok' in resp] *)
Definition ok_in (resp : miio_result) : res bool :=
  match resp with
  | MList l => Ok (existsb (value_eqb (VStr "ok")) l)
  | MDict d => Ok (bool_decide (is_Some (d !! "ok")))
  | MStr s => Ok (bool_decide (is_Some (String.index 0 "ok" s)))
  | MInt _ => Raise TypeError
  end.

Module RadioSwitch.

Record XiaomiGatewayRadioSwitch : Type := mkXiaomiGatewayRadioSwitch {
  _state : option bool;
  _name : string;
  _volume : option value;
  _gw_attrs : gmap string (option string)
}.

Definition set_state (b : option bool) (s : XiaomiGatewayRadioSwitch) :=
  mkXiaomiGatewayRadioSwitch b (_name s) (_volume s) (_gw_attrs s).

Definition turn_on `{MiioDevice} : M XiaomiGatewayRadioSwitch unit :=
  let* resp := lift (raw_command "play_fm" ["on"]) in
  let* acknowledged := lift (ok_in resp) in
  if acknowledged then modify (set_state (Some true)) else ret tt.

Definition turn_off `{MiioDevice} : M XiaomiGatewayRadioSwitch unit :=
  let* resp := lift (raw_command "play_fm" ["off"]) in
  let* acknowledged := lift (ok_in resp) in
  if acknowledged then modify (set_state (Some false)) else ret tt.

End RadioSwitch.

(** ** [__init__.py]: the configuration schema

    A gateway entry of the configuration as written by the user, with the
    value of every key the schema knows and the names of the other keys. *)

Record raw_gateway : Type := mkRawGateway {
  raw_key : option string;
  raw_host : option string;
  raw_port : option Z;
  raw_disable : option bool;
  raw_miio_token : option string;
  raw_mac : option string;
  raw_other_keys : list string
}.

(** A gateway entry after validation and [_fix_conf_defaults], as
    [discover_gateways] reads it with [gateway.get]. *)
Record gateway_config : Type := mkGatewayConfig {
  conf_key : option string;
  conf_host : option string;
  conf_port : option Z;
  conf_disable : bool;
  conf_miio_token : option string;
  conf_sid : option string
}.

Definition lower_ascii (c : ascii) : ascii :=
  let n := nat_of_ascii c in
  if (Nat.leb 65 n && Nat.leb n 90)%bool then ascii_of_nat (n + 32) else c.

Fixpoint str_lower (s : string) : string :=
  match s with
  | EmptyString => EmptyString
  | String c s' => String (lower_ascii c) (str_lower s')
  end.

(** [value.replace(":", "")] *)
Fixpoint remove_colons (s : string) : string :=
  match s with
  | EmptyString => EmptyString
  | String c s' =>
      if Ascii.eqb c ":"%char then remove_colons s' else String c (remove_colons s')
  end.

(** [vol.Length(min, max)] on a [str] *)
Definition Length_str (min max : nat) (s : string) : option string :=
  if (Nat.leb min (String.length s) && Nat.leb (String.length s) max)%bool
  then Some s else None.

Definition GW_MAC (v : string) : option string :=
  Length_str 12 12 (str_lower (remove_colons v)).

(** [cv.port] *)
Definition cv_port (p : Z) : option Z :=
  if (Z.leb 1 p && Z.leb p 65535)%bool then Some p else None.

(** An optional key: absent, or present and validated. *)
Definition Optional {A B} (validate : A -> option B) (v : option A) : option (option B) :=
  match v with
  | None => Some None
  | Some a => match validate a with Some b => Some (Some b) | None => None end
  end.

(** [GATEWAY_CONFIG.extend({Optional(CONF_MAC): GW_MAC})] for
    [mac_required = false], [GATEWAY_CONFIG.extend({Required(CONF_MAC): GW_MAC})]
    for [mac_required = true].  The result still holds the mac under
    [conf_sid] and the port whatever the host; [_fix_conf_defaults] comes
    next. *)
Definition GATEWAY_CONFIG (mac_required : bool) (r : raw_gateway) : option gateway_config :=
  match raw_other_keys r with
  | _ :: _ => None
  | [] =>
      key ← Optional (Length_str 16 16) (raw_key r);
      port ← Optional cv_port (raw_port r);
      mac ← Optional GW_MAC (raw_mac r);
      if (mac_required && negb (bool_decide (is_Some mac)))%bool then None
      else
        Some (mkGatewayConfig key (raw_host r) (Some (default 9898 port))
                (default false (raw_disable r)) (raw_miio_token r) mac)
  end.

Definition GATEWAY_CONFIG_MAC_OPTIONAL := GATEWAY_CONFIG false.
Definition GATEWAY_CONFIG_MAC_REQUIRED := GATEWAY_CONFIG true.

Definition _fix_conf_defaults (config : gateway_config) : gateway_config :=
  mkGatewayConfig (conf_key config) (conf_host config)
    (match conf_host config with None => None | Some _ => conf_port config end)
    (conf_disable config) (conf_miio_token config) (conf_sid config).

(** The value under [CONF_GATEWAYS]. *)
Inductive raw_gateways : Type :=
  | RawNull
  | RawDict (r : raw_gateway)
  | RawList (l : list raw_gateway).

Definition cv_ensure_list (g : raw_gateways) : list raw_gateway :=
  match g with
  | RawNull => []
  | RawDict r => [r]
  | RawList l => l
  end.

(** [vol.All([schema], vol.Length(min, max))] on a list *)
Definition list_of {A B} (schema : A -> option B) (min : nat) (max : option nat)
    (l : list A) : option (list B) :=
  l' ← mapM schema l;
  if (Nat.leb min (length l') && from_option (Nat.leb (length l')) true max)%bool
  then Some l' else None.

(** [vol.Any(a, b)] *)
Definition Any {A B} (a b : A -> option B) (v : A) : option B :=
  match a v with
  | Some r => Some r
  | None => b v
  end.

(** The validator of [CONF_GATEWAYS] in [CONFIG_SCHEMA]. *)
Definition gateways_schema (g : raw_gateways) : option (list gateway_config) :=
  l ← Any (list_of GATEWAY_CONFIG_MAC_OPTIONAL 0 (Some 1%nat))
          (list_of GATEWAY_CONFIG_MAC_REQUIRED 2 None)
          (cv_ensure_list g);
  Some (map _fix_conf_defaults l).

Definition empty_raw_gateway : raw_gateway :=
  mkRawGateway None None None None None None [].

(** The domain section of the configuration and [CONFIG_SCHEMA] on it. *)
Record raw_config : Type := mkRawConfig {
  raw_gateways_value : option raw_gateways;
  raw_interface : option string;
  raw_discovery_retry : option Z
}.

Record config : Type := mkConfig {
  conf_gateways : list gateway_config;
  conf_interface : string;
  conf_discovery_retry : Z
}.

(** [cv.positive_int] *)
Definition cv_positive_int (n : Z) : option Z :=
  if Z.leb 0 n then Some n else None.

Definition CONFIG_SCHEMA (c : raw_config) : option config :=
  gateways ← gateways_schema (default (RawDict empty_raw_gateway) (raw_gateways_value c));
  retry ← Optional cv_positive_int (raw_discovery_retry c);
  Some (mkConfig gateways (default "any" (raw_interface c)) (default 3 retry)).

(** ** [__init__.py]: gateway discovery *)

(** The resolver, [socket.gethostbyname]; [None] is an [OSError]. *)
Class Resolver := {
  gethostbyname : string -> option string
}.

(** [xiaomi_gateway.GATEWAY_MODELS] *)
Class GatewayLibrary := {
  GATEWAY_MODELS : list string
}.

(** [XiaomiMiioGateway]: the arguments of the constructor as the hub keeps
    them, and the miio client, created from the address and the token when a
    token is given.  A hub is known by what it was built from: two hubs
    built from the same arguments are the same value here, also when the
    code builds the second one anew. *)
Record XiaomiMiioGateway : Type := mkXiaomiMiioGateway {
  ip_adress : string;
  port : value;
  sid : string;
  key : option string;
  discovery_retries : Z;
  interface : string;
  proto : option string;
  miio_token : option string;
  miio : option (string * string)
}.

(** Truth value of an optional [str] or [int]. *)
Definition truthy_str (s : option string) : option string :=
  match s with
  | Some s => if String.eqb s "" then None else Some s
  | None => None
  end.

Definition truthy_int (n : option Z) : option Z :=
  match n with
  | Some n => if Z.eqb n 0 then None else Some n
  | None => None
  end.

Definition XiaomiMiioGateway__init__ (ip : string) (port : value) (sid : string)
    (key : option string) (discovery_retries : Z) (interface : string)
    (proto miio_token : option string) : XiaomiMiioGateway :=
  mkXiaomiMiioGateway ip port sid key discovery_retries interface proto miio_token
    (match truthy_str miio_token with
     | Some token => Some (ip, token)
     | None => None
     end).

Record XiaomiMiioGatewayDiscovery : Type := mkXiaomiMiioGatewayDiscovery {
  _gateways_config : list gateway_config;
  _interface : string;
  _device_discovery_retries : Z;
  gateways : gmap string XiaomiMiioGateway;
  disabled_gateways : list string
}.

Definition set_gateway (ip : string) (g : XiaomiMiioGateway)
    (x : XiaomiMiioGatewayDiscovery) : XiaomiMiioGatewayDiscovery :=
  mkXiaomiMiioGatewayDiscovery (_gateways_config x) (_interface x)
    (_device_discovery_retries x) (<[ip := g]> (gateways x)) (disabled_gateways x).

Definition append_disabled (ip : string)
    (x : XiaomiMiioGatewayDiscovery) : XiaomiMiioGatewayDiscovery :=
  mkXiaomiMiioGatewayDiscovery (_gateways_config x) (_interface x)
    (_device_discovery_retries x) (gateways x) (disabled_gateways x ++ [ip]).

(** The body of the first loop of [discover_gateways], for one entry of
    the configuration.  [gateway.get('proto')] is [None]: the schema has no
    such key. *)
Definition configure_gateway `{Resolver} (gateway : gateway_config)
    : M XiaomiMiioGatewayDiscovery unit :=
  match truthy_str (conf_host gateway), truthy_int (conf_port gateway),
        truthy_str (conf_sid gateway) with
  | Some host, Some port, Some sid =>
      match gethostbyname host with
      | Some ip_address =>
          if conf_disable gateway then modify (append_disabled ip_address)
          else
            let* retries := gets _device_discovery_retries in
            let* interface := gets _interface in
            modify (set_gateway ip_address
                      (XiaomiMiioGateway__init__ ip_address (VInt port) sid
                         (conf_key gateway) retries interface None
                         (conf_miio_token gateway)))
      | None => ret tt
      end
  | _, _, _ => ret tt
  end.

Fixpoint for_each {S A} (body : A -> M S unit) (l : list A) : M S unit :=
  match l with
  | [] => ret tt
  | a :: l' => body a >> for_each body l'
  end.

(** A datagram read from the socket: the address it came from and what
    [json.loads] makes of it, [None] when decoding raises. *)
Record message : Type := mkMessage {
  msg_cmd : option string;
  msg_model : option string;
  msg_sid : option string;
  msg_port : option value;
  msg_proto_version : option string
}.

Definition datagram : Type := string * option message.

(** [resp[k]] *)
Definition member {A} (v : option A) : res A :=
  match v with
  | Some a => Ok a
  | None => Raise KeyError
  end.

(** The loop over the configuration that follows the model check: the
    pair [(disabled, gateway_key)] after it. *)
Definition match_entry (resp_sid : string) (acc : bool * option string)
    (gateway : gateway_config) : bool * option string :=
  let sid := conf_sid gateway in
  let gateway_key :=
    if bool_decide (sid = None \/ sid = Some resp_sid) then conf_key gateway
    else snd acc in
  let disabled :=
    if (bool_decide (is_Some (truthy_str sid)) && bool_decide (sid = Some resp_sid)
        && conf_disable gateway)%bool
    then true else fst acc in
  (disabled, gateway_key).

Definition match_config (resp_sid : string) (cfg : list gateway_config)
    : bool * option string :=
  fold_left (match_entry resp_sid) cfg (false, None).

(** The body of the receive loop for one datagram.  After the loops over
    the configuration the variable [gateway] is bound to the last entry,
    and to nothing when the configuration is empty. *)
Definition receive `{GatewayLibrary} (dg : datagram)
    : M XiaomiMiioGatewayDiscovery unit :=
  let '(ip_add, decoded) := dg in
  let* known := gets gateways in
  let* disabled_ips := gets disabled_gateways in
  if bool_decide (is_Some (known !! ip_add)) then ret tt
  else if bool_decide (ip_add ∈ disabled_ips) then ret tt
  else
    match decoded with
    | None => raise ValueError
    | Some resp =>
        let* cmd := lift (member (msg_cmd resp)) in
        if negb (String.eqb cmd "iam") then ret tt
        else
          let* model := lift (member (msg_model resp)) in
          if negb (bool_decide (model ∈ GATEWAY_MODELS)) then ret tt
          else
            let* sid := lift (member (msg_sid resp)) in
            let* cfg := gets _gateways_config in
            let '(disabled, gateway_key) := match_config sid cfg in
            if disabled then modify (append_disabled ip_add)
            else
              let* port := lift (member (msg_port resp)) in
              let* retries := gets _device_discovery_retries in
              let* interface := gets _interface in
              match last cfg with
              | None => raise UnboundLocalError
              | Some gateway =>
                  modify (set_gateway ip_add
                            (XiaomiMiioGateway__init__ ip_add port sid gateway_key
                               retries interface (msg_proto_version resp)
                               (conf_miio_token gateway)))
              end
    end.

(** [discover_gateways]: the entries of the configuration first, then the
    datagrams [received] until the socket times out. *)
Definition discover_gateways `{Resolver} `{GatewayLibrary} (received : list datagram)
    : M XiaomiMiioGatewayDiscovery unit :=
  let* cfg := gets _gateways_config in
  for_each configure_gateway cfg >>
  for_each receive received.

(** ** [__init__.py]: [setup], up to the first [return]

    [received k] is what the socket delivers in round [k], were it to take
    place.  The discovery object is created with the gateways, the
    interface and, from the hub library, the number of retries for the
    devices.  The result is [false] for the bare [return] that gives up;
    with [true] the function goes on to listen, to load the platforms and to
    register the services. *)
Fixpoint discovery_rounds `{Resolver} `{GatewayLibrary}
    (received : nat -> list datagram) (k n : nat) : M XiaomiMiioGatewayDiscovery unit :=
  match n with
  | O => ret tt
  | S n' =>
      discover_gateways (received k) >>
      let* known := gets gateways in
      let* expected := gets _gateways_config in
      if (length expected <=? size known)%nat then ret tt
      else discovery_rounds received (S k) n'
  end.

Definition setup `{Resolver} `{GatewayLibrary} (conf : option config)
    (device_discovery_retries : Z) (received : nat -> list datagram)
    : res bool * XiaomiMiioGatewayDiscovery :=
  let gateways_conf := match conf with Some c => conf_gateways c | None => [] end in
  let interface := match conf with Some c => conf_interface c | None => "any" end in
  let discovery_retry := match conf with Some c => conf_discovery_retry c | None => 3 end in
  (discovery_rounds received 0 (Z.to_nat discovery_retry) >>
   let* known := gets gateways in
   if (size known =? 0)%nat then ret false else ret true)
    (mkXiaomiMiioGatewayDiscovery gateways_conf interface device_discovery_retries ∅ []).

(** ** [__init__.py]: [_add_gateway_to_schema] and the service
    [play_ringtone] *)

Module Services.

(** [str(sid)] *)
Definition py_str (v : value) : string :=
  match v with
  | VInt z => pretty z
  | VStr s => s
  end.

(** The validator [gateway] of [_add_gateway_to_schema].  [values] is
    [xiaomi.gateways.values()], the hubs in the order in which their
    addresses entered the dict; [None] is [vol.Invalid]. *)
Definition gateway (values : list XiaomiMiioGateway) (sid_ : value)
    : option XiaomiMiioGateway :=
  let sid_ := str_lower (remove_colons (py_str sid_)) in
  List.find (fun gateway => String.eqb (sid gateway) sid_) values.

(** The data of a service call: the member [gw_mac], when given, and the
    members the extended schema is about. *)
Record call (A : Type) : Type := mkCall {
  gw_mac : option value;
  members : A
}.

Arguments mkCall {A} _ _.
Arguments gw_mac {A} _.
Arguments members {A} _.

(** [schema.extend({vol.Required(ATTR_GW_MAC, **kwargs): gateway})]: a
    missing [gw_mac] is replaced by the default, when there is one, and
    validated as a given one is.  The validated data holds the hub under
    [gw_mac]. *)
Definition _add_gateway_to_schema {A B} (values : list XiaomiMiioGateway)
    (schema : A -> option B) (c : call A) : option (XiaomiMiioGateway * B) :=
  let kwargs_default :=
    match values with
    | [only] => Some (VStr (sid only))
    | _ => None
    end in
  v ← (match gw_mac c with Some v => Some v | None => kwargs_default end);
  hub ← gateway values v;
  validated ← schema (members c);
  Some (hub, validated).

(** [vol.Coerce(int)] *)
Definition Coerce_int `{Builtins} (v : value) : option Z :=
  match py_int v with
  | Ok z => Some z
  | Raise _ => None
  end.

(** [vol.NotIn(container)] *)
Definition NotIn (container : list Z) (v : Z) : option Z :=
  if existsb (Z.eqb v) container then None else Some v.

(** [vol.Clamp(min, max)] *)
Definition Clamp (min max : Z) (v : Z) : Z :=
  if v <? min then min else if max <? v then max else v.

(** The members [ringtone_id] and [ringtone_vol] of a call, as given and
    as validated. *)
Record raw_ringtone : Type := mkRawRingtone {
  raw_ringtone_id : option value;
  raw_ringtone_vol : option value
}.

Record ringtone : Type := mkRingtone {
  ringtone_id : Z;
  ringtone_vol : option Z
}.

Definition SERVICE_SCHEMA_PLAY_RINGTONE `{Builtins} (data : raw_ringtone)
    : option ringtone :=
  given ← raw_ringtone_id data;
  ring_id ← Coerce_int given ≫= NotIn [9; 14; 15; 16; 17; 18; 19];
  ring_vol ← Optional (fun v => Clamp 0 100 <$> Coerce_int v) (raw_ringtone_vol data);
  Some (mkRingtone ring_id ring_vol).

(** [play_ringtone_service] on validated data: the hub and the arguments of
    its [write_to_hub]. *)
Definition play_ringtone_service (data : XiaomiMiioGateway * ringtone)
    : XiaomiMiioGateway * string * list (string * Z) :=
  let ring_id := ringtone_id (snd data) in
  let gateway := fst data in
  let kwargs := [("mid", ring_id)] in
  let kwargs :=
    match ringtone_vol (snd data) with
    | Some ring_vol => (kwargs ++ [("vol", ring_vol)])%list
    | None => kwargs
    end in
  (gateway, sid gateway, kwargs).

(** The service [play_ringtone] as registered: the schema, then the
    handler. *)
Definition play_ringtone `{Builtins} (values : list XiaomiMiioGateway)
    (c : call raw_ringtone) : option (XiaomiMiioGateway * string * list (string * Z)) :=
  play_ringtone_service <$> _add_gateway_to_schema values SERVICE_SCHEMA_PLAY_RINGTONE c.

End Services.

(** ** [switch.py]: [setup_platform] *)

Module Platform.

(** A device as the hub library lists it under [gateway.devices["switch"]];
    [proto], when the device has one, is a [str]. *)
Record zigbee_device : Type := mkZigbeeDevice {
  dev_model : string;
  dev_proto : option string;
  dev_sid : string;
  dev_data : payload;
  dev_raw_data : payload
}.

(** A [XiaomiGenericSwitch] as its constructor leaves it: the attributes the
    methods of the switch work on, and those that name the entity. *)
Record SwitchObject : Type := mkSwitchObject {
  switch : GenericSwitch.XiaomiGenericSwitch;
  _name : string;
  _type : string;
  _unique_id : string;
  _xiaomi_hub : XiaomiMiioGateway
}.

(** [XiaomiGenericSwitch.__init__], with [XiaomiDevice.__init__] that it
    ends with. *)
Definition XiaomiGenericSwitch__init__ `{Builtins} (device : zigbee_device)
    (name data_key : string) (supports_power_consumption : bool)
    (xiaomi_hub : XiaomiMiioGateway) : res SwitchObject :=
  let self :=
    GenericSwitch.mkXiaomiGenericSwitch
      (mkXiaomiDevice (dev_sid device) true ∅ None 0)
      None data_key None None None supports_power_consumption in
  match (GenericSwitch.parse_data (dev_data device) (dev_raw_data device) >>
         @super _ GenericSwitch.entity _ (parse_voltage (dev_data device))) self with
  | (Ok _, self) =>
      let _sid := _sid (GenericSwitch.base self) in
      Ok (mkSwitchObject self (name ++ "_" ++ _sid) name
            (if String.eqb (GenericSwitch._data_key self) "" then name ++ _sid
             else GenericSwitch._data_key self ++ _sid)
            xiaomi_hub)
  | (Raise e, _) => Raise e
  end.

(** What [miio.info()] answers with: [data] and [network_interface]. *)
Record miio_info : Type := mkMiioInfo {
  info_data : gmap string string;
  network_interface : gmap string string
}.

(** The miio client of a hub, made of its address and token; [None] is an
    exception of the miio library. *)
Class MiioInfo := {
  info : string * string -> option miio_info
}.

(** What [setup_platform] raises: an exception of the builtins, the
    [AttributeError] of a call on [None], or an exception of the miio
    library. *)
Inductive raised : Type :=
  | Builtin (e : exn)
  | AttributeError
  | MiioException.

(** [XiaomiGatewayRadioSwitch.__init__], with
    [XiaomiGatewayGenericSwitch.__init__] that it starts with. *)
Definition XiaomiGatewayRadioSwitch__init__ `{MiioInfo} (xiaomi_hub : XiaomiMiioGateway)
    : raised + RadioSwitch.XiaomiGatewayRadioSwitch :=
  match miio xiaomi_hub with
  | None => inl AttributeError
  | Some client =>
      match info client with
      | None => inl MiioException
      | Some miio_info =>
          inr (RadioSwitch.mkXiaomiGatewayRadioSwitch None
                 ("gateway_radio_" ++ sid xiaomi_hub) None
                 {[ "model" := info_data miio_info !! "model";
                    "miio_token" := info_data miio_info !! "token";
                    "ip" := network_interface miio_info !! "localIp" ]})
      end
  end.

(** The entities of the platform. *)
Inductive SwitchDevice : Type :=
  | Generic (s : SwitchObject)
  | Radio (r : RadioSwitch.XiaomiGatewayRadioSwitch).

(** ["proto" not in device or int(device["proto"][0:1]) == 1] chooses the
    data key of a plug. *)
Definition plug_data_key `{Builtins} (device : zigbee_device) : res string :=
  match dev_proto device with
  | None => Ok "status"
  | Some proto =>
      match py_int (VStr (substring 0 1 proto)) with
      | Ok n => Ok (if n =? 1 then "status" else "channel_0")
      | Raise e => Raise e
      end
  end.

(** [devices.append(XiaomiGenericSwitch(...))] *)
Definition append_switch `{Builtins} (device : zigbee_device) (name data_key : string)
    (supports_power_consumption : bool) (gateway : XiaomiMiioGateway)
    : M (list SwitchDevice) unit :=
  let* created :=
    lift (XiaomiGenericSwitch__init__ device name data_key supports_power_consumption
            gateway) in
  modify (fun devices => (devices ++ [Generic created])%list).

(** [model in [...]] *)
Definition model_in (model : string) (models : list string) : bool :=
  existsb (String.eqb model) models.

(** The body of the inner loop of [setup_platform]. *)
Definition add_device `{Builtins} (gateway : XiaomiMiioGateway) (device : zigbee_device)
    : M (list SwitchDevice) unit :=
  let model := dev_model device in
  if String.eqb model "plug" then
    let* data_key := lift (plug_data_key device) in
    append_switch device "Plug" data_key true gateway
  else if model_in model ["ctrl_neutral1"; "ctrl_neutral1.aq1"] then
    append_switch device "Wall Switch" "channel_0" false gateway
  else if model_in model ["ctrl_ln1"; "ctrl_ln1.aq1"] then
    append_switch device "Wall Switch LN" "channel_0" false gateway
  else if model_in model ["ctrl_neutral2"; "ctrl_neutral2.aq1"] then
    append_switch device "Wall Switch Left" "channel_0" false gateway >>
    append_switch device "Wall Switch Right" "channel_1" false gateway
  else if model_in model ["ctrl_ln2"; "ctrl_ln2.aq1"] then
    append_switch device "Wall Switch LN Left" "channel_0" false gateway >>
    append_switch device "Wall Switch LN Right" "channel_1" false gateway
  else if model_in model ["86plug"; "ctrl_86plug"; "ctrl_86plug.aq1"] then
    let* data_key := lift (plug_data_key device) in
    append_switch device "Wall Plug" data_key true gateway
  else ret tt.

(** [setup_platform].  [items] holds the hubs of
    [hass.data[PY_XIAOMI_GATEWAY].gateways.items()] in the order of the
    dict, each with its [gateway.devices["switch"]]; the result is the list
    that [add_entities] receives.  After the loops [gateway] is the hub of
    the last item. *)
Definition setup_platform `{Builtins} `{MiioInfo}
    (items : list (XiaomiMiioGateway * list zigbee_device)) : raised + list SwitchDevice :=
  match for_each (fun item => for_each (add_device (fst item)) (snd item)) items [] with
  | (Raise e, _) => inl (Builtin e)
  | (Ok _, devices) =>
      match last items with
      | None => inl (Builtin UnboundLocalError)
      | Some (gateway, _) =>
          match XiaomiGatewayRadioSwitch__init__ gateway with
          | inl e => inl e
          | inr radio => inr (devices ++ [Radio radio])%list
          end
      end
  end.

End Platform.

(** ** Definitions used to state the properties

    What follows is not code of the component: the notions the
    specification speaks of (the clamp, the entry matched to a response,
    the shape of a validated configuration), devices to state the lemmas
    with, and sample inputs. *)

(** The clamp of the specification. *)
Definition clamp (v lo hi : Z) : Z :=
  if v <? lo then lo else if hi <? v then hi else v.

(** Order on outcomes: both are floats and the first is at most the second. *)
Definition res_le (a b : res float) : bool :=
  match a, b with
  | Ok x, Ok y => float_le x y
  | _, _ => false
  end.

Fixpoint ascending (l : list (res float)) : bool :=
  match l with
  | [] => true
  | a :: l' => forallb (res_le a) (a :: l') && ascending l'
  end.

(** The battery levels of the readings 2800, 2801, ..., 3300. *)
Definition battery_levels : list (res float) :=
  (fun k => battery_level (2800 + Z.of_nat k)) <$> seq 0 501.

(** The reading of a payload: the member named [voltage], or else the one
    named [battery_voltage]. *)
Definition voltage_field (data : payload) : option value :=
  match data !! "voltage" with
  | Some v => Some v
  | None => data !! "battery_voltage"
  end.

(** [round(raw / 1000, 2)] and
    [round((clamp(raw, 2800, 3300) - 2800) / (3300 - 2800) * 100, 1)] *)
Definition volts_of (raw : Z) : float :=
  py_round (SFdiv prec emax (nearest_float raw) f1000) 2.

Definition percent_of (raw : Z) : float :=
  py_round (float_mul (nearest_quotient (clamp raw 2800 3300 - 2800) (3300 - 2800)) f100) 1.

(** A device and payloads to run the decoders on. *)
Definition door_sensor : XiaomiDevice :=
  mkXiaomiDevice "158d0001a2b3c4" true ∅ None 0.

Definition report_3005 : payload := {[ "voltage" := VInt 3005 ]}.

(** Stand-ins for the builtins [int(s)] and [float(s)], used to run the
    decoders on examples: they read plain decimal numerals ([12], [3.20]) as
    Python does and reject every other string. *)
Definition digit_of (c : ascii) : option Z :=
  let n := nat_of_ascii c in
  if (Nat.leb 48 n && Nat.leb n 57)%bool then Some (Z.of_nat n - 48) else None.

Fixpoint numeral (s : string) (acc : Z) : option Z :=
  match s with
  | EmptyString => Some acc
  | String c s' =>
      match digit_of c with
      | Some k => numeral s' (10 * acc + k)
      | None => None
      end
  end.

Fixpoint split_point (s : string) : string * option string :=
  match s with
  | EmptyString => (EmptyString, None)
  | String c s' =>
      if Ascii.eqb c "."%char then (EmptyString, Some s')
      else let '(a, b) := split_point s' in (String c a, b)
  end.

Definition plain_int (s : string) : option Z :=
  match s with
  | EmptyString => None
  | _ => numeral s 0
  end.

Definition plain_float (s : string) : option float :=
  match split_point s with
  | (EmptyString, _) | (_, Some EmptyString) => None
  | (a, None) => n ← numeral a 0; Some (nearest_float n)
  | (a, Some b) =>
      n ← numeral (a +:+ b) 0;
      Some (nearest_quotient n (10 ^ Z.of_nat (String.length b)))
  end.

Definition plain_builtins : Builtins :=
  {| int_of_str := plain_int; float_of_str := plain_float |}.

(** A wall plug, and reports of it. *)
Definition wall_plug : GenericSwitch.XiaomiGenericSwitch :=
  GenericSwitch.mkXiaomiGenericSwitch
    (mkXiaomiDevice "158d0001f3e5be" true ∅ None 0)
    (Some false) "status" None None None true.

Definition report_on : payload :=
  {[ "status" := VStr "on"; "inuse" := VStr "1"; "load_power" := VStr "3.20" ]}.

Definition report_on_voltage : payload :=
  {[ "status" := VStr "on"; "voltage" := VInt 3005 ]}.

(** The same plug after two and a half hours of silence. *)
Definition silent_plug : GenericSwitch.XiaomiGenericSwitch :=
  GenericSwitch.set_base
    (snd (_async_set_unavailable (GenericSwitch.base wall_plug))) wall_plug.

(** The switch class with the stand-in builtins. *)
Definition plain_switch : XiaomiEntity GenericSwitch.XiaomiGenericSwitch :=
  @GenericSwitch.entity plain_builtins.

(** A hub that refuses every write, one that accepts every write. *)
Definition refusing_hub : XiaomiHub := {| write_to_hub := fun _ _ => Ok false |}.
Definition accepting_hub : XiaomiHub := {| write_to_hub := fun _ _ => Ok true |}.

(** The radio switch of a gateway, and miio clients that answer the
    command with an error text and with an acknowledgement. *)
Definition radio : RadioSwitch.XiaomiGatewayRadioSwitch :=
  RadioSwitch.mkXiaomiGatewayRadioSwitch (Some false) "gateway_radio_7811dcb07917" None ∅.

Definition failing_miio : MiioDevice :=
  {| raw_command := fun _ _ => Ok (MList [VStr "error"]) |}.
Definition acknowledging_miio : MiioDevice :=
  {| raw_command := fun _ _ => Ok (MList [VStr "ok"]) |}.

(** Two gateways written with the same mac, one with colons and capitals. *)
Definition gateway_upstairs : raw_gateway :=
  mkRawGateway (Some "0123456789abcdef") (Some "192.168.1.5") None None None
    (Some "78:11:DC:B0:79:17") [].

Definition gateway_downstairs : raw_gateway :=
  mkRawGateway (Some "fedcba9876543210") (Some "192.168.1.6") None None None
    (Some "7811dcb07917") [].

(** Two gateways written without a mac. *)
Definition gateway_anonymous (host : string) : raw_gateway :=
  mkRawGateway None (Some host) None None None None [].

(** The address at which the first loop of [discover_gateways] places an
    entry: the entry has a host, a port and a sid, and the host resolves. *)
Definition static_address `{Resolver} (gateway : gateway_config) : option string :=
  match truthy_str (conf_host gateway), truthy_int (conf_port gateway),
        truthy_str (conf_sid gateway) with
  | Some host, Some _, Some _ => gethostbyname host
  | _, _, _ => None
  end.

(** The hub of an entry of the configuration found at [ip]. *)
Definition static_hub (x : XiaomiMiioGatewayDiscovery) (gateway : gateway_config)
    (ip : string) : XiaomiMiioGateway :=
  XiaomiMiioGateway__init__ ip (VInt (default 0 (conf_port gateway)))
    (default "" (conf_sid gateway)) (conf_key gateway)
    (_device_discovery_retries x) (_interface x) None (conf_miio_token gateway).

(** What the first loop does with one entry. *)
Definition configured `{Resolver} (x : XiaomiMiioGatewayDiscovery)
    (gateway : gateway_config) : XiaomiMiioGatewayDiscovery :=
  match static_address gateway with
  | Some ip =>
      if conf_disable gateway then append_disabled ip x
      else set_gateway ip (static_hub x gateway ip) x
  | None => x
  end.

(** A later state of a discovery object in which nothing known was lost. *)
Definition extends (x x' : XiaomiMiioGatewayDiscovery) : Prop :=
  _gateways_config x' = _gateways_config x /\
  _interface x' = _interface x /\
  _device_discovery_retries x' = _device_discovery_retries x /\
  (forall ip g, gateways x !! ip = Some g -> gateways x' !! ip = Some g) /\
  (forall ip, ip ∈ disabled_gateways x -> ip ∈ disabled_gateways x').

(** The entry matched to the serial of a response, in the words of the
    specification: an entry whose sid equals the serial (the last one when
    there are several), otherwise the only entry without a sid. *)
Definition matched_entry (resp_sid : string) (cfg : list gateway_config)
    : option gateway_config :=
  match last (List.filter (fun g => bool_decide (conf_sid g = Some resp_sid)) cfg) with
  | Some g => Some g
  | None =>
      match List.filter (fun g => bool_decide (conf_sid g = None)) cfg with
      | [g] => Some g
      | _ => None
      end
  end.

(** An entry with the serial of the response, the serial not empty, is
    marked disabled. *)
Definition disabled_by_sid (resp_sid : string) (cfg : list gateway_config) : bool :=
  existsb (fun g => bool_decide (conf_sid g = Some resp_sid)
                    && negb (String.eqb resp_sid "") && conf_disable g)%bool cfg.

(** The shape of a list of entries that went through [CONFIG_SCHEMA]. *)
Definition validated_shape (cfg : list gateway_config) : Prop :=
  (length cfg <= 1)%nat \/ Forall (fun g => is_Some (conf_sid g)) cfg.

(** A network on which [gateway.lan] answers at 192.168.1.5, and the models
    of the hub library. *)
Definition lan : Resolver :=
  {| gethostbyname := fun host =>
       if String.eqb host "gateway.lan" then Some "192.168.1.5" else None |}.

Definition aqara_models : GatewayLibrary :=
  {| GATEWAY_MODELS := ["gateway"; "gateway.v3"; "acpartner.v3"] |}.

Definition discovery_of (cfg : list gateway_config) : XiaomiMiioGatewayDiscovery :=
  mkXiaomiMiioGatewayDiscovery cfg "any" 5 ∅ [].


(** The same host, with a sid, enabled and disabled. *)
Definition entry_with_sid (disable : bool) : gateway_config :=
  mkGatewayConfig (Some "0123456789abcdef") (Some "gateway.lan") (Some 9898) disable
    (Some "9bc7c7ce6291d3e443fd7708608b9892") (Some "7811dcb07917").

(** A single entry without a sid, marked disabled. *)
Definition disabled_entry_without_sid : gateway_config :=
  mkGatewayConfig (Some "0123456789abcdef") None None true None None.

(** Two entries, each with its sid, key and miio token. *)
Definition entry_kitchen : gateway_config :=
  mkGatewayConfig (Some "kitchenkitchen16") None None false (Some "kitchen-token")
    (Some "7811dcb07917").

Definition entry_garage : gateway_config :=
  mkGatewayConfig (Some "garagegaragega16") None None false (Some "garage-token")
    (Some "7811dcaa0001").

(** The reply of the hub with serial 7811dcb07917 at 192.168.1.7. *)
Definition iam_kitchen : datagram :=
  ("192.168.1.7",
   Some (mkMessage (Some "iam") (Some "gateway") (Some "7811dcb07917")
           (Some (VStr "9898")) (Some "1.1.2"))).

(** A validated entry as [discover_gateways] can rely on it: a key of 16
    characters, a port exactly when there is a host and then a valid one,
    a sid in the form [GW_MAC] produces. *)
Definition entry_well_formed (c : gateway_config) : Prop :=
  (forall k, conf_key c = Some k -> String.length k = 16%nat) /\
  (conf_port c = None <-> conf_host c = None) /\
  (forall p, conf_port c = Some p -> 1 <= p <= 65535) /\
  (forall s, conf_sid c = Some s -> GW_MAC s = Some s).

(** The two gateways with the same mac, as validation returns them. *)
Definition validated_pair : list gateway_config :=
  [mkGatewayConfig (Some "0123456789abcdef") (Some "192.168.1.5") (Some 9898)
     false None (Some "7811dcb07917");
   mkGatewayConfig (Some "fedcba9876543210") (Some "192.168.1.6") (Some 9898)
     false None (Some "7811dcb07917")].

(** Two floats are the same double, bit for bit. *)
Definition float_same (x y : float) : bool :=
  match x, y with
  | S754_zero s, S754_zero s' => Bool.eqb s s'
  | S754_infinity s, S754_infinity s' => Bool.eqb s s'
  | S754_nan, S754_nan => true
  | S754_finite s m e, S754_finite s' m' e' => Bool.eqb s s' && Pos.eqb m m' && Z.eqb e e'
  | _, _ => false
  end.

(** Reports of a plug: power readings only, and a plug found idle. *)
Definition report_power : payload :=
  {[ "load_power" := VStr "3.20"; "power_consumed" := VStr "1200" ]}.

Definition report_idle : payload := {[ "inuse" := VStr "0" ]}.

(** The entry is enabled and the first loop places it at [ip]. *)
Definition enabled_at `{Resolver} (ip : string) (gateway : gateway_config) : bool :=
  bool_decide (static_address gateway = Some ip /\ conf_disable gateway = false).

(** The discovery object after a round with the enabled entry and the reply
    of the kitchen hub, and the hub built from that reply when the
    configuration is the kitchen and the garage. *)
Definition discovered : XiaomiMiioGatewayDiscovery :=
  snd (@discover_gateways lan aqara_models [iam_kitchen]
         (discovery_of [entry_with_sid false])).

Definition kitchen_hub : XiaomiMiioGateway :=
  XiaomiMiioGateway__init__ "192.168.1.7" (VStr "9898") "7811dcb07917"
    (Some "kitchenkitchen16") 5 "any" (Some "1.1.2") (Some "garage-token").

(** Where a hub of a discovery object comes from: an enabled entry of the
    configuration placed at its address, or an ['iam'] reply received from
    its address in one of the first [n] rounds. *)
Definition provenance `{Resolver} (x : XiaomiMiioGatewayDiscovery)
    (received : nat -> list datagram) (n : nat) (ip : string) (g : XiaomiMiioGateway)
    : Prop :=
  (exists gateway,
     gateway ∈ _gateways_config x /\ static_address gateway = Some ip /\
     conf_disable gateway = false /\ g = static_hub x gateway ip) \/
  (exists k resp,
     (k < n)%nat /\ (ip, Some resp) ∈ received k /\ msg_cmd resp = Some "iam" /\
     ip_adress g = ip /\ msg_sid resp = Some (sid g) /\ msg_port resp = Some (port g) /\
     msg_proto_version resp = proto g).

(** A configuration with the enabled entry, and a network on which the
    kitchen hub replies in every round. *)
Definition lan_config : config := mkConfig [entry_with_sid false] "any" 3.

Definition kitchen_replies : nat -> list datagram := fun _ => [iam_kitchen].

(** A hub whose sid is written in capitals, as a reply may carry it. *)
Definition loud_hub : XiaomiMiioGateway :=
  XiaomiMiioGateway__init__ "192.168.1.9" (VStr "9898") "7811DCB07917" None 5 "any"
    (Some "1.1.2") None.

(** A call that plays ringtone 8 at volume 150 on the hub of the kitchen,
    its mac written with colons and capitals. *)
Definition ring_kitchen : Services.call Services.raw_ringtone :=
  Services.mkCall (Some (VStr "78:11:DC:B0:79:17"))
    (Services.mkRawRingtone (Some (VStr "8")) (Some (VInt 150))).

(** The entry that [GATEWAY_CONFIG] makes of the gateway upstairs. *)
Definition upstairs_entry : gateway_config :=
  mkGatewayConfig (Some "0123456789abcdef") (Some "192.168.1.5") (Some 9898) false None
    (Some "7811dcb07917").

(** The generic switches among the entities of the platform. *)
Definition generic_switches (devices : list Platform.SwitchDevice)
    : list Platform.SwitchObject :=
  omap (fun e => match e with Platform.Generic s => Some s | Platform.Radio _ => None end)
    devices.

(** The devices that the hubs list, each with its hub. *)
Definition listed (items : list (XiaomiMiioGateway * list Platform.zigbee_device))
    : list (XiaomiMiioGateway * Platform.zigbee_device) :=
  flat_map (fun item => map (pair (fst item)) (snd item)) items.

(** The models [setup_platform] knows. *)
Definition switch_models : list string :=
  ["plug"; "ctrl_neutral1"; "ctrl_neutral1.aq1"; "ctrl_ln1"; "ctrl_ln1.aq1";
   "ctrl_neutral2"; "ctrl_neutral2.aq1"; "ctrl_ln2"; "ctrl_ln2.aq1";
   "86plug"; "ctrl_86plug"; "ctrl_86plug.aq1"].

(** A switch made for a device of a hub: it writes to that hub under the
    sid of the device, and its unique id is its data key followed by the
    sid. *)
Definition switch_of (gateway : XiaomiMiioGateway) (device : Platform.zigbee_device)
    (s : Platform.SwitchObject) : Prop :=
  Platform._xiaomi_hub s = gateway /\
  _sid (GenericSwitch.base (Platform.switch s)) = Platform.dev_sid device /\
  GenericSwitch._data_key (Platform.switch s) ∈ ["status"; "channel_0"; "channel_1"] /\
  Platform._unique_id s =
    GenericSwitch._data_key (Platform.switch s) ++ Platform.dev_sid device.

(** A miio client that answers, and one that is out of reach. *)
Definition answering_miio : Platform.MiioInfo :=
  {| Platform.info := fun _ =>
       Some (Platform.mkMiioInfo {[ "model" := "lumi.gateway.v3" ]}
               {[ "localIp" := "192.168.1.7" ]}) |}.

(** A plug and a wall switch with two channels, as the hub of the kitchen
    lists them. *)
Definition kitchen_plug : Platform.zigbee_device :=
  Platform.mkZigbeeDevice "plug" (Some "1.1.2") "158d0001f3e5be" report_on ∅.

Definition kitchen_wall_switch : Platform.zigbee_device :=
  Platform.mkZigbeeDevice "ctrl_neutral2" (Some "1.1.2") "158d0001a2b3c4"
    {[ "channel_0" := VStr "on"; "channel_1" := VStr "off" ]} ∅.

Definition kitchen_items : list (XiaomiMiioGateway * list Platform.zigbee_device) :=
  [(kitchen_hub, [kitchen_plug; kitchen_wall_switch])].

(** A hub without a miio token. *)
Definition tokenless_hub : XiaomiMiioGateway :=
  XiaomiMiioGateway__init__ "192.168.1.8" (VStr "9898") "7811dcaa0001" None 5 "any"
    (Some "1.1.2") None.

(** What one turn of the inner loop of [setup_platform] makes for a device:
    switches of that device, one for each data key, and at least one when
    the model is known. *)
Definition made_for (p : XiaomiMiioGateway * Platform.zigbee_device)
    (new : list Platform.SwitchObject) : Prop :=
  Forall (switch_of (fst p) (snd p)) new /\
  NoDup (map (fun s => GenericSwitch._data_key (Platform.switch s)) new) /\
  (Platform.dev_model (snd p) ∈ switch_models -> new <> []).

(** * Properties *)

(** ** Tactics and general lemmas *)

Ltac unfold_m := unfold bind, ret, raise, lift, modify, gets in *.

(** A boolean check run over a range of integers covers the range. *)
Lemma forallb_range (P : Z -> bool) (lo : Z) (n : nat) :
  forallb P (map (fun k => lo + Z.of_nat k) (seq 0 n)) = true ->
  forall z, lo <= z < lo + Z.of_nat n -> P z = true.
Proof.
  intros Hall z Hz.
  rewrite forallb_forall in Hall. apply Hall.
  apply in_map_iff. exists (Z.to_nat (z - lo)). split; [lia|].
  apply in_seq. lia.
Qed.

(** ** The voltage decoder *)


Lemma min_max_clamp v : Z.max (Z.min v max_volt) min_volt = clamp v 2800 3300.
Proof.
  unfold clamp, max_volt, min_volt.
  destruct (Z.ltb_spec v 2800); [lia|].
  destruct (Z.ltb_spec 3300 v); lia.
Qed.

Lemma clamp_range v : 2800 <= clamp v 2800 3300 <= 3300.
Proof.
  unfold clamp.
  destruct (Z.ltb_spec v 2800); [lia|].
  destruct (Z.ltb_spec 3300 v); lia.
Qed.

Lemma clamp_mono v1 v2 : v1 <= v2 -> clamp v1 2800 3300 <= clamp v2 2800 3300.
Proof.
  unfold clamp. intros.
  destruct (Z.ltb_spec v1 2800), (Z.ltb_spec v2 2800); try lia;
    destruct (Z.ltb_spec 3300 v1), (Z.ltb_spec 3300 v2); lia.
Qed.

Lemma clamp_in_range v : 2800 <= v <= 3300 -> clamp v 2800 3300 = v.
Proof.
  intros Hv. unfold clamp.
  destruct (Z.ltb_spec v 2800); [lia|].
  destruct (Z.ltb_spec 3300 v); [lia|]. reflexivity.
Qed.

Lemma battery_level_clamp v : battery_level v = battery_level (clamp v 2800 3300).
Proof.
  unfold battery_level. rewrite !min_max_clamp.
  rewrite (clamp_in_range (clamp v 2800 3300)) by apply clamp_range.
  reflexivity.
Qed.



Lemma ascending_lookup (l : list (res float)) :
  ascending l = true ->
  forall (i j : nat) a b, (i <= j)%nat -> l !! i = Some a -> l !! j = Some b ->
  res_le a b = true.
Proof.
  induction l as [|c l IH]; intros Hasc i j a b Hij Hi Hj; [discriminate|].
  cbn [ascending] in Hasc. apply andb_true_iff in Hasc as [Hhead Htail].
  destruct i as [|i].
  - injection Hi as <-. rewrite forallb_forall in Hhead. apply Hhead.
    apply list_elem_of_In. eapply list_elem_of_lookup_2. exact Hj.
  - destruct j as [|j]; [lia|]. cbn in Hi, Hj.
    apply (IH Htail i j); [lia|assumption|assumption].
Qed.


Lemma battery_levels_ascending : ascending battery_levels = true.
Proof. vm_compute. reflexivity. Qed.

Lemma battery_levels_lookup v :
  2800 <= v <= 3300 ->
  battery_levels !! Z.to_nat (v - 2800) = Some (battery_level v).
Proof.
  intros Hv. unfold battery_levels.
  rewrite list_lookup_fmap, lookup_seq_lt by lia. cbn.
  do 2 f_equal. lia.
Qed.

Lemma battery_level_ascending v1 v2 :
  v1 <= v2 -> res_le (battery_level v1) (battery_level v2) = true.
Proof.
  intros Hle.
  rewrite (battery_level_clamp v1), (battery_level_clamp v2).
  pose proof (clamp_range v1). pose proof (clamp_range v2).
  pose proof (clamp_mono v1 v2 Hle).
  eapply (ascending_lookup _ battery_levels_ascending
            (Z.to_nat (clamp v1 2800 3300 - 2800)) (Z.to_nat (clamp v2 2800 3300 - 2800)));
    [lia | apply battery_levels_lookup; lia | apply battery_levels_lookup; lia].
Qed.

Lemma battery_level_empty v : v <= 2800 -> battery_level v = Ok (S754_zero false).
Proof.
  intros Hv. rewrite battery_level_clamp.
  replace (clamp v 2800 3300) with 2800; [vm_compute; reflexivity|].
  unfold clamp. destruct (Z.ltb_spec v 2800); [lia|].
  destruct (Z.ltb_spec 3300 v); lia.
Qed.

Lemma battery_level_full v : 3300 <= v -> battery_level v = Ok f100.
Proof.
  intros Hv. rewrite battery_level_clamp.
  replace (clamp v 2800 3300) with 3300; [vm_compute; reflexivity|].
  unfold clamp. destruct (Z.ltb_spec v 2800); [lia|].
  destruct (Z.ltb_spec 3300 v); lia.
Qed.

(** C7. The battery level is defined for every reading in millivolts, it
    does not decrease when the reading grows, it is exactly 0.0 for every
    reading of at most 2800 and exactly 100.0 for every reading of at least
    3300. *)
Theorem battery_level_monotone_clamped (v1 v2 : Z) :
  v1 <= v2 ->
  exists x1 x2 : float,
    battery_level v1 = Ok x1 /\ battery_level v2 = Ok x2 /\
    float_le x1 x2 = true /\
    (v1 <= 2800 -> x1 = S754_zero false) /\
    (3300 <= v1 -> x1 = f100).
Proof.
  intros Hle.
  pose proof (battery_level_ascending v1 v2 Hle) as Hasc.
  destruct (battery_level v1) as [x1|] eqn:E1; [|discriminate].
  destruct (battery_level v2) as [x2|] eqn:E2; [|discriminate].
  exists x1, x2. repeat split; try assumption.
  - intros Hv. rewrite battery_level_empty in E1 by assumption. congruence.
  - intros Hv. rewrite battery_level_full in E1 by assumption. congruence.
Qed.

Lemma battery_level_monotone_clamped_witness :
  exists x1 x2 : float,
    battery_level 2750 = Ok x1 /\ battery_level 3050 = Ok x2 /\
    float_le x1 x2 = true /\
    (2750 <= 2800 -> x1 = S754_zero false) /\
    (3300 <= 2750 -> x1 = f100).
Proof. apply (battery_level_monotone_clamped 2750 3050). lia. Defined.

(** [round] on doubles as Python computes it: [round(2.675, 2)] is 2.67
    because the double nearest to 2.675 lies below it; 0.125 and 0.375 are
    doubles and exact ties, which go to the even digit. *)
Example round_2_675 :
  py_round (nearest_quotient 2675 1000) 2 = nearest_quotient 267 100.
Proof. vm_compute. reflexivity. Qed.

Example round_0_125 :
  py_round (nearest_quotient 125 1000) 2 = nearest_quotient 12 100.
Proof. vm_compute. reflexivity. Qed.

Example round_0_375 :
  py_round (nearest_quotient 375 1000) 2 = nearest_quotient 38 100.
Proof. vm_compute. reflexivity. Qed.

(** Ints below 2^53 are doubles: [float(n)] is exact and never overflows. *)
Lemma digits2_pos_bounds (m : positive) :
  2 ^ (Zpos (digits2_pos m) - 1) <= Zpos m < 2 ^ Zpos (digits2_pos m).
Proof.
  induction m as [m IH|m IH|]; cbn [digits2_pos].
  - rewrite Pos2Z.inj_succ.
    replace (Z.succ (Zpos (digits2_pos m)) - 1) with (Z.succ (Zpos (digits2_pos m) - 1)) by lia.
    rewrite !Z.pow_succ_r by lia. lia.
  - rewrite Pos2Z.inj_succ.
    replace (Z.succ (Zpos (digits2_pos m)) - 1) with (Z.succ (Zpos (digits2_pos m) - 1)) by lia.
    rewrite !Z.pow_succ_r by lia. lia.
  - cbn. lia.
Qed.

Lemma digits2_pos_iter (m p : positive) :
  digits2_pos (Pos.iter xO m p) = (digits2_pos m + p)%positive.
Proof.
  induction p as [|p IH] using Pos.peano_ind.
  - cbn. lia.
  - rewrite Pos.iter_succ. cbn [digits2_pos]. rewrite IH. lia.
Qed.

Lemma binary_round_small (s : bool) (m : positive) :
  Zpos m < 2 ^ 53 -> is_finite (binary_round prec emax s m 0) = true.
Proof.
  intros Hm.
  pose proof (digits2_pos_bounds m) as [Hlo _].
  assert (Hd : Zpos (digits2_pos m) <= 53).
  { destruct (Z.le_gt_cases (Zpos (digits2_pos m)) 53) as [|Hgt]; [assumption|].
    assert (2 ^ 53 <= 2 ^ (Zpos (digits2_pos m) - 1)) by (apply Z.pow_le_mono_r; lia).
    lia. }
  unfold binary_round, shl_align.
  rewrite Z.add_0_r.
  assert (Hfexp : fexp prec emax (Zpos (digits2_pos m)) = Zpos (digits2_pos m) - 53).
  { unfold fexp, emin, prec, emax. lia. }
  rewrite Hfexp, Z.sub_0_r.
  assert (Hcases : Zpos (digits2_pos m) - 53 = 0 \/
                   exists q, Zpos (digits2_pos m) - 53 = Zneg q).
  { destruct (Zpos (digits2_pos m) - 53) as [|q|q] eqn:Hq; [left; reflexivity|lia|].
    right. exists q. reflexivity. }
  destruct Hcases as [Hq|[q Hq]]; rewrite Hq.
  - unfold binary_round_aux, shr_fexp. cbn [Zdigits2].
    rewrite Z.add_0_r, Hfexp, Hq, Z.sub_0_r.
    cbn [shr shr_record_of_loc round_nearest_even shr_m shr_r shr_s loc_of_shr_record Zdigits2].
    rewrite Z.add_0_r, Hfexp, Hq, Z.sub_0_r.
    cbn [shr shr_record_of_loc shr_m].
    destruct (Z.leb_spec 0 (emax - prec)) as [|Hgt]; [reflexivity|].
    unfold emax, prec in Hgt. lia.
  - unfold binary_round_aux, shr_fexp. cbn [Zdigits2].
    rewrite digits2_pos_iter.
    assert (Hsum : Zpos (digits2_pos m + q) + Zneg q = Zpos (digits2_pos m)) by lia.
    rewrite Hsum, Hfexp, Hq.
    replace (Zneg q - Zneg q) with 0 by lia.
    cbn [shr shr_record_of_loc round_nearest_even shr_m shr_r shr_s loc_of_shr_record Zdigits2].
    rewrite digits2_pos_iter, Hsum, Hfexp, Hq.
    replace (Zneg q - Zneg q) with 0 by lia.
    cbn [shr shr_record_of_loc shr_m].
    destruct (Z.leb_spec (Zneg q) (emax - prec)) as [|Hgt]; [reflexivity|].
    unfold emax, prec in Hgt. lia.
Qed.

Lemma nearest_float_finite (z : Z) :
  Z.abs z < 2 ^ 53 -> is_finite (nearest_float z) = true.
Proof.
  intros Hz. unfold nearest_float, binary_normalize.
  destruct z as [|m|m]; [reflexivity| |]; apply binary_round_small; lia.
Qed.

Lemma contains_lookup (data : payload) k :
  contains data k = match data !! k with Some _ => true | None => false end.
Proof.
  unfold contains. destruct (data !! k) eqn:E.
  - apply bool_decide_eq_true. eauto.
  - apply bool_decide_eq_false. intros [? ?]. discriminate.
Qed.

Lemma quotient_finite k :
  0 <= k <= 500 -> is_finite (nearest_quotient k (max_volt - min_volt)) = true.
Proof.
  intros Hk.
  apply (forallb_range (fun k => is_finite (nearest_quotient k (max_volt - min_volt))) 0 501);
    [vm_compute; reflexivity | lia].
Qed.

Lemma battery_level_percent_of raw : battery_level raw = Ok (percent_of raw).
Proof.
  unfold battery_level, percent_of. rewrite min_max_clamp.
  pose proof (clamp_range raw).
  unfold int_truediv.
  replace (max_volt - min_volt =? 0) with false by reflexivity.
  unfold min_volt at 1 2.
  rewrite quotient_finite by lia. reflexivity.
Qed.

Lemma parse_voltage_present (data : payload) (d : XiaomiDevice) (raw : Z) :
  voltage_field data = Some (VInt raw) ->
  is_finite (nearest_float raw) = true ->
  parse_voltage data d =
    (Ok true,
     set_attribute ATTR_BATTERY_LEVEL (percent_of raw)
       (set_attribute ATTR_VOLTAGE (volts_of raw) d)).
Proof.
  unfold voltage_field, parse_voltage. rewrite !contains_lookup.
  intros Hfield Hfin.
  assert (Hrun : forall k, data !! k = Some (VInt raw) ->
    (let* voltage := lift (getitem data k) in
     match voltage with
     | VStr _ => raise TypeError
     | VInt voltage =>
         let* x := lift (float_of_int voltage) in
         let* volts := lift (float_truediv x f1000) in
         modify (set_attribute ATTR_VOLTAGE (py_round volts 2)) >>
         let* percent := lift (battery_level voltage) in
         modify (set_attribute ATTR_BATTERY_LEVEL percent) >> ret true
     end) d =
    (Ok true,
     set_attribute ATTR_BATTERY_LEVEL (percent_of raw)
       (set_attribute ATTR_VOLTAGE (volts_of raw) d))).
  { intros k Hk. unfold_m. unfold getitem, float_of_int. rewrite Hk, Hfin.
    cbn. rewrite battery_level_percent_of. reflexivity. }
  destruct (data !! "voltage") as [v|] eqn:E.
  - injection Hfield as ->. apply Hrun. exact E.
  - destruct (data !! "battery_voltage") as [v|] eqn:E'; [|discriminate].
    injection Hfield as ->. apply Hrun. exact E'.
Qed.

Lemma parse_voltage_absent (data : payload) (d : XiaomiDevice) :
  voltage_field data = None -> parse_voltage data d = (Ok false, d).
Proof.
  unfold voltage_field, parse_voltage. rewrite !contains_lookup. intros Hnone.
  destruct (data !! "voltage"); [discriminate|]. rewrite Hnone. reflexivity.
Qed.

(** C1. A payload with a voltage member (an int that fits a double) sets
    the voltage attribute to round(raw / 1000, 2) and the battery level to
    round((clamp(raw, 2800, 3300) - 2800) / (3300 - 2800) * 100, 1) and
    returns true; a payload with neither member returns false and leaves
    the device as it was. *)
Theorem parse_voltage_attributes (data : payload) (d : XiaomiDevice) :
  (forall raw : Z,
     voltage_field data = Some (VInt raw) ->
     is_finite (nearest_float raw) = true ->
     parse_voltage data d =
       (Ok true,
        set_attribute ATTR_BATTERY_LEVEL (percent_of raw)
          (set_attribute ATTR_VOLTAGE (volts_of raw) d))) /\
  (voltage_field data = None -> parse_voltage data d = (Ok false, d)).
Proof.
  split.
  - intros raw. apply parse_voltage_present.
  - apply parse_voltage_absent.
Qed.

Lemma parse_voltage_attributes_witness :
  parse_voltage report_3005 door_sensor =
    (Ok true,
     set_attribute ATTR_BATTERY_LEVEL (percent_of 3005)
       (set_attribute ATTR_VOLTAGE (volts_of 3005) door_sensor)).
Proof.
  apply (proj1 (parse_voltage_attributes report_3005 door_sensor) 3005);
    vm_compute; reflexivity.
Defined.

(** The reading 3005 mV: 3.005 is not a double, the double nearest to it
    lies below it, so the voltage rounds to 3.0; the battery level is 41.0. *)
Example volts_of_3005 : volts_of 3005 = nearest_float 3.
Proof. vm_compute. reflexivity. Qed.

Example percent_of_3005 : percent_of 3005 = nearest_float 41.
Proof. vm_compute. reflexivity. Qed.

(** A reading that is a string raises before anything is written. *)
Lemma parse_voltage_str (data : payload) (d : XiaomiDevice) s :
  voltage_field data = Some (VStr s) -> parse_voltage data d = (Raise TypeError, d).
Proof.
  unfold voltage_field, parse_voltage. rewrite !contains_lookup. intros Hfield.
  destruct (data !! "voltage") as [v|] eqn:E.
  - injection Hfield as ->. unfold_m. unfold getitem. rewrite E. reflexivity.
  - destruct (data !! "battery_voltage") as [v|] eqn:E'; [|discriminate].
    injection Hfield as ->. unfold_m. unfold getitem. rewrite E'. reflexivity.
Qed.

(** Every reading below 2^53 in absolute value is decoded. *)
Corollary parse_voltage_returns (data : payload) (d : XiaomiDevice) (raw : Z) :
  voltage_field data = Some (VInt raw) ->
  Z.abs raw < 2 ^ 53 ->
  fst (parse_voltage data d) = Ok true.
Proof.
  intros Hfield Hraw.
  rewrite (parse_voltage_present data d raw Hfield (nearest_float_finite raw Hraw)).
  reflexivity.
Qed.

(** ** The base entity *)

Lemma parse_voltage_frame (data : payload) (d : XiaomiDevice) :
  let d' := snd (parse_voltage data d) in
  _sid d' = _sid d /\
  _is_available d' = _is_available d /\
  _remove_unavailability_tracker d' = _remove_unavailability_tracker d /\
  ha_state_updates d' = ha_state_updates d.
Proof.
  unfold parse_voltage, getitem, float_of_int, float_truediv, battery_level, int_truediv.
  unfold_m. repeat (case_match; cbn); auto.
Qed.

Lemma track_unavailable_run (now : Z) (d : XiaomiDevice) :
  _async_track_unavailable now d =
    (Ok (negb (_is_available d)),
     set_is_available true (set_tracker (Some (now + TIME_TILL_UNAVAILABLE)) d)).
Proof.
  unfold _async_track_unavailable. unfold_m. cbn.
  destruct d as [sid [] attrs tracker n]; reflexivity.
Qed.

Section PushData.
Context {E : Type} `{LawfulEntity E}.

(** What a push does, step by step: the deadline is armed, the decoder
    of the class runs, the voltage decoder runs, the update is scheduled. *)
Lemma push_data_run (now : Z) (data raw_data : payload) (e : E) :
  let armed :=
    with_device
      (set_is_available true
         (set_tracker (Some (now + TIME_TILL_UNAVAILABLE)) (device e))) e in
  push_data now data raw_data e =
    match parse_data data raw_data armed with
    | (Raise ex, e2) => (Raise ex, e2)
    | (Ok is_data, e2) =>
        match parse_voltage data (device e2) with
        | (Raise ex, d3) => (Raise ex, with_device d3 e2)
        | (Ok is_voltage, d3) =>
            if is_data || is_voltage || negb (_is_available (device e)) then
              (Ok tt, with_device (count_state_update d3) e2)
            else (Ok tt, with_device d3 e2)
        end
    end.
Proof.
  cbn zeta. unfold push_data, super, bind at 1.
  rewrite track_unavailable_run.
  unfold bind at 1.
  destruct (parse_data data raw_data _) as [[is_data|ex] e2]; [|reflexivity].
  unfold bind at 1.
  destruct (parse_voltage data (device e2)) as [[is_voltage|ex] d3]; [|reflexivity].
  destruct (is_data || is_voltage || negb (_is_available (device e))).
  - unfold async_schedule_update_ha_state, modify.
    rewrite device_with_device, with_device_twice. reflexivity.
  - reflexivity.
Qed.

(** C6. A push received at [now] leaves the deadline of the entity at
    [now] + 150 minutes and the entity available, whatever the payload;
    when the entity was unavailable and the decoders return, a state
    update is scheduled, whatever the payload. *)
Theorem push_data_rearms_deadline (now : Z) (data raw_data : payload) (e : E) :
  let out := push_data now data raw_data e in
  _remove_unavailability_tracker (device (snd out)) = Some (now + minutes 150) /\
  _is_available (device (snd out)) = true /\
  (_is_available (device e) = false ->
   fst out = Ok tt ->
   ha_state_updates (device (snd out)) = S (ha_state_updates (device e))).
Proof.
  cbn zeta. rewrite push_data_run. cbn zeta.
  set (armed := with_device _ e).
  pose proof (parse_data_device data raw_data armed) as Hdev.
  destruct (parse_data data raw_data armed) as [[is_data|ex] e2]; cbn [snd fst] in *.
  - pose proof (parse_voltage_frame data (device e2)) as Hframe. cbn zeta in Hframe.
    destruct (parse_voltage data (device e2)) as [[is_voltage|ex] d3]; cbn [snd fst] in *;
      rewrite Hdev in Hframe; subst armed; rewrite device_with_device in Hframe;
      cbn in Hframe; destruct Hframe as (_ & Hav & Htr & Hup).
    + destruct (_is_available (device e)) eqn:Hwas.
      * destruct (is_data || is_voltage || negb true); cbn [snd fst];
          rewrite device_with_device; cbn;
          (split; [exact Htr | split; [exact Hav | discriminate]]).
      * replace (is_data || is_voltage || negb false) with true
          by (destruct is_data, is_voltage; reflexivity).
        cbn [snd fst]. rewrite device_with_device. cbn.
        split; [exact Htr | split; [exact Hav | intros _ _; congruence]].
    + rewrite device_with_device.
      split; [exact Htr | split; [exact Hav | discriminate]].
  - rewrite Hdev. subst armed. rewrite device_with_device. cbn.
    split; [reflexivity | split; [reflexivity | discriminate]].
Qed.

End PushData.

(** ** The Zigbee switches *)

Lemma state_is_same b : GenericSwitch.state_is (Some b) b = true.
Proof. destruct b; reflexivity. Qed.

Section Switch.
Import GenericSwitch.
Context `{Builtins}.

Ltac step_parse_data data :=
  match goal with
  | |- context [match data !! ?k with _ => _ end] => destruct (data !! k) eqn:?
  | |- context [py_int ?v] => destruct (py_int v) eqn:?
  | |- context [py_float ?v] => destruct (py_float v) eqn:?
  | |- context [Z.eqb ?n 0] => destruct (Z.eqb n 0) eqn:?
  | |- context [on_or_off ?v] => destruct (on_or_off v) eqn:?
  | |- context [state_is ?a ?b] => destruct (state_is a b) eqn:?
  end;
  cbn -[py_int py_float py_round on_or_off state_is] in *.

Ltac run_parse_data :=
  unfold GenericSwitch.parse_data, getitem;
  unfold_m; cbn [List.find]; rewrite ?contains_lookup.

(** The decoder of the switch writes attributes of the switch only. *)
Lemma parse_data_base (data raw_data : payload) (s : XiaomiGenericSwitch) :
  base (snd (GenericSwitch.parse_data data raw_data s)) = base s.
Proof.
  run_parse_data. destruct s as [d st key inuse lp pc sup].
  cbn -[py_int py_float py_round on_or_off state_is].
  repeat (step_parse_data data; try reflexivity).
Qed.

(** It does not read the base attributes either. *)
Lemma parse_data_set_base (data raw_data : payload) (d : XiaomiDevice)
    (s : XiaomiGenericSwitch) :
  GenericSwitch.parse_data data raw_data (set_base d s) =
    (fst (GenericSwitch.parse_data data raw_data s),
     set_base d (snd (GenericSwitch.parse_data data raw_data s))).
Proof.
  run_parse_data. destruct s as [d0 st key inuse lp pc sup].
  cbn -[py_int py_float py_round on_or_off state_is].
  repeat (step_parse_data data; try reflexivity).
Qed.

(** Decoding the same payload again changes nothing and reports no
    change. *)
Lemma parse_data_again (data raw_data : payload) (s : XiaomiGenericSwitch) :
  let out := GenericSwitch.parse_data data raw_data s in
  GenericSwitch.parse_data data raw_data (snd out) =
    (match fst out with Ok _ => Ok false | Raise ex => Raise ex end, snd out).
Proof.
  cbn zeta. run_parse_data. destruct s as [d0 st key inuse lp pc sup].
  cbn -[py_int py_float py_round on_or_off state_is].
  repeat (step_parse_data data; simplify_eq;
          try match goal with
              | Hs : state_is (Some ?b) ?b = false |- _ =>
                  rewrite state_is_same in Hs; discriminate
              end;
          try congruence; try reflexivity).
Qed.

End Switch.

#[global] Instance switch_lawful `{Builtins} :
  LawfulEntity GenericSwitch.XiaomiGenericSwitch.
Proof.
  split.
  - intros d e. reflexivity.
  - intros []. reflexivity.
  - intros d d' []. reflexivity.
  - intros data raw_data e. apply parse_data_base.
Qed.

Section SwitchPush.
Context `{Builtins}.

(** A push on a switch that is available and on which the payload has
    been decoded already: only the deadline moves. *)
Lemma push_data_settled (now : Z) (data raw_data : payload)
    (s : GenericSwitch.XiaomiGenericSwitch) (r : res bool) :
  voltage_field data = None ->
  _is_available (GenericSwitch.base s) = true ->
  GenericSwitch.parse_data data raw_data s = (r, s) ->
  r <> Ok true ->
  push_data now data raw_data s =
    (match r with Ok _ => Ok tt | Raise ex => Raise ex end,
     GenericSwitch.set_base (set_tracker (Some (now + TIME_TILL_UNAVAILABLE)) (GenericSwitch.base s)) s).
Proof.
  intros Hvolt Hav Hparse Hr.
  rewrite push_data_run. cbn zeta.
  cbn [parse_data device with_device GenericSwitch.entity].
  rewrite parse_data_set_base, Hparse. cbn [fst snd].
  assert (Harmed : set_is_available true
                     (set_tracker (Some (now + TIME_TILL_UNAVAILABLE)) (GenericSwitch.base s)) =
                   set_tracker (Some (now + TIME_TILL_UNAVAILABLE)) (GenericSwitch.base s)).
  { destruct s as [[sid av attrs tr n] ? ? ? ? ? ?]. cbn in Hav. subst av. reflexivity. }
  rewrite Harmed.
  destruct r as [[]|ex]; [congruence| |reflexivity].
  rewrite parse_voltage_absent by assumption.
  rewrite Hav. cbn.
  destruct s; reflexivity.
Qed.

(** C2 (amended). Two pushes in a row with the same payload, the payload
    having no voltage member: the second push ends as the first did,
    schedules no state update, changes no attribute, and moves the
    deadline to 150 minutes after its own time. *)
Theorem push_data_twice (now1 now2 : Z) (data raw_data : payload)
    (s : GenericSwitch.XiaomiGenericSwitch) :
  voltage_field data = None ->
  let first := push_data now1 data raw_data s in
  let second := push_data now2 data raw_data (snd first) in
  fst second = fst first /\
  ha_state_updates (GenericSwitch.base (snd second)) = ha_state_updates (GenericSwitch.base (snd first)) /\
  _remove_unavailability_tracker (GenericSwitch.base (snd second)) = Some (now2 + minutes 150) /\
  snd second =
    GenericSwitch.set_base (set_tracker (Some (now2 + minutes 150)) (GenericSwitch.base (snd first))) (snd first).
Proof.
  intros Hvolt. cbn zeta.
  assert (Hfirst : exists (r : res bool) (s1 : GenericSwitch.XiaomiGenericSwitch),
    push_data now1 data raw_data s = (match r with Ok _ => Ok tt | Raise ex => Raise ex end, s1) /\
    _is_available (GenericSwitch.base s1) = true /\
    GenericSwitch.parse_data data raw_data s1 =
      (match r with Ok _ => Ok false | Raise ex => Raise ex end, s1)).
  { rewrite push_data_run. cbn zeta.
    cbn [parse_data device with_device GenericSwitch.entity].
    rewrite parse_data_set_base.
    pose proof (parse_data_again data raw_data s) as Hagain. cbn zeta in Hagain.
    pose proof (parse_data_base data raw_data s) as Hbase.
    destruct (GenericSwitch.parse_data data raw_data s) as [r sP]. cbn [fst snd] in *.
    exists r.
    destruct r as [is_data|ex].
    - cbn [GenericSwitch.base GenericSwitch.set_base]. rewrite parse_voltage_absent by assumption.
      destruct (is_data || false || negb (_is_available (GenericSwitch.base s)));
        eexists; (split; [reflexivity|]); (split; [reflexivity|]);
        rewrite !parse_data_set_base, Hagain; reflexivity.
    - eexists. split; [reflexivity|]. split; [reflexivity|].
      rewrite !parse_data_set_base, Hagain. reflexivity. }
  destruct Hfirst as (r & s1 & Hpush & Hav & Hparse).
  rewrite Hpush. cbn [fst snd].
  rewrite (push_data_settled now2 data raw_data s1 _ Hvolt Hav Hparse)
    by (destruct r; discriminate).
  cbn [fst snd]. repeat split.
  destruct r; reflexivity.
Qed.

End SwitchPush.

Lemma push_data_twice_witness :
  let first := @push_data _ plain_switch 0 report_on ∅ wall_plug in
  let second := @push_data _ plain_switch (minutes 1) report_on ∅ (snd first) in
  fst second = fst first /\
  ha_state_updates (GenericSwitch.base (snd second)) =
    ha_state_updates (GenericSwitch.base (snd first)) /\
  _remove_unavailability_tracker (GenericSwitch.base (snd second)) =
    Some (minutes 1 + minutes 150) /\
  snd second =
    GenericSwitch.set_base
      (set_tracker (Some (minutes 1 + minutes 150)) (GenericSwitch.base (snd first)))
      (snd first).
Proof.
  apply (@push_data_twice plain_builtins 0 (minutes 1) report_on ∅ wall_plug).
  vm_compute. reflexivity.
Defined.

(** C2, as stated, fails: the same payload pushed twice, with a voltage
    member in it, schedules a state update the second time as well. *)
Lemma push_data_twice_voltage :
  let first := @push_data _ plain_switch 0 report_on_voltage ∅ wall_plug in
  let second := @push_data _ plain_switch (minutes 1) report_on_voltage ∅ (snd first) in
  fst second = Ok tt /\
  GenericSwitch._state (snd second) = GenericSwitch._state (snd first) /\
  ha_state_updates (GenericSwitch.base (snd second)) =
    S (ha_state_updates (GenericSwitch.base (snd first))).
Proof. vm_compute. repeat split. Qed.

Lemma push_data_rearms_deadline_witness :
  let out := @push_data _ plain_switch (minutes 200) (∅ : payload) (∅ : payload) silent_plug in
  _remove_unavailability_tracker (GenericSwitch.base (snd out)) =
    Some (minutes 200 + minutes 150) /\
  _is_available (GenericSwitch.base (snd out)) = true /\
  ha_state_updates (GenericSwitch.base (snd out)) =
    S (ha_state_updates (GenericSwitch.base silent_plug)).
Proof.
  destruct (@push_data_rearms_deadline _ plain_switch (@switch_lawful plain_builtins)
              (minutes 200) (∅ : payload) (∅ : payload) silent_plug)
    as (Htracker & Havailable & Hupdate).
  split; [exact Htracker|]. split; [exact Havailable|].
  apply Hupdate; vm_compute; reflexivity.
Defined.

Section SwitchWrite.
Context `{XiaomiHub}.

Lemma turn_on_run (s : GenericSwitch.XiaomiGenericSwitch) :
  GenericSwitch.turn_on s =
    match write_to_hub (_sid (GenericSwitch.base s)) [(GenericSwitch._data_key s, "on")] with
    | Ok true =>
        (Ok tt,
         GenericSwitch.set_base (count_state_update (GenericSwitch.base s))
           (GenericSwitch.set_state (Some true) s))
    | Ok false => (Ok tt, s)
    | Raise ex => (Raise ex, s)
    end.
Proof.
  unfold GenericSwitch.turn_on, GenericSwitch.schedule_update_ha_state. unfold_m.
  destruct (write_to_hub _ _) as [[]|]; reflexivity.
Qed.

Lemma turn_off_run (s : GenericSwitch.XiaomiGenericSwitch) :
  GenericSwitch.turn_off s =
    match write_to_hub (_sid (GenericSwitch.base s)) [(GenericSwitch._data_key s, "off")] with
    | Ok true =>
        (Ok tt,
         GenericSwitch.set_base (count_state_update (GenericSwitch.base s))
           (GenericSwitch.set_state (Some false) s))
    | Ok false => (Ok tt, s)
    | Raise ex => (Raise ex, s)
    end.
Proof.
  unfold GenericSwitch.turn_off, GenericSwitch.schedule_update_ha_state. unfold_m.
  destruct (write_to_hub _ _) as [[]|]; reflexivity.
Qed.

(** C10. When the write to the hub does not report success, [turn_on] and
    [turn_off] leave the switch as it was: the cached state, every state
    attribute and the count of scheduled updates; a switch that a call
    changed had its write reported as successful. *)
Theorem turn_on_off_frame (s : GenericSwitch.XiaomiGenericSwitch) :
  let on := write_to_hub (_sid (GenericSwitch.base s)) [(GenericSwitch._data_key s, "on")] in
  let off := write_to_hub (_sid (GenericSwitch.base s)) [(GenericSwitch._data_key s, "off")] in
  (on <> Ok true ->
     snd (GenericSwitch.turn_on s) = s /\
     GenericSwitch.device_state_attributes (snd (GenericSwitch.turn_on s)) =
       GenericSwitch.device_state_attributes s) /\
  (off <> Ok true ->
     snd (GenericSwitch.turn_off s) = s /\
     GenericSwitch.device_state_attributes (snd (GenericSwitch.turn_off s)) =
       GenericSwitch.device_state_attributes s) /\
  (snd (GenericSwitch.turn_on s) <> s -> on = Ok true) /\
  (snd (GenericSwitch.turn_off s) <> s -> off = Ok true).
Proof.
  cbn zeta. rewrite turn_on_run, turn_off_run.
  destruct (write_to_hub _ [(_, "on")]) as [[]|];
    destruct (write_to_hub _ [(_, "off")]) as [[]|];
    cbn [snd]; repeat split; congruence.
Qed.

End SwitchWrite.

Lemma turn_on_off_frame_witness :
  (snd (@GenericSwitch.turn_on refusing_hub wall_plug) = wall_plug /\
   GenericSwitch.device_state_attributes (snd (@GenericSwitch.turn_on refusing_hub wall_plug)) =
     GenericSwitch.device_state_attributes wall_plug) /\
  (snd (@GenericSwitch.turn_off refusing_hub wall_plug) = wall_plug /\
   GenericSwitch.device_state_attributes (snd (@GenericSwitch.turn_off refusing_hub wall_plug)) =
     GenericSwitch.device_state_attributes wall_plug).
Proof.
  destruct (@turn_on_off_frame refusing_hub wall_plug) as (Hon & Hoff & _).
  split; [apply Hon | apply Hoff]; discriminate.
Defined.

(** An accepted write turns the switch on and schedules one update. *)
Example turn_on_accepted :
  @GenericSwitch.turn_on accepting_hub wall_plug =
    (Ok tt,
     GenericSwitch.set_base (count_state_update (GenericSwitch.base wall_plug))
       (GenericSwitch.set_state (Some true) wall_plug)).
Proof. reflexivity. Qed.

(** ** The gateway radio switch *)

Section Radio.
Context `{MiioDevice}.

Lemma radio_turn_on_run (s : RadioSwitch.XiaomiGatewayRadioSwitch) :
  RadioSwitch.turn_on s =
    match raw_command "play_fm" ["on"] with
    | Ok resp =>
        match ok_in resp with
        | Ok true => (Ok tt, RadioSwitch.set_state (Some true) s)
        | Ok false => (Ok tt, s)
        | Raise ex => (Raise ex, s)
        end
    | Raise ex => (Raise ex, s)
    end.
Proof.
  unfold RadioSwitch.turn_on. unfold_m.
  destruct (raw_command _ _) as [resp|]; [|reflexivity].
  destruct (ok_in resp) as [[]|]; reflexivity.
Qed.

Lemma radio_turn_off_run (s : RadioSwitch.XiaomiGatewayRadioSwitch) :
  RadioSwitch.turn_off s =
    match raw_command "play_fm" ["off"] with
    | Ok resp =>
        match ok_in resp with
        | Ok true => (Ok tt, RadioSwitch.set_state (Some false) s)
        | Ok false => (Ok tt, s)
        | Raise ex => (Raise ex, s)
        end
    | Raise ex => (Raise ex, s)
    end.
Proof.
  unfold RadioSwitch.turn_off. unfold_m.
  destruct (raw_command _ _) as [resp|]; [|reflexivity].
  destruct (ok_in resp) as [[]|]; reflexivity.
Qed.

(** C9. A reply of the miio client without the acknowledgement ['ok']
    makes [turn_on] and [turn_off] return normally with the switch
    unchanged; a switch that a call changed had a reply with the
    acknowledgement in it. *)
Theorem radio_turn_on_off_acknowledged (s : RadioSwitch.XiaomiGatewayRadioSwitch) :
  (forall resp, raw_command "play_fm" ["on"] = Ok resp -> ok_in resp = Ok false ->
     RadioSwitch.turn_on s = (Ok tt, s)) /\
  (forall resp, raw_command "play_fm" ["off"] = Ok resp -> ok_in resp = Ok false ->
     RadioSwitch.turn_off s = (Ok tt, s)) /\
  (snd (RadioSwitch.turn_on s) <> s ->
     exists resp, raw_command "play_fm" ["on"] = Ok resp /\ ok_in resp = Ok true) /\
  (snd (RadioSwitch.turn_off s) <> s ->
     exists resp, raw_command "play_fm" ["off"] = Ok resp /\ ok_in resp = Ok true).
Proof.
  rewrite radio_turn_on_run, radio_turn_off_run.
  repeat split.
  - intros resp -> ->. reflexivity.
  - intros resp -> ->. reflexivity.
  - destruct (raw_command "play_fm" ["on"]) as [resp|]; [|intros []; reflexivity].
    destruct (ok_in resp) as [[]|] eqn:Hok; cbn [snd]; try (intros []; reflexivity).
    intros _. exists resp. split; [reflexivity | exact Hok].
  - destruct (raw_command "play_fm" ["off"]) as [resp|]; [|intros []; reflexivity].
    destruct (ok_in resp) as [[]|] eqn:Hok; cbn [snd]; try (intros []; reflexivity).
    intros _. exists resp. split; [reflexivity | exact Hok].
Qed.

End Radio.

Lemma radio_turn_on_off_acknowledged_witness :
  @RadioSwitch.turn_on failing_miio radio = (Ok tt, radio) /\
  @RadioSwitch.turn_off failing_miio radio = (Ok tt, radio).
Proof.
  destruct (@radio_turn_on_off_acknowledged failing_miio radio) as (Hon & Hoff & _).
  split; [apply (Hon (MList [VStr "error"])) | apply (Hoff (MList [VStr "error"]))];
    reflexivity.
Defined.

Example radio_turn_on_acknowledged :
  @RadioSwitch.turn_on acknowledging_miio radio =
    (Ok tt, RadioSwitch.set_state (Some true) radio).
Proof. reflexivity. Qed.

(** ** The configuration schema *)

Lemma GATEWAY_CONFIG_required_mac (r : raw_gateway) (c : gateway_config) :
  GATEWAY_CONFIG_MAC_REQUIRED r = Some c -> is_Some (raw_mac r).
Proof.
  unfold GATEWAY_CONFIG_MAC_REQUIRED, GATEWAY_CONFIG, Optional.
  destruct (raw_other_keys r); [|discriminate].
  destruct (raw_key r) as [k|]; [destruct (Length_str 16 16 k)|]; cbn; try discriminate;
    (destruct (raw_port r) as [p|]; [destruct (cv_port p)|]; cbn; try discriminate);
    (destruct (raw_mac r) as [m|]; [eauto | cbn; discriminate]).
Qed.

Lemma mapM_required_mac (l : list raw_gateway) (l' : list gateway_config) :
  mapM GATEWAY_CONFIG_MAC_REQUIRED l = Some l' ->
  Forall (fun r => is_Some (raw_mac r)) l.
Proof.
  intros Hall. apply mapM_Some in Hall.
  induction Hall as [|r c l l' Hr _ IH]; constructor.
  - eapply GATEWAY_CONFIG_required_mac. exact Hr.
  - exact IH.
Qed.

Lemma list_of_length {A B} (schema : A -> option B) min max l l' :
  list_of schema min max l = Some l' ->
  mapM schema l = Some l' /\ (min <= length l)%nat /\
  from_option (fun m => (length l <= m)%nat) True max.
Proof.
  unfold list_of. destruct (mapM schema l) as [k|] eqn:Hk; cbn; [|discriminate].
  pose proof (length_mapM _ _ _ Hk) as Hlen.
  destruct (Nat.leb_spec min (length k)); cbn; [|discriminate].
  destruct max as [m|]; cbn.
  - destruct (Nat.leb_spec (length k) m); [|discriminate].
    intros [= <-]. repeat split; lia.
  - intros [= <-]. repeat split; lia.
Qed.

Lemma gateways_schema_two (r1 r2 : raw_gateway) :
  gateways_schema (RawList [r1; r2]) =
    c1 ← GATEWAY_CONFIG_MAC_REQUIRED r1;
    c2 ← GATEWAY_CONFIG_MAC_REQUIRED r2;
    Some [_fix_conf_defaults c1; _fix_conf_defaults c2].
Proof.
  unfold gateways_schema, Any, list_of. cbn [cv_ensure_list].
  assert (Hopt : (l' ← mapM GATEWAY_CONFIG_MAC_OPTIONAL [r1; r2];
                  if (Nat.leb 0 (length l') &&
                      from_option (Nat.leb (length l')) true (Some 1%nat))%bool
                  then Some l' else None) = None).
  { destruct (mapM GATEWAY_CONFIG_MAC_OPTIONAL [r1; r2]) as [k|] eqn:Hk; [|reflexivity].
    apply length_mapM in Hk. cbn in *.
    destruct k as [|? [|? [|? ?]]]; cbn in Hk; try discriminate. reflexivity. }
  rewrite Hopt. cbn.
  destruct (GATEWAY_CONFIG_MAC_REQUIRED r1); [|reflexivity]. cbn.
  destruct (GATEWAY_CONFIG_MAC_REQUIRED r2); reflexivity.
Qed.

Lemma GATEWAY_CONFIG_required_sid (r : raw_gateway) (c : gateway_config) :
  GATEWAY_CONFIG_MAC_REQUIRED r = Some c -> is_Some (conf_sid c).
Proof.
  intros Hr. pose proof (GATEWAY_CONFIG_required_mac r c Hr) as [m Hm].
  unfold GATEWAY_CONFIG_MAC_REQUIRED, GATEWAY_CONFIG, Optional in Hr.
  destruct (raw_other_keys r); [|discriminate].
  rewrite Hm in Hr.
  destruct (raw_key r) as [k|]; [destruct (Length_str 16 16 k)|]; cbn in Hr;
    try discriminate;
    (destruct (raw_port r) as [p|]; [destruct (cv_port p)|]; cbn in Hr; try discriminate);
    (destruct (GW_MAC m); cbn in Hr; [|discriminate]);
    injection Hr as <-; cbn; eauto.
Qed.

Lemma mapM_required_sid (l : list raw_gateway) (l' : list gateway_config) :
  mapM GATEWAY_CONFIG_MAC_REQUIRED l = Some l' ->
  Forall (fun c => is_Some (conf_sid (_fix_conf_defaults c))) l'.
Proof.
  intros Hall. apply mapM_Some in Hall.
  induction Hall as [|r c l l' Hr _ IH]; constructor; [|exact IH].
  cbn. eapply GATEWAY_CONFIG_required_sid. exact Hr.
Qed.

(** What validation hands to discovery has the validated shape. *)
Lemma gateways_schema_shape (g : raw_gateways) (cfg : list gateway_config) :
  gateways_schema g = Some cfg -> validated_shape cfg.
Proof.
  unfold gateways_schema, Any, validated_shape.
  destruct (list_of GATEWAY_CONFIG_MAC_OPTIONAL 0 (Some 1%nat) (cv_ensure_list g))
    as [l'|] eqn:Hopt.
  - intros [= <-]. left. rewrite length_map.
    apply list_of_length in Hopt as (Hall & _ & Hmax).
    apply length_mapM in Hall. cbn in Hmax. lia.
  - destruct (list_of GATEWAY_CONFIG_MAC_REQUIRED 2 None (cv_ensure_list g))
      as [l'|] eqn:Hreq; [|discriminate].
    intros [= <-]. right.
    apply list_of_length in Hreq as (Hall & _ & _).
    apply Forall_map. eapply mapM_required_sid. exact Hall.
Qed.

(** C8. A gateway list that validation accepts has at most one entry, or
    it has two or more and each of them declares a mac; a single entry is
    accepted without a mac; two entries without a mac are rejected. *)
Theorem gateways_schema_sid_required :
  (forall (g : raw_gateways) (cfg : list gateway_config),
     gateways_schema g = Some cfg ->
     (length (cv_ensure_list g) <= 1)%nat \/
     ((2 <= length (cv_ensure_list g))%nat /\
      Forall (fun r => is_Some (raw_mac r)) (cv_ensure_list g))) /\
  (forall (r : raw_gateway) (c : gateway_config),
     GATEWAY_CONFIG_MAC_OPTIONAL r = Some c ->
     gateways_schema (RawList [r]) = Some [_fix_conf_defaults c]) /\
  (forall r1 r2 : raw_gateway,
     raw_mac r1 = None -> raw_mac r2 = None ->
     gateways_schema (RawList [r1; r2]) = None).
Proof.
  repeat split.
  - intros g cfg. unfold gateways_schema, Any.
    destruct (list_of GATEWAY_CONFIG_MAC_OPTIONAL 0 (Some 1%nat) (cv_ensure_list g))
      as [l'|] eqn:Hopt.
    + intros _. left. apply list_of_length in Hopt as (_ & _ & Hmax). exact Hmax.
    + destruct (list_of GATEWAY_CONFIG_MAC_REQUIRED 2 None (cv_ensure_list g))
        as [l'|] eqn:Hreq; [|discriminate].
      intros _. right. apply list_of_length in Hreq as (Hall & Hmin & _).
      split; [exact Hmin | eapply mapM_required_mac; exact Hall].
  - intros r c Hr. unfold gateways_schema, Any, list_of. cbn.
    rewrite Hr. reflexivity.
  - intros r1 r2 H1 H2. rewrite gateways_schema_two.
    destruct (GATEWAY_CONFIG_MAC_REQUIRED r1) as [c1|] eqn:Hr1; [|reflexivity].
    apply GATEWAY_CONFIG_required_mac in Hr1 as [m Hm]. congruence.
Qed.

Lemma gateways_schema_sid_required_witness :
  ((length (cv_ensure_list (RawList [gateway_upstairs; gateway_downstairs])) <= 1)%nat \/
   ((2 <= length (cv_ensure_list (RawList [gateway_upstairs; gateway_downstairs])))%nat /\
    Forall (fun r => is_Some (raw_mac r))
      (cv_ensure_list (RawList [gateway_upstairs; gateway_downstairs])))) /\
  gateways_schema (RawList [gateway_anonymous "192.168.1.5"]) =
    Some [mkGatewayConfig None (Some "192.168.1.5") (Some 9898) false None None] /\
  gateways_schema
    (RawList [gateway_anonymous "192.168.1.5"; gateway_anonymous "192.168.1.6"]) = None.
Proof.
  destruct gateways_schema_sid_required as (Honly & Hone & Htwo).
  split; [|split].
  - eapply Honly. vm_compute. reflexivity.
  - exact (Hone (gateway_anonymous "192.168.1.5")
             (mkGatewayConfig None (Some "192.168.1.5") (Some 9898) false None None)
             eq_refl).
  - apply Htwo; reflexivity.
Defined.

(** C4, as stated, fails: two entries with the same mac pass validation,
    and both come out with the same sid. *)
Lemma duplicate_sid_accepted :
  gateways_schema (RawList [gateway_upstairs; gateway_downstairs]) =
    Some [mkGatewayConfig (Some "0123456789abcdef") (Some "192.168.1.5") (Some 9898)
            false None (Some "7811dcb07917");
          mkGatewayConfig (Some "fedcba9876543210") (Some "192.168.1.6") (Some 9898)
            false None (Some "7811dcb07917")].
Proof. vm_compute. reflexivity. Qed.

(** C4 (amended). Two entries that declare the same sid are accepted by
    validation as soon as each of them is valid on its own: the schema
    checks the entries one by one and the length of the list, and never
    compares two sids. *)
Theorem gateways_schema_duplicate_sid (r1 r2 : raw_gateway) (c1 c2 : gateway_config) :
  GATEWAY_CONFIG_MAC_REQUIRED r1 = Some c1 ->
  GATEWAY_CONFIG_MAC_REQUIRED r2 = Some c2 ->
  conf_sid c1 = conf_sid c2 ->
  gateways_schema (RawList [r1; r2]) =
    Some [_fix_conf_defaults c1; _fix_conf_defaults c2] /\
  conf_sid (_fix_conf_defaults c1) = conf_sid (_fix_conf_defaults c2).
Proof.
  intros H1 H2 Hsid. rewrite gateways_schema_two, H1, H2. split; [reflexivity | exact Hsid].
Qed.

Lemma gateways_schema_duplicate_sid_witness :
  gateways_schema (RawList [gateway_upstairs; gateway_downstairs]) =
    Some [_fix_conf_defaults
            (mkGatewayConfig (Some "0123456789abcdef") (Some "192.168.1.5") (Some 9898)
               false None (Some "7811dcb07917"));
          _fix_conf_defaults
            (mkGatewayConfig (Some "fedcba9876543210") (Some "192.168.1.6") (Some 9898)
               false None (Some "7811dcb07917"))] /\
  conf_sid (_fix_conf_defaults
              (mkGatewayConfig (Some "0123456789abcdef") (Some "192.168.1.5") (Some 9898)
                 false None (Some "7811dcb07917"))) =
  conf_sid (_fix_conf_defaults
              (mkGatewayConfig (Some "fedcba9876543210") (Some "192.168.1.6") (Some 9898)
                 false None (Some "7811dcb07917"))).
Proof.
  apply (gateways_schema_duplicate_sid gateway_upstairs gateway_downstairs);
    vm_compute; reflexivity.
Defined.

(** ** Gateway discovery *)

(** A relation that every step respects is respected by the loop, whether
    it runs to its end or stops on an exception. *)
Lemma for_each_preserves {S A} (R : S -> S -> Prop) (body : A -> M S unit) :
  (forall s, R s s) ->
  (forall s1 s2 s3, R s1 s2 -> R s2 s3 -> R s1 s3) ->
  (forall a s, R s (snd (body a s))) ->
  forall l s, R s (snd (for_each body l s)).
Proof.
  intros Hrefl Htrans Hstep l.
  induction l as [|a l IH]; intros s; cbn; [apply Hrefl|].
  unfold bind. pose proof (Hstep a s) as Ha.
  destruct (body a s) as [[u|ex] s']; cbn in *.
  - eapply Htrans; [exact Ha | apply IH].
  - exact Ha.
Qed.

Lemma extends_refl x : extends x x.
Proof. unfold extends. auto. Qed.

Lemma extends_trans x1 x2 x3 : extends x1 x2 -> extends x2 x3 -> extends x1 x3.
Proof.
  unfold extends. intros (Hc & Hi & Hr & Hg & Hd) (Hc' & Hi' & Hr' & Hg' & Hd').
  repeat split; try congruence; auto.
Qed.

Lemma extends_append_disabled ip x : extends x (append_disabled ip x).
Proof.
  unfold extends. cbn. repeat split; auto.
  intros ip' Hin. apply elem_of_app. left. exact Hin.
Qed.

Lemma extends_set_gateway ip g x :
  gateways x !! ip = None -> extends x (set_gateway ip g x).
Proof.
  unfold extends. cbn. intros Hnew. repeat split; auto.
  intros ip' g' Hg'. rewrite lookup_insert_ne; [exact Hg' | congruence].
Qed.

Section Discovery.
Context `{Resolver} `{GatewayLibrary}.

Lemma configure_gateway_run (gateway : gateway_config) (x : XiaomiMiioGatewayDiscovery) :
  configure_gateway gateway x = (Ok tt, configured x gateway).
Proof.
  unfold configure_gateway, configured, static_address, static_hub.
  destruct (truthy_str (conf_host gateway)) as [host|] eqn:Hhost; [|reflexivity].
  destruct (truthy_int (conf_port gateway)) as [port|] eqn:Hport; [|reflexivity].
  destruct (truthy_str (conf_sid gateway)) as [sid|] eqn:Hsid; [|reflexivity].
  destruct (gethostbyname host) as [ip|]; [|reflexivity].
  destruct (conf_disable gateway); [reflexivity|].
  unfold_m. cbn.
  replace (default 0 (conf_port gateway)) with port.
  2:{ unfold truthy_int in Hport. destruct (conf_port gateway) as [p|]; [|discriminate].
      destruct (p =? 0); [discriminate|]. injection Hport as <-. reflexivity. }
  replace (default "" (conf_sid gateway)) with sid.
  2:{ unfold truthy_str in Hsid. destruct (conf_sid gateway) as [s|]; [|discriminate].
      destruct (String.eqb s ""); [discriminate|]. injection Hsid as <-. reflexivity. }
  reflexivity.
Qed.

Lemma for_each_configure (l : list gateway_config) (x : XiaomiMiioGatewayDiscovery) :
  for_each configure_gateway l x = (Ok tt, fold_left configured l x).
Proof.
  revert x. induction l as [|g l IH]; intros x; cbn; [reflexivity|].
  unfold bind. rewrite configure_gateway_run. apply IH.
Qed.

Lemma configured_fields (gateway : gateway_config) (x : XiaomiMiioGatewayDiscovery) :
  _gateways_config (configured x gateway) = _gateways_config x /\
  _interface (configured x gateway) = _interface x /\
  _device_discovery_retries (configured x gateway) = _device_discovery_retries x /\
  (forall ip, ip ∈ disabled_gateways x -> ip ∈ disabled_gateways (configured x gateway)).
Proof.
  unfold configured. destruct (static_address gateway) as [ip|]; [|auto].
  destruct (conf_disable gateway); cbn; repeat split; auto.
  intros ip' Hin. apply elem_of_app. left. exact Hin.
Qed.

Lemma fold_configured_fields (l : list gateway_config) (x : XiaomiMiioGatewayDiscovery) :
  _gateways_config (fold_left configured l x) = _gateways_config x /\
  _interface (fold_left configured l x) = _interface x /\
  _device_discovery_retries (fold_left configured l x) = _device_discovery_retries x /\
  (forall ip, ip ∈ disabled_gateways x -> ip ∈ disabled_gateways (fold_left configured l x)).
Proof.
  revert x. induction l as [|g l IH]; intros x; cbn; [auto|].
  destruct (IH (configured x g)) as (Hc & Hi & Hr & Hd).
  destruct (configured_fields g x) as (Hc' & Hi' & Hr' & Hd').
  repeat split; try congruence. auto.
Qed.



End Discovery.

(** The loop that matches a response to the configuration. *)

Lemma match_config_snoc (resp_sid : string) (cfg : list gateway_config) (g : gateway_config) :
  match_config resp_sid (cfg ++ [g])%list = match_entry resp_sid (match_config resp_sid cfg) g.
Proof. unfold match_config. rewrite fold_left_app. reflexivity. Qed.

Lemma filter_snoc {A} (f : A -> bool) (l : list A) (a : A) :
  List.filter f (l ++ [a])%list = if f a then (List.filter f l ++ [a])%list else List.filter f l.
Proof.
  rewrite List.filter_app. cbn. destruct (f a); [reflexivity | apply app_nil_r].
Qed.

Lemma match_config_key (resp_sid : string) (cfg : list gateway_config) :
  snd (match_config resp_sid cfg) =
    last (List.filter
            (fun g => bool_decide (conf_sid g = None \/ conf_sid g = Some resp_sid)) cfg)
      ≫= conf_key.
Proof.
  induction cfg as [|g cfg IH] using rev_ind; [reflexivity|].
  rewrite match_config_snoc, filter_snoc. unfold match_entry at 1. cbn [snd].
  destruct (bool_decide (conf_sid g = None \/ conf_sid g = Some resp_sid)).
  - rewrite last_snoc. reflexivity.
  - exact IH.
Qed.

Lemma match_config_disabled (resp_sid : string) (cfg : list gateway_config) :
  fst (match_config resp_sid cfg) = disabled_by_sid resp_sid cfg.
Proof.
  induction cfg as [|g cfg IH] using rev_ind; [reflexivity|].
  rewrite match_config_snoc. unfold disabled_by_sid in *. rewrite existsb_app.
  unfold match_entry at 1. cbn [fst existsb]. rewrite IH, Bool.orb_false_r.
  set (seen := existsb _ cfg).
  assert (Hcond :
    (bool_decide (is_Some (truthy_str (conf_sid g))) &&
     bool_decide (conf_sid g = Some resp_sid) && conf_disable g)%bool =
    (bool_decide (conf_sid g = Some resp_sid) && negb (String.eqb resp_sid "") &&
     conf_disable g)%bool).
  { destruct (decide (conf_sid g = Some resp_sid)) as [Hsid|Hsid].
    - rewrite Hsid.
      rewrite (bool_decide_eq_true_2 (Some resp_sid = Some resp_sid)) by reflexivity.
      cbn [truthy_str]. destruct (String.eqb resp_sid ""); cbn.
      + first [reflexivity
              | rewrite bool_decide_eq_false_2 by (intros [? ?]; discriminate); reflexivity].
      + first [reflexivity | rewrite bool_decide_eq_true_2 by eauto; reflexivity].
    - rewrite (bool_decide_eq_false_2 _ Hsid). cbn.
      rewrite Bool.andb_false_r. reflexivity. }
  rewrite Hcond.
  destruct (bool_decide (conf_sid g = Some resp_sid) && negb (String.eqb resp_sid "") &&
            conf_disable g)%bool; [rewrite Bool.orb_true_r | rewrite Bool.orb_false_r]; reflexivity.
Qed.

Lemma filter_none {A} (f : A -> bool) (l : list A) :
  Forall (fun a => f a = false) l -> List.filter f l = [].
Proof.
  induction 1 as [|a l Ha _ IH]; cbn; [reflexivity|]. rewrite Ha, IH. reflexivity.
Qed.

Lemma filter_ext_Forall {A} (f g : A -> bool) (l : list A) :
  Forall (fun a => f a = g a) l -> List.filter f l = List.filter g l.
Proof.
  induction 1 as [|a l Ha _ IH]; cbn; [reflexivity|]. rewrite Ha, IH. reflexivity.
Qed.

(** On a configuration of the validated shape, the entry whose key the
    loop keeps is the entry the specification matches. *)
Lemma matched_entry_last (resp_sid : string) (cfg : list gateway_config) :
  validated_shape cfg ->
  last (List.filter
          (fun g => bool_decide (conf_sid g = None \/ conf_sid g = Some resp_sid)) cfg) =
    matched_entry resp_sid cfg.
Proof.
  unfold validated_shape, matched_entry. intros [Hshort|Hall].
  - destruct cfg as [|g [|g' cfg]]; [reflexivity| |cbn in Hshort; lia].
    cbn. destruct (conf_sid g) as [s|].
    + destruct (decide (s = resp_sid)) as [->|Hne].
      * rewrite !bool_decide_eq_true_2 by auto. cbn.
        reflexivity.
      * rewrite !bool_decide_eq_false_2 by (try intros [|]; congruence). reflexivity.
    + rewrite bool_decide_eq_true_2 by auto.
      rewrite bool_decide_eq_false_2 by discriminate.
      rewrite bool_decide_eq_true_2 by reflexivity. reflexivity.
  - rewrite (filter_ext_Forall _ (fun g => bool_decide (conf_sid g = Some resp_sid))).
    2:{ eapply Forall_impl; [exact Hall|]. intros g [s Hs]. cbn. rewrite Hs.
        apply bool_decide_ext. split; [intros [|]; congruence | auto]. }
    rewrite (filter_none (fun g => bool_decide (conf_sid g = None))).
    2:{ eapply Forall_impl; [exact Hall|]. intros g [s Hs]. cbn. rewrite Hs.
        apply bool_decide_eq_false_2. discriminate. }
    destruct (last _); reflexivity.
Qed.

Section Receive.
Context `{GatewayLibrary}.

(** The receive loop never forgets a hub or a disabled address. *)
Lemma receive_extends (dg : datagram) (x : XiaomiMiioGatewayDiscovery) :
  extends x (snd (receive dg x)).
Proof.
  destruct dg as [ip decoded]. unfold receive, member. unfold_m. cbn.
  destruct (bool_decide (is_Some (gateways x !! ip))) eqn:Hknown; [apply extends_refl|].
  apply bool_decide_eq_false in Hknown.
  assert (Hnew : gateways x !! ip = None).
  { destruct (gateways x !! ip); [exfalso; eauto | reflexivity]. }
  destruct (bool_decide (ip ∈ disabled_gateways x)); [apply extends_refl|].
  destruct decoded as [resp|]; [|apply extends_refl].
  destruct (msg_cmd resp) as [cmd|]; [|apply extends_refl].
  destruct (negb (String.eqb cmd "iam")); [apply extends_refl|].
  destruct (msg_model resp) as [model|]; [|apply extends_refl].
  destruct (negb (bool_decide (model ∈ GATEWAY_MODELS))); [apply extends_refl|].
  destruct (msg_sid resp) as [sid|]; [|apply extends_refl].
  destruct (match_config sid (_gateways_config x)) as [[] gateway_key].
  - apply extends_append_disabled.
  - destruct (msg_port resp) as [port|]; [|apply extends_refl].
    destruct (last (_gateways_config x)); [|apply extends_refl].
    apply extends_set_gateway. exact Hnew.
Qed.

Lemma for_each_receive_extends (received : list datagram) (x : XiaomiMiioGatewayDiscovery) :
  extends x (snd (for_each receive received x)).
Proof.
  apply (for_each_preserves extends);
    [apply extends_refl | apply extends_trans | apply receive_extends].
Qed.

(** What the loop does with an ['iam'] response of a known model from a
    new address, the configuration not being empty. *)
Lemma receive_iam_run (x : XiaomiMiioGatewayDiscovery) (ip : string) (resp : message)
    (model sid : string) (port : value) (gateway : gateway_config) :
  gateways x !! ip = None ->
  ip ∉ disabled_gateways x ->
  msg_cmd resp = Some "iam" ->
  msg_model resp = Some model -> model ∈ GATEWAY_MODELS ->
  msg_sid resp = Some sid ->
  msg_port resp = Some port ->
  last (_gateways_config x) = Some gateway ->
  receive (ip, Some resp) x =
    (Ok tt,
     if fst (match_config sid (_gateways_config x)) then append_disabled ip x
     else
       set_gateway ip
         (XiaomiMiioGateway__init__ ip port sid
            (snd (match_config sid (_gateways_config x)))
            (_device_discovery_retries x) (_interface x) (msg_proto_version resp)
            (conf_miio_token gateway)) x).
Proof.
  intros Hnew Hen Hcmd Hmodel Hknown Hsid Hport Hlast.
  unfold receive, member. unfold_m. cbn.
  rewrite Hnew.
  rewrite bool_decide_eq_false_2 by (intros [? ?]; discriminate).
  rewrite (bool_decide_eq_false_2 _ Hen).
  rewrite Hcmd. cbn. rewrite Hmodel.
  rewrite (bool_decide_eq_true_2 _ Hknown). cbn. rewrite Hsid.
  destruct (match_config sid (_gateways_config x)) as [[] gateway_key]; [reflexivity|].
  rewrite Hport, Hlast. reflexivity.
Qed.

End Receive.

Section DiscoverGateways.
Context `{Resolver} `{GatewayLibrary}.

Lemma discover_gateways_run (received : list datagram) (x : XiaomiMiioGatewayDiscovery) :
  discover_gateways received x =
    for_each receive received (fold_left configured (_gateways_config x) x).
Proof.
  unfold discover_gateways. unfold bind at 1. unfold gets at 1.
  unfold bind at 1. rewrite for_each_configure. reflexivity.
Qed.


(** C5 (amended). An ['iam'] response of a known model from a new
    address, the configuration being of the validated shape and not
    empty: when an entry with the serial of the response is marked
    disabled the address is recorded as disabled and no hub is created;
    otherwise a hub is created at the address with the key of the entry
    matched to the serial (none when no entry matches). *)
Theorem receive_iam_matched (x : XiaomiMiioGatewayDiscovery) (ip : string)
    (resp : message) (model resp_sid : string) (resp_port : value) :
  gateways x !! ip = None ->
  ip ∉ disabled_gateways x ->
  msg_cmd resp = Some "iam" ->
  msg_model resp = Some model -> model ∈ GATEWAY_MODELS ->
  msg_sid resp = Some resp_sid ->
  msg_port resp = Some resp_port ->
  _gateways_config x <> [] ->
  validated_shape (_gateways_config x) ->
  let out := receive (ip, Some resp) x in
  fst out = Ok tt /\
  if disabled_by_sid resp_sid (_gateways_config x) then
    snd out = append_disabled ip x
  else
    exists hub,
      snd out = set_gateway ip hub x /\
      key hub = matched_entry resp_sid (_gateways_config x) ≫= conf_key /\
      sid hub = resp_sid /\ ip_adress hub = ip /\ port hub = resp_port.
Proof.
  intros Hnew Hen Hcmd Hmodel Hknown Hsid Hport Hcfg Hshape. cbn zeta.
  destruct (last (_gateways_config x)) as [gateway|] eqn:Hlast.
  2:{ apply last_None in Hlast. contradiction. }
  rewrite (receive_iam_run x ip resp model resp_sid resp_port gateway) by assumption.
  cbn [fst snd]. split; [reflexivity|].
  rewrite match_config_disabled.
  destruct (disabled_by_sid resp_sid (_gateways_config x)); [reflexivity|].
  eexists. split; [reflexivity|]. cbn.
  rewrite match_config_key, matched_entry_last by assumption. auto.
Qed.

(** The miio token of a hub created from a response is the token of the
    last entry of the configuration, matched or not. *)
Lemma receive_iam_miio_token (x : XiaomiMiioGatewayDiscovery) (ip : string)
    (resp : message) (model resp_sid : string) (resp_port : value)
    (gateway : gateway_config) :
  gateways x !! ip = None ->
  ip ∉ disabled_gateways x ->
  msg_cmd resp = Some "iam" ->
  msg_model resp = Some model -> model ∈ GATEWAY_MODELS ->
  msg_sid resp = Some resp_sid ->
  msg_port resp = Some resp_port ->
  last (_gateways_config x) = Some gateway ->
  disabled_by_sid resp_sid (_gateways_config x) = false ->
  miio_token <$> gateways (snd (receive (ip, Some resp) x)) !! ip =
    Some (conf_miio_token gateway).
Proof.
  intros Hnew Hen Hcmd Hmodel Hknown Hsid Hport Hlast Hdis.
  rewrite (receive_iam_run x ip resp model resp_sid resp_port gateway) by assumption.
  rewrite match_config_disabled, Hdis. cbn.
  rewrite lookup_insert_eq. reflexivity.
Qed.

(** With an empty configuration the response raises: the variable
    [gateway] was never bound. *)
Lemma receive_iam_unbound (x : XiaomiMiioGatewayDiscovery) (ip : string)
    (resp : message) (model resp_sid : string) (resp_port : value) :
  gateways x !! ip = None ->
  ip ∉ disabled_gateways x ->
  msg_cmd resp = Some "iam" ->
  msg_model resp = Some model -> model ∈ GATEWAY_MODELS ->
  msg_sid resp = Some resp_sid ->
  msg_port resp = Some resp_port ->
  _gateways_config x = [] ->
  receive (ip, Some resp) x = (Raise UnboundLocalError, x).
Proof.
  intros Hnew Hen Hcmd Hmodel Hknown Hsid Hport Hcfg.
  unfold receive, member. unfold_m. cbn.
  rewrite Hnew.
  rewrite bool_decide_eq_false_2 by (intros [? ?]; discriminate).
  rewrite (bool_decide_eq_false_2 _ Hen).
  rewrite Hcmd. cbn. rewrite Hmodel.
  rewrite (bool_decide_eq_true_2 _ Hknown). cbn. rewrite Hsid, Hcfg. cbn.
  rewrite Hport. reflexivity.
Qed.

End DiscoverGateways.



(** C5, as stated, fails: the only entry has no sid and is marked
    disabled; it is the entry matched to the response, and yet the address
    is not recorded as disabled and a hub is created with the key of the
    entry. *)
Lemma disabled_entry_without_sid_instantiated :
  matched_entry "7811dcb07917" [disabled_entry_without_sid] = Some disabled_entry_without_sid /\
  conf_disable disabled_entry_without_sid = true /\
  fst (@receive aqara_models iam_kitchen (discovery_of [disabled_entry_without_sid])) = Ok tt /\
  disabled_gateways
    (snd (@receive aqara_models iam_kitchen (discovery_of [disabled_entry_without_sid]))) = [] /\
  key <$> gateways
    (snd (@receive aqara_models iam_kitchen (discovery_of [disabled_entry_without_sid])))
    !! "192.168.1.7" = Some (Some "0123456789abcdef").
Proof. vm_compute. repeat split. Qed.

Lemma receive_iam_matched_witness :
  fst (@receive aqara_models iam_kitchen (discovery_of [entry_kitchen; entry_garage])) = Ok tt /\
  exists hub,
    snd (@receive aqara_models iam_kitchen (discovery_of [entry_kitchen; entry_garage])) =
      set_gateway "192.168.1.7" hub (discovery_of [entry_kitchen; entry_garage]) /\
    key hub = matched_entry "7811dcb07917" [entry_kitchen; entry_garage] ≫= conf_key /\
    sid hub = "7811dcb07917" /\ ip_adress hub = "192.168.1.7" /\ port hub = VStr "9898".
Proof.
  apply (@receive_iam_matched aqara_models (discovery_of [entry_kitchen; entry_garage])
           "192.168.1.7" _ "gateway" "7811dcb07917" (VStr "9898")).
  - reflexivity.
  - intros Hin. apply elem_of_nil in Hin. exact Hin.
  - reflexivity.
  - reflexivity.
  - apply list_elem_of_here.
  - reflexivity.
  - reflexivity.
  - discriminate.
  - right. repeat constructor; eauto.
Defined.

(** The hub of the kitchen gateway gets the key of its own entry and the
    miio token of the garage entry, the last of the configuration. *)
Example iam_kitchen_token :
  let x' := snd (@receive aqara_models iam_kitchen (discovery_of [entry_kitchen; entry_garage])) in
  key <$> gateways x' !! "192.168.1.7" = Some (Some "kitchenkitchen16") /\
  miio_token <$> gateways x' !! "192.168.1.7" = Some (Some "garage-token") /\
  conf_miio_token entry_kitchen = Some "kitchen-token".
Proof. vm_compute. repeat split. Qed.

(** * Further properties of the code *)

(** ** The configuration schema, continued *)

Lemma lower_ascii_idem (c : ascii) : lower_ascii (lower_ascii c) = lower_ascii c.
Proof. destruct c as [[] [] [] [] [] [] [] []]; reflexivity. Qed.

Lemma lower_ascii_colon (c : ascii) :
  Ascii.eqb (lower_ascii c) ":"%char = Ascii.eqb c ":"%char.
Proof. destruct c as [[] [] [] [] [] [] [] []]; reflexivity. Qed.

Lemma str_lower_idem (s : string) : str_lower (str_lower s) = str_lower s.
Proof.
  induction s as [|c s IH]; cbn; [reflexivity|]. rewrite lower_ascii_idem, IH. reflexivity.
Qed.

Lemma str_lower_length (s : string) : String.length (str_lower s) = String.length s.
Proof. induction s as [|c s IH]; cbn; [reflexivity|]. rewrite IH. reflexivity. Qed.

Lemma remove_colons_idem (s : string) : remove_colons (remove_colons s) = remove_colons s.
Proof.
  induction s as [|c s IH]; cbn; [reflexivity|].
  destruct (Ascii.eqb c ":"%char) eqn:Hc; [exact IH|].
  cbn. rewrite Hc, IH. reflexivity.
Qed.

Lemma remove_colons_lower (s : string) :
  remove_colons (str_lower s) = str_lower (remove_colons s).
Proof.
  induction s as [|c s IH]; cbn; [reflexivity|].
  rewrite lower_ascii_colon. destruct (Ascii.eqb c ":"%char); [exact IH|].
  cbn. rewrite IH. reflexivity.
Qed.

Lemma Length_str_Some (min max : nat) (s t : string) :
  Length_str min max s = Some t ->
  t = s /\ (min <= String.length s)%nat /\ (String.length s <= max)%nat.
Proof.
  unfold Length_str.
  destruct (Nat.leb_spec min (String.length s)); cbn; [|discriminate].
  destruct (Nat.leb_spec (String.length s) max); [|discriminate].
  intros [= <-]. auto.
Qed.

(** X1. A mac that [GW_MAC] accepts comes out with 12 characters, without
    colon and without capital, and [GW_MAC] maps its own result to itself. *)
Theorem GW_MAC_normal_form (v m : string) :
  GW_MAC v = Some m ->
  String.length m = 12%nat /\ remove_colons m = m /\ str_lower m = m /\
  GW_MAC m = Some m.
Proof.
  unfold GW_MAC. intros Hv.
  apply Length_str_Some in Hv as (-> & Hmin & Hmax).
  assert (Hrc : remove_colons (str_lower (remove_colons v)) = str_lower (remove_colons v))
    by (rewrite remove_colons_lower, remove_colons_idem; reflexivity).
  repeat split.
  - lia.
  - exact Hrc.
  - apply str_lower_idem.
  - rewrite Hrc, str_lower_idem. unfold Length_str.
    destruct (Nat.leb_spec 12 (String.length (str_lower (remove_colons v)))); [|lia].
    destruct (Nat.leb_spec (String.length (str_lower (remove_colons v))) 12); [|lia].
    reflexivity.
Qed.

Lemma GW_MAC_normal_form_witness :
  String.length "7811dcb07917" = 12%nat /\ remove_colons "7811dcb07917" = "7811dcb07917" /\
  str_lower "7811dcb07917" = "7811dcb07917" /\ GW_MAC "7811dcb07917" = Some "7811dcb07917".
Proof. apply (GW_MAC_normal_form "78:11:DC:B0:79:17"). reflexivity. Defined.

Lemma Optional_Some {A B} (validate : A -> option B) (v : option A) (o : option B) :
  Optional validate v = Some o ->
  o = v ≫= validate /\ (forall b, o = Some b -> exists a, v = Some a /\ validate a = Some b).
Proof.
  unfold Optional. destruct v as [a|]; cbn.
  - destruct (validate a) as [b|] eqn:Ha; [|discriminate].
    intros [= <-]. split; [reflexivity|]. intros b' [= <-]. eauto.
  - intros [= <-]. split; [reflexivity | discriminate].
Qed.

Lemma GATEWAY_CONFIG_Some (required : bool) (r : raw_gateway) (c : gateway_config) :
  GATEWAY_CONFIG required r = Some c ->
  exists key port mac,
    Optional (Length_str 16 16) (raw_key r) = Some key /\
    Optional cv_port (raw_port r) = Some port /\
    Optional GW_MAC (raw_mac r) = Some mac /\
    c = mkGatewayConfig key (raw_host r) (Some (default 9898 port))
          (default false (raw_disable r)) (raw_miio_token r) mac.
Proof.
  unfold GATEWAY_CONFIG. destruct (raw_other_keys r); [|discriminate].
  destruct (Optional (Length_str 16 16) (raw_key r)) as [key|]; [|discriminate].
  destruct (Optional cv_port (raw_port r)) as [port|]; [|discriminate].
  destruct (Optional GW_MAC (raw_mac r)) as [mac|]; [|discriminate].
  cbn. destruct (required && negb (bool_decide (is_Some mac)))%bool; [discriminate|].
  intros [= <-]. eauto 10.
Qed.

Lemma cv_port_Some (p q : Z) : cv_port p = Some q -> q = p /\ 1 <= p <= 65535.
Proof.
  unfold cv_port. destruct (Z.leb_spec 1 p); cbn; [|discriminate].
  destruct (Z.leb_spec p 65535); [|discriminate]. intros [= <-]. lia.
Qed.

Lemma GATEWAY_CONFIG_well_formed (required : bool) (r : raw_gateway) (c : gateway_config) :
  GATEWAY_CONFIG required r = Some c ->
  entry_well_formed (_fix_conf_defaults c) /\
  conf_sid (_fix_conf_defaults c) = raw_mac r ≫= GW_MAC /\
  conf_host (_fix_conf_defaults c) = raw_host r.
Proof.
  intros Hr. apply GATEWAY_CONFIG_Some in Hr as (key & port & mac & Hkey & Hport & Hmac & ->).
  apply Optional_Some in Hkey as (_ & Hkey).
  apply Optional_Some in Hport as (_ & Hport).
  apply Optional_Some in Hmac as (Hsid & Hmac).
  split; [|split; [exact Hsid | reflexivity]].
  unfold entry_well_formed. cbn. split; [|split; [|split]].
  - intros k ->. destruct (Hkey k eq_refl) as (k0 & _ & Hlen).
    apply Length_str_Some in Hlen as (-> & Hmin & Hmax). lia.
  - destruct (raw_host r); split; congruence.
  - destruct (raw_host r); [|discriminate]. intros p [= <-].
    destruct port as [q|]; cbn; [|lia].
    destruct (Hport q eq_refl) as (p0 & _ & Hp). apply cv_port_Some in Hp. lia.
  - intros s ->. destruct (Hmac s eq_refl) as (m0 & _ & Hm).
    eapply GW_MAC_normal_form. exact Hm.
Qed.

Lemma mapM_GATEWAY_CONFIG (required : bool) (l : list raw_gateway)
    (l' : list gateway_config) :
  mapM (GATEWAY_CONFIG required) l = Some l' ->
  Forall entry_well_formed (map _fix_conf_defaults l') /\
  map conf_sid (map _fix_conf_defaults l') = map (fun r => raw_mac r ≫= GW_MAC) l /\
  map conf_host (map _fix_conf_defaults l') = map raw_host l.
Proof.
  intros Hall. apply mapM_Some in Hall.
  induction Hall as [|r c l l' Hr _ (IHwf & IHsid & IHhost)]; cbn [map].
  - split; [constructor | split; reflexivity].
  - destruct (GATEWAY_CONFIG_well_formed required r c Hr) as (Hwf & Hsid & Hhost).
    split; [constructor; assumption|]. split; congruence.
Qed.

Lemma gateways_schema_mapM (g : raw_gateways) (cfg : list gateway_config) :
  gateways_schema g = Some cfg ->
  exists required l',
    mapM (GATEWAY_CONFIG required) (cv_ensure_list g) = Some l' /\
    cfg = map _fix_conf_defaults l'.
Proof.
  unfold gateways_schema, Any.
  destruct (list_of GATEWAY_CONFIG_MAC_OPTIONAL 0 (Some 1%nat) (cv_ensure_list g))
    as [l'|] eqn:Hopt.
  - intros [= <-]. exists false, l'.
    apply list_of_length in Hopt as (Hall & _ & _). split; [exact Hall | reflexivity].
  - destruct (list_of GATEWAY_CONFIG_MAC_REQUIRED 2 None (cv_ensure_list g))
      as [l'|] eqn:Hreq; [|discriminate].
    intros [= <-]. exists true, l'.
    apply list_of_length in Hreq as (Hall & _ & _). split; [exact Hall | reflexivity].
Qed.

(** X2. Every entry that validation returns is well formed: its key, when
    there is one, has 16 characters; it has a port exactly when it has a
    host, and the port lies in 1..65535; its sid, when there is one, is a
    mac of 12 characters in lower case without colons. *)
Theorem gateways_schema_well_formed (g : raw_gateways) (cfg : list gateway_config) :
  gateways_schema g = Some cfg -> Forall entry_well_formed cfg.
Proof.
  intros Hg. apply gateways_schema_mapM in Hg as (required & l' & Hall & ->).
  apply (mapM_GATEWAY_CONFIG required _ _ Hall).
Qed.

Lemma gateways_schema_well_formed_witness : Forall entry_well_formed validated_pair.
Proof.
  apply (gateways_schema_well_formed (RawList [gateway_upstairs; gateway_downstairs])).
  vm_compute. reflexivity.
Defined.

(** X3. Validation neither drops nor reorders entries: the list it returns
    has, position by position, the hosts as written and the macs as
    normalised by [GW_MAC]. *)
Theorem gateways_schema_order (g : raw_gateways) (cfg : list gateway_config) :
  gateways_schema g = Some cfg ->
  length cfg = length (cv_ensure_list g) /\
  map conf_sid cfg = map (fun r => raw_mac r ≫= GW_MAC) (cv_ensure_list g) /\
  map conf_host cfg = map raw_host (cv_ensure_list g).
Proof.
  intros Hg. apply gateways_schema_mapM in Hg as (required & l' & Hall & ->).
  destruct (mapM_GATEWAY_CONFIG required _ _ Hall) as (_ & Hsid & Hhost).
  split; [|split; assumption].
  rewrite length_map. symmetry. eapply length_mapM. exact Hall.
Qed.

Lemma gateways_schema_order_witness :
  length validated_pair = length (cv_ensure_list (RawList [gateway_upstairs; gateway_downstairs])) /\
  map conf_sid validated_pair =
    map (fun r => raw_mac r ≫= GW_MAC)
      (cv_ensure_list (RawList [gateway_upstairs; gateway_downstairs])) /\
  map conf_host validated_pair =
    map raw_host (cv_ensure_list (RawList [gateway_upstairs; gateway_downstairs])).
Proof.
  apply (gateways_schema_order (RawList [gateway_upstairs; gateway_downstairs])).
  vm_compute. reflexivity.
Defined.

(** ** The voltage decoder, continued *)

Lemma float_same_eq (x y : float) : float_same x y = true -> x = y.
Proof.
  destruct x as [s|s| |s m e], y as [s'|s'| |s' m' e']; cbn; try discriminate;
    try reflexivity.
  - intros Hs. apply Bool.eqb_prop in Hs. congruence.
  - intros Hs. apply Bool.eqb_prop in Hs. congruence.
  - intros Hsme. apply andb_true_iff in Hsme as [Hsm He].
    apply andb_true_iff in Hsm as [Hs Hm].
    apply Bool.eqb_prop in Hs. apply Pos.eqb_eq in Hm. apply Z.eqb_eq in He. congruence.
Qed.

Lemma percent_of_exact (v : Z) :
  2800 <= v <= 3300 -> percent_of v = nearest_quotient (v - 2800) 5.
Proof.
  intros Hv. apply float_same_eq.
  apply (forallb_range
           (fun v => float_same (percent_of v) (nearest_quotient (v - 2800) 5)) 2800 501);
    [vm_compute; reflexivity | lia].
Qed.

Lemma percent_of_clamp (v : Z) : percent_of v = percent_of (clamp v 2800 3300).
Proof.
  unfold percent_of. rewrite (clamp_in_range (clamp v 2800 3300)) by apply clamp_range.
  reflexivity.
Qed.

(** X4. The battery level that [parse_voltage] stores for a reading, the
    value that [round(percent, 1)] returns, is the double nearest to the
    quotient (clamp(v, 2800, 3300) - 2800) / 5 taken exactly: the rounding
    errors of the float operations before the final [round] never reach
    the stored value; it lies between 0.0 and 100.0. *)
Theorem battery_level_exact (v : Z) :
  battery_level v = Ok (nearest_quotient (clamp v 2800 3300 - 2800) 5) /\
  float_le (S754_zero false) (nearest_quotient (clamp v 2800 3300 - 2800) 5) = true /\
  float_le (nearest_quotient (clamp v 2800 3300 - 2800) 5) f100 = true.
Proof.
  pose proof (clamp_range v) as Hrange.
  assert (Hlevel : battery_level v = Ok (nearest_quotient (clamp v 2800 3300 - 2800) 5)).
  { rewrite battery_level_percent_of, percent_of_clamp, percent_of_exact by exact Hrange.
    reflexivity. }
  split; [exact Hlevel|].
  pose proof (battery_level_ascending 2800 v) as Hlow.
  pose proof (battery_level_ascending v 3300) as Hhigh.
  destruct (Z.le_gt_cases 2800 v) as [Hge|Hlt].
  - specialize (Hlow Hge). rewrite Hlevel, (battery_level_empty 2800) in Hlow by lia.
    split; [exact Hlow|].
    destruct (Z.le_gt_cases v 3300) as [Hle|Hgt].
    + specialize (Hhigh Hle). rewrite Hlevel, (battery_level_full 3300) in Hhigh by lia.
      exact Hhigh.
    + rewrite battery_level_full in Hlevel by lia. injection Hlevel as <-. reflexivity.
  - rewrite battery_level_empty in Hlevel by lia. injection Hlevel as <-.
    split; reflexivity.
Qed.

(** What [parse_voltage] does, by the reading of the payload. *)
Lemma parse_voltage_run (data : payload) (d : XiaomiDevice) :
  parse_voltage data d =
    match voltage_field data with
    | None => (Ok false, d)
    | Some (VStr _) => (Raise TypeError, d)
    | Some (VInt raw) =>
        if is_finite (nearest_float raw) then
          (Ok true,
           set_attribute ATTR_BATTERY_LEVEL (percent_of raw)
             (set_attribute ATTR_VOLTAGE (volts_of raw) d))
        else (Raise OverflowError, d)
    end.
Proof.
  destruct (voltage_field data) as [[raw|s]|] eqn:Hfield.
  - destruct (is_finite (nearest_float raw)) eqn:Hfin.
    + apply parse_voltage_present; assumption.
    + revert Hfield. unfold voltage_field, parse_voltage. rewrite !contains_lookup.
      intros Hfield.
      destruct (data !! "voltage") as [v|] eqn:E.
      * injection Hfield as ->. unfold_m. unfold getitem, float_of_int.
        rewrite E, Hfin. reflexivity.
      * destruct (data !! "battery_voltage") as [v|] eqn:E'; [|discriminate].
        injection Hfield as ->. unfold_m. unfold getitem, float_of_int.
        rewrite E', Hfin. reflexivity.
  - eapply parse_voltage_str. exact Hfield.
  - apply parse_voltage_absent. exact Hfield.
Qed.

(** X5. [parse_voltage] writes both attributes or none: it returns true
    exactly when it wrote the voltage and the battery level of an int
    reading; when it returns false or raises, the device is as it was. *)
Theorem parse_voltage_all_or_nothing (data : payload) (d : XiaomiDevice) :
  (fst (parse_voltage data d) = Ok true /\
   exists raw,
     voltage_field data = Some (VInt raw) /\
     snd (parse_voltage data d) =
       set_attribute ATTR_BATTERY_LEVEL (percent_of raw)
         (set_attribute ATTR_VOLTAGE (volts_of raw) d)) \/
  (fst (parse_voltage data d) <> Ok true /\ snd (parse_voltage data d) = d).
Proof.
  rewrite parse_voltage_run.
  destruct (voltage_field data) as [[raw|s]|].
  - destruct (is_finite (nearest_float raw)).
    + left. split; [reflexivity|]. exists raw. split; reflexivity.
    + right. split; [discriminate | reflexivity].
  - right. split; [discriminate | reflexivity].
  - right. split; [discriminate | reflexivity].
Qed.

Lemma volts_of_centivolts (k : Z) :
  0 <= k <= 6553 -> volts_of (10 * k) = nearest_quotient k 100.
Proof.
  intros Hk. apply float_same_eq.
  apply (forallb_range
           (fun k => float_same (volts_of (10 * k)) (nearest_quotient k 100)) 0 (Z.to_nat 6554));
    [vm_compute; reflexivity | lia].
Qed.

(** X6. A reading that is a whole number of hundredths of a volt, up to
    65.53 V, is reported exactly: the voltage attribute is the double
    nearest to that many hundredths. *)
Theorem parse_voltage_centivolts (data : payload) (d : XiaomiDevice) (k : Z) :
  voltage_field data = Some (VInt (10 * k)) ->
  0 <= k <= 6553 ->
  _device_state_attributes (snd (parse_voltage data d)) !! ATTR_VOLTAGE =
    Some (nearest_quotient k 100).
Proof.
  intros Hfield Hk.
  rewrite (parse_voltage_present data d (10 * k) Hfield)
    by (apply nearest_float_finite; lia).
  cbn [snd set_attribute _device_state_attributes].
  rewrite lookup_insert_ne by discriminate.
  rewrite lookup_insert_eq, volts_of_centivolts by exact Hk. reflexivity.
Qed.

Lemma parse_voltage_centivolts_witness :
  _device_state_attributes
    (snd (parse_voltage {[ "battery_voltage" := VInt 3010 ]} door_sensor)) !! ATTR_VOLTAGE =
    Some (nearest_quotient 301 100).
Proof.
  apply (parse_voltage_centivolts {[ "battery_voltage" := VInt 3010 ]} door_sensor 301);
    [reflexivity | lia].
Defined.

(** ** The decoder of the switch, continued *)

Lemma state_is_false (st : option bool) (state : bool) :
  GenericSwitch.state_is st state = false -> st <> Some state.
Proof.
  destruct st as [b|]; cbn; [|discriminate].
  destruct b, state; cbn; congruence.
Qed.

Lemma state_is_true (st : option bool) (state : bool) :
  GenericSwitch.state_is st state = true -> st = Some state.
Proof.
  destruct st as [b|]; cbn; [|discriminate].
  destruct b, state; cbn; congruence.
Qed.

Ltac decode_step data :=
  match goal with
  | |- context [match data !! ?k with _ => _ end] => destruct (data !! k) eqn:?
  | |- context [py_int ?v] => destruct (py_int v) eqn:?
  | |- context [py_float ?v] => destruct (py_float v) eqn:?
  | |- context [Z.eqb ?n 0] => destruct (Z.eqb n 0) eqn:?
  | |- context [GenericSwitch.on_or_off ?v] => destruct (GenericSwitch.on_or_off v) eqn:?
  | |- context [GenericSwitch.state_is ?a ?b] => destruct (GenericSwitch.state_is a b) eqn:?
  end;
  cbn -[py_int py_float py_round GenericSwitch.on_or_off GenericSwitch.state_is] in *.

Ltac decode_start s :=
  unfold GenericSwitch.parse_data, getitem;
  unfold_m; cbn [List.find]; rewrite ?contains_lookup;
  destruct s as [d st key inuse lp pc sup];
  cbn -[py_int py_float py_round GenericSwitch.on_or_off GenericSwitch.state_is].

Section SwitchDecoder.
Context `{Builtins}.

(** The on/off state after the decoder, and the flag it returns. *)
Lemma parse_data_state (data raw_data : payload) (s : GenericSwitch.XiaomiGenericSwitch) :
  let out := GenericSwitch.parse_data data raw_data s in
  match fst out with
  | Ok true =>
      exists state,
        GenericSwitch.on_or_off (data !! GenericSwitch._data_key s) = Some state /\
        GenericSwitch._state s <> Some state /\
        GenericSwitch._state (snd out) = Some state
  | Ok false =>
      GenericSwitch._state (snd out) = GenericSwitch._state s /\
      (forall state,
         GenericSwitch.on_or_off (data !! GenericSwitch._data_key s) = Some state ->
         GenericSwitch._state s = Some state)
  | Raise _ => GenericSwitch._state (snd out) = GenericSwitch._state s
  end.
Proof.
  cbn zeta. decode_start s.
  repeat (decode_step data; simplify_eq; try reflexivity);
    first
      [ split; [reflexivity | discriminate]
      | split; [reflexivity|];
        intros ? [= <-]; apply state_is_true; assumption
      | eexists; split; [reflexivity|]; split; [|reflexivity];
        apply state_is_false; assumption ].
Qed.


(** The power attributes after the decoder returned. *)
Lemma parse_data_power (data raw_data : payload) (s : GenericSwitch.XiaomiGenericSwitch) :
  let out := GenericSwitch.parse_data data raw_data s in
  match fst out with
  | Ok _ =>
      GenericSwitch._in_use (snd out) =
        match data !! IN_USE with
        | Some v =>
            match py_int v with Ok n => Some n | Raise _ => GenericSwitch._in_use s end
        | None => GenericSwitch._in_use s
        end /\
      GenericSwitch._load_power (snd out) =
        match data !! LOAD_POWER with
        | Some v =>
            match py_float v with
            | Ok x => Some (NFloat (py_round x 2))
            | Raise _ => GenericSwitch._load_power s
            end
        | None =>
            match data !! IN_USE with
            | Some v =>
                match py_int v with
                | Ok n => if Z.eqb n 0 then Some (NInt 0) else GenericSwitch._load_power s
                | Raise _ => GenericSwitch._load_power s
                end
            | None => GenericSwitch._load_power s
            end
        end /\
      GenericSwitch._power_consumed (snd out) =
        match data !! POWER_CONSUMED with
        | Some v =>
            match py_float v with
            | Ok x => Some (py_round x 2)
            | Raise _ => GenericSwitch._power_consumed s
            end
        | None =>
            match data !! ENERGY_CONSUMED with
            | Some v =>
                match py_float v with
                | Ok x => Some (py_round x 2)
                | Raise _ => GenericSwitch._power_consumed s
                end
            | None => GenericSwitch._power_consumed s
            end
        end
  | Raise _ => True
  end.
Proof.
  cbn zeta. decode_start s.
  repeat (decode_step data; simplify_eq; try exact I; try (repeat split; reflexivity)).
Qed.

End SwitchDecoder.

Section SwitchDecoderProperties.
Context `{Builtins}.

(** X7. The flag that the decoder of the switch returns is true exactly
    when the call changed the on/off state; after a call that returned, the
    state is the one reported under the data key of the switch, or the
    former one when the payload reports neither ['on'] nor ['off'] there. *)
Theorem parse_data_reports_change (data raw_data : payload)
    (s : GenericSwitch.XiaomiGenericSwitch) :
  let out := GenericSwitch.parse_data data raw_data s in
  (fst out = Ok true <-> GenericSwitch._state (snd out) <> GenericSwitch._state s) /\
  (forall b, fst out = Ok b ->
     GenericSwitch._state (snd out) =
       match GenericSwitch.on_or_off (data !! GenericSwitch._data_key s) with
       | Some state => Some state
       | None => GenericSwitch._state s
       end).
Proof.
  cbn zeta. pose proof (parse_data_state data raw_data s) as Hstate. cbn zeta in Hstate.
  destruct (fst (GenericSwitch.parse_data data raw_data s)) as [[]|ex].
  - destruct Hstate as (state & Hreport & Hwas & Hnow). split.
    + split; [intros _; congruence | reflexivity].
    + intros b _. rewrite Hreport. exact Hnow.
  - destruct Hstate as (Hsame & Hreport). split.
    + split; [discriminate | intros Hne; contradiction].
    + intros b _.
      destruct (GenericSwitch.on_or_off (data !! GenericSwitch._data_key s)) as [state|];
        [|exact Hsame].
      rewrite Hsame. apply Hreport. reflexivity.
  - split.
    + split; [discriminate | intros Hne; contradiction].
    + discriminate.
Qed.

(** X8. A report that carries neither ['on'] nor ['off'] under the data
    key of the switch and no voltage member (power readings, say) never
    schedules a state update on an available switch, whatever else it
    carries and however the decoding ends. *)
Theorem push_data_power_report (now : Z) (data raw_data : payload)
    (s : GenericSwitch.XiaomiGenericSwitch) :
  _is_available (GenericSwitch.base s) = true ->
  voltage_field data = None ->
  GenericSwitch.on_or_off (data !! GenericSwitch._data_key s) = None ->
  ha_state_updates (GenericSwitch.base (snd (push_data now data raw_data s))) =
    ha_state_updates (GenericSwitch.base s).
Proof.
  intros Hav Hvolt Hreport.
  rewrite push_data_run. cbn zeta.
  cbn [parse_data device with_device GenericSwitch.entity].
  rewrite parse_data_set_base.
  pose proof (parse_data_state data raw_data s) as Hstate. cbn zeta in Hstate.
  pose proof (parse_data_base data raw_data s) as Hbase.
  destruct (GenericSwitch.parse_data data raw_data s) as [[[]|ex] s']; cbn [fst snd] in *.
  - destruct Hstate as (state & Hsome & _). congruence.
  - cbn [GenericSwitch.base GenericSwitch.set_base].
    rewrite parse_voltage_absent by assumption. rewrite Hav. cbn. reflexivity.
  - reflexivity.
Qed.

(** X9. After a decoding that returned, the load power of the plug is the
    reported load power rounded to two decimals when the payload has one;
    otherwise it is reset to the int 0 when the payload reports the plug
    as not in use, and left as it was in every other case. *)
Theorem parse_data_load_power (data raw_data : payload)
    (s : GenericSwitch.XiaomiGenericSwitch) (b : bool) :
  fst (GenericSwitch.parse_data data raw_data s) = Ok b ->
  let s' := snd (GenericSwitch.parse_data data raw_data s) in
  (forall v, data !! LOAD_POWER = Some v ->
     exists x, py_float v = Ok x /\
       GenericSwitch._load_power s' = Some (NFloat (py_round x 2))) /\
  (data !! LOAD_POWER = None ->
   forall v, data !! IN_USE = Some v ->
     exists n, py_int v = Ok n /\
       GenericSwitch._in_use s' = Some n /\
       GenericSwitch._load_power s' =
         if Z.eqb n 0 then Some (NInt 0) else GenericSwitch._load_power s) /\
  (data !! LOAD_POWER = None -> data !! IN_USE = None ->
   GenericSwitch._load_power s' = GenericSwitch._load_power s /\
   GenericSwitch._in_use s' = GenericSwitch._in_use s).
Proof.
  intros Hout. cbn zeta.
  pose proof (parse_data_power data raw_data s) as Hpower. cbn zeta in Hpower.
  rewrite Hout in Hpower. destruct Hpower as (Hin & Hload & _).
  assert (Hint : forall v, data !! IN_USE = Some v -> exists n, py_int v = Ok n).
  { intros v Hv. clear Hin Hload. revert Hout.
    unfold GenericSwitch.parse_data, getitem. unfold_m. rewrite contains_lookup, Hv.
    destruct (py_int v) as [n|ex]; [eauto | cbn; discriminate]. }
  assert (Hfloat : forall v, data !! LOAD_POWER = Some v -> exists x, py_float v = Ok x).
  { intros v Hv. clear Hin Hload Hint. revert Hout.
    unfold GenericSwitch.parse_data, getitem. unfold_m. rewrite (contains_lookup data LOAD_POWER), Hv.
    destruct (py_float v) as [x|ex]; [eauto|].
    intros Hout. exfalso. revert Hout.
    repeat (case_match; cbn -[py_int py_float py_round]; try discriminate). }
  split; [|split].
  - intros v Hv. destruct (Hfloat v Hv) as [x Hx]. exists x. split; [exact Hx|].
    rewrite Hload, Hv, Hx. reflexivity.
  - intros Hnone v Hv. destruct (Hint v Hv) as [n Hn]. exists n. split; [exact Hn|].
    rewrite Hin, Hload, Hnone, Hv, Hn. split; reflexivity.
  - intros Hnone Hnone'. rewrite Hin, Hload, Hnone, Hnone'. split; reflexivity.
Qed.

End SwitchDecoderProperties.

Section SwitchConsumption.
Context `{Builtins}.

(** X10. When the payload has a [power_consumed] member, the consumption
    of the plug is that member rounded to two decimals, and the
    [energy_consumed] member is not even read: whatever it holds, the
    decoder does and returns the same. *)
Theorem parse_data_power_consumed (data raw_data : payload)
    (s : GenericSwitch.XiaomiGenericSwitch) (v : value) :
  data !! POWER_CONSUMED = Some v ->
  (forall b, fst (GenericSwitch.parse_data data raw_data s) = Ok b ->
     exists x, py_float v = Ok x /\
       GenericSwitch._power_consumed (snd (GenericSwitch.parse_data data raw_data s)) =
         Some (py_round x 2)) /\
  (GenericSwitch._data_key s <> ENERGY_CONSUMED ->
   forall w,
     GenericSwitch.parse_data (<[ENERGY_CONSUMED := w]> data) raw_data s =
     GenericSwitch.parse_data data raw_data s).
Proof.
  intros Hv. split.
  - intros b Hout.
    pose proof (parse_data_power data raw_data s) as Hpower. cbn zeta in Hpower.
    rewrite Hout, Hv in Hpower. destruct Hpower as (_ & _ & Hconsumed).
    assert (Hfloat : exists x, py_float v = Ok x).
    { clear Hconsumed. revert Hout.
      unfold GenericSwitch.parse_data, getitem. unfold_m. cbn [List.find].
      rewrite (contains_lookup data POWER_CONSUMED), Hv.
      destruct (py_float v) as [x|ex] eqn:Hraise; [eauto|].
      intros Hout. exfalso. revert Hout.
      repeat (case_match; cbn -[py_int py_float py_round]; simplify_eq;
              try discriminate; try congruence). }
    destruct Hfloat as [x Hx]. exists x. split; [exact Hx|].
    rewrite Hconsumed, Hx. reflexivity.
  - intros Hkey w. destruct s as [d st key inuse lp pc sup]. cbn in Hkey.
    unfold GenericSwitch.parse_data, getitem. unfold_m. cbn [List.find].
    rewrite !contains_lookup.
    rewrite !(lookup_insert_ne data ENERGY_CONSUMED IN_USE) by discriminate.
    rewrite !(lookup_insert_ne data ENERGY_CONSUMED POWER_CONSUMED) by discriminate.
    rewrite !(lookup_insert_ne data ENERGY_CONSUMED LOAD_POWER) by discriminate.
    rewrite Hv.
    cbn -[py_int py_float py_round GenericSwitch.on_or_off GenericSwitch.state_is].
    rewrite ?(lookup_insert_ne data ENERGY_CONSUMED POWER_CONSUMED) by discriminate.
    rewrite ?Hv.
    cbn -[py_int py_float py_round GenericSwitch.on_or_off GenericSwitch.state_is].
    repeat (first [ rewrite (lookup_insert_ne data ENERGY_CONSUMED key) by congruence
                  | decode_step data ];
            try reflexivity).
Qed.

End SwitchConsumption.

Lemma parse_data_reports_change_witness :
  GenericSwitch._state (snd (@GenericSwitch.parse_data plain_builtins report_on ∅ wall_plug)) =
    match GenericSwitch.on_or_off (report_on !! GenericSwitch._data_key wall_plug) with
    | Some state => Some state
    | None => GenericSwitch._state wall_plug
    end.
Proof.
  destruct (@parse_data_reports_change plain_builtins report_on ∅ wall_plug) as (_ & Hstate).
  apply (Hstate true). vm_compute. reflexivity.
Defined.

Lemma push_data_power_report_witness :
  ha_state_updates
    (GenericSwitch.base (snd (@push_data _ plain_switch (minutes 5) report_power ∅ wall_plug))) =
    ha_state_updates (GenericSwitch.base wall_plug).
Proof.
  apply (@push_data_power_report plain_builtins (minutes 5) report_power ∅ wall_plug);
    vm_compute; reflexivity.
Defined.

Lemma parse_data_load_power_witness :
  exists n, @py_int plain_builtins (VStr "0") = Ok n /\
    GenericSwitch._in_use (snd (@GenericSwitch.parse_data plain_builtins report_idle ∅ wall_plug)) =
      Some n /\
    GenericSwitch._load_power (snd (@GenericSwitch.parse_data plain_builtins report_idle ∅ wall_plug)) =
      if Z.eqb n 0 then Some (NInt 0) else GenericSwitch._load_power wall_plug.
Proof.
  destruct (@parse_data_load_power plain_builtins report_idle ∅ wall_plug false)
    as (_ & Hidle & _); [vm_compute; reflexivity|].
  apply (Hidle eq_refl (VStr "0")). reflexivity.
Defined.

Lemma parse_data_power_consumed_witness :
  (exists x, @py_float plain_builtins (VStr "1200") = Ok x /\
     GenericSwitch._power_consumed
       (snd (@GenericSwitch.parse_data plain_builtins report_power ∅ wall_plug)) =
       Some (py_round x 2)) /\
  @GenericSwitch.parse_data plain_builtins
    (<[ENERGY_CONSUMED := VStr "not a number"]> report_power) ∅ wall_plug =
  @GenericSwitch.parse_data plain_builtins report_power ∅ wall_plug.
Proof.
  destruct (@parse_data_power_consumed plain_builtins report_power ∅ wall_plug (VStr "1200"))
    as (Hconsumed & Hignored); [reflexivity|].
  split.
  - apply (Hconsumed false). vm_compute. reflexivity.
  - apply Hignored. discriminate.
Defined.

(** ** Gateway discovery, continued *)

Lemma for_each_app {S A} (body : A -> M S unit) (l1 l2 : list A) (s : S) :
  for_each body (l1 ++ l2)%list s =
    match for_each body l1 s with
    | (Ok _, s') => for_each body l2 s'
    | (Raise ex, s') => (Raise ex, s')
    end.
Proof.
  revert s. induction l1 as [|a l1 IH]; intros s; cbn; [reflexivity|].
  unfold bind. destruct (body a s) as [[u|ex] s']; [apply IH | reflexivity].
Qed.

Section ReceiveLoop.
Context `{GatewayLibrary}.

(** X11. A datagram is dropped without effect and without exception when
    it comes from an address that already has a hub or is disabled (it is
    not even decoded then), when its command is not ['iam'], and when its
    model is not a gateway model. *)
Theorem receive_ignored (x : XiaomiMiioGatewayDiscovery) (ip : string)
    (decoded : option message) :
  (is_Some (gateways x !! ip) \/ ip ∈ disabled_gateways x ->
   receive (ip, decoded) x = (Ok tt, x)) /\
  (forall resp cmd,
     decoded = Some resp -> msg_cmd resp = Some cmd -> cmd <> "iam" ->
     receive (ip, decoded) x = (Ok tt, x)) /\
  (forall resp model,
     decoded = Some resp -> msg_cmd resp = Some "iam" ->
     msg_model resp = Some model -> model ∉ GATEWAY_MODELS ->
     receive (ip, decoded) x = (Ok tt, x)).
Proof.
  unfold receive, member. unfold_m. cbn. split; [|split].
  - intros [Hknown|Hdisabled].
    + rewrite (bool_decide_eq_true_2 _ Hknown). reflexivity.
    + destruct (bool_decide (is_Some (gateways x !! ip))); [reflexivity|].
      rewrite (bool_decide_eq_true_2 _ Hdisabled). reflexivity.
  - intros resp cmd -> Hcmd Hne.
    destruct (bool_decide (is_Some (gateways x !! ip))); [reflexivity|].
    destruct (bool_decide (ip ∈ disabled_gateways x)); [reflexivity|].
    rewrite Hcmd. cbn.
    destruct (String.eqb_spec cmd "iam"); [contradiction | reflexivity].
  - intros resp model -> Hcmd Hmodel Hunknown.
    destruct (bool_decide (is_Some (gateways x !! ip))); [reflexivity|].
    destruct (bool_decide (ip ∈ disabled_gateways x)); [reflexivity|].
    rewrite Hcmd. cbn. rewrite Hmodel.
    rewrite (bool_decide_eq_false_2 _ Hunknown). reflexivity.
Qed.

(** One datagram: the hubs after it are the hubs before it, except at most
    a new hub at its own address, built from its ['iam'] response. *)
Lemma receive_local (dg : datagram) (x : XiaomiMiioGatewayDiscovery) (ip : string)
    (g : XiaomiMiioGateway) :
  gateways (snd (receive dg x)) !! ip = Some g ->
  gateways x !! ip = Some g \/
  (gateways x !! ip = None /\ (ip ∉ disabled_gateways x) /\ ip_adress g = ip /\
   exists resp,
     dg = (ip, Some resp) /\ msg_cmd resp = Some "iam" /\
     msg_sid resp = Some (sid g) /\ msg_port resp = Some (port g) /\
     msg_proto_version resp = proto g).
Proof.
  destruct dg as [ip' decoded]. unfold receive, member. unfold_m. cbn.
  destruct (bool_decide (is_Some (gateways x !! ip'))) eqn:Hknown; [auto|].
  apply bool_decide_eq_false in Hknown.
  destruct (bool_decide (ip' ∈ disabled_gateways x)) eqn:Hdis; [auto|].
  apply bool_decide_eq_false in Hdis.
  destruct decoded as [resp|]; [|auto].
  destruct (msg_cmd resp) as [cmd|] eqn:Hcmd; [|auto]. cbn.
  destruct (String.eqb_spec cmd "iam") as [->|]; [|auto]. cbn.
  destruct (msg_model resp) as [model|]; [|auto].
  destruct (negb (bool_decide (model ∈ GATEWAY_MODELS))); [auto|].
  destruct (msg_sid resp) as [rsid|] eqn:Hsid; [|auto].
  destruct (match_config rsid (_gateways_config x)) as [[] gateway_key]; [auto|].
  destruct (msg_port resp) as [rport|] eqn:Hport; [|auto].
  destruct (last (_gateways_config x)) as [gateway|]; [|auto].
  cbn. destruct (decide (ip' = ip)) as [->|Hne].
  - rewrite lookup_insert_eq. intros [= <-]. right.
    split; [destruct (gateways x !! ip); [exfalso; eauto | reflexivity]|].
    split; [exact Hdis|]. split; [reflexivity|].
    exists resp. cbn. auto.
  - rewrite lookup_insert_ne by exact Hne. auto.
Qed.

(** X12. Every hub found after the receive loop was there before it, or
    was built from an ['iam'] datagram that the loop received from the
    address of the hub: it carries that address and the sid, the port and
    the protocol version of the response. *)
Theorem receive_loop_local (received : list datagram) (x : XiaomiMiioGatewayDiscovery)
    (ip : string) (g : XiaomiMiioGateway) :
  gateways (snd (for_each receive received x)) !! ip = Some g ->
  gateways x !! ip = Some g \/
  (gateways x !! ip = None /\ ip_adress g = ip /\
   exists resp,
     (ip, Some resp) ∈ received /\ msg_cmd resp = Some "iam" /\
     msg_sid resp = Some (sid g) /\ msg_port resp = Some (port g) /\
     msg_proto_version resp = proto g).
Proof.
  revert x. induction received as [|dg received IH]; intros x; cbn; [auto|].
  unfold bind. pose proof (receive_local dg x ip g) as Hstep.
  pose proof (receive_extends dg x) as (_ & _ & _ & Hkept & _).
  destruct (receive dg x) as [[u|ex] x1]; cbn [snd] in *.
  - intros Hlook. destruct (IH x1 Hlook) as [Hin|(Hnew & Haddr & resp & Hresp & Hfields)].
    + destruct (Hstep Hin) as [Hbefore|(Hnone & _ & Haddr & resp & -> & Hfields)];
        [left; exact Hbefore|].
      right. split; [exact Hnone|]. split; [exact Haddr|].
      exists resp. split; [apply list_elem_of_here | exact Hfields].
    + right. split.
      * destruct (gateways x !! ip) as [g0|] eqn:Hx; [|reflexivity].
        rewrite (Hkept ip g0 Hx) in Hnew. discriminate.
      * split; [exact Haddr|]. exists resp.
        split; [apply list_elem_of_further; exact Hresp | exact Hfields].
  - intros Hlook. destruct (Hstep Hlook) as [Hbefore|(Hnone & _ & Haddr & resp & -> & Hfields)];
      [left; exact Hbefore|].
    right. split; [exact Hnone|]. split; [exact Haddr|].
    exists resp. split; [apply list_elem_of_here | exact Hfields].
Qed.

Lemma receive_disjoint (dg : datagram) (x : XiaomiMiioGatewayDiscovery) :
  (forall ip, ip ∈ disabled_gateways x -> gateways x !! ip = None) ->
  forall ip, ip ∈ disabled_gateways (snd (receive dg x)) ->
    gateways (snd (receive dg x)) !! ip = None.
Proof.
  intros Hinv. destruct dg as [ip' decoded]. unfold receive, member. unfold_m. cbn.
  destruct (bool_decide (is_Some (gateways x !! ip'))) eqn:Hknown; [exact Hinv|].
  apply bool_decide_eq_false in Hknown.
  assert (Hnew : gateways x !! ip' = None)
    by (destruct (gateways x !! ip'); [exfalso; eauto | reflexivity]).
  destruct (bool_decide (ip' ∈ disabled_gateways x)) eqn:Hdis; [exact Hinv|].
  apply bool_decide_eq_false in Hdis.
  destruct decoded as [resp|]; [|exact Hinv].
  destruct (msg_cmd resp) as [cmd|]; [|exact Hinv]. cbn.
  destruct (negb (String.eqb cmd "iam")); [exact Hinv|].
  destruct (msg_model resp) as [model|]; [|exact Hinv].
  destruct (negb (bool_decide (model ∈ GATEWAY_MODELS))); [exact Hinv|].
  destruct (msg_sid resp) as [rsid|]; [|exact Hinv].
  destruct (match_config rsid (_gateways_config x)) as [[] gateway_key].
  - cbn. intros ip Hin. apply elem_of_app in Hin as [Hin|Hin]; [apply Hinv; exact Hin|].
    apply list_elem_of_singleton in Hin. subst ip. exact Hnew.
  - destruct (msg_port resp) as [rport|]; [|exact Hinv].
    destruct (last (_gateways_config x)) as [gateway|]; [|exact Hinv].
    cbn. intros ip Hin. rewrite lookup_insert_ne; [apply Hinv; exact Hin|].
    intros ->. contradiction.
Qed.

(** X13. The receive loop never gives a hub to a disabled address: when no
    disabled address has a hub before the loop, none has one after it,
    whether the loop ends on the timeout or on an exception. *)
Theorem receive_loop_disjoint (received : list datagram) (x : XiaomiMiioGatewayDiscovery) :
  (forall ip, ip ∈ disabled_gateways x -> gateways x !! ip = None) ->
  forall ip, ip ∈ disabled_gateways (snd (for_each receive received x)) ->
    gateways (snd (for_each receive received x)) !! ip = None.
Proof.
  apply (for_each_preserves
           (fun x x' =>
              (forall ip, ip ∈ disabled_gateways x -> gateways x !! ip = None) ->
              forall ip, ip ∈ disabled_gateways x' -> gateways x' !! ip = None)).
  - auto.
  - auto.
  - intros dg y. apply receive_disjoint.
Qed.

End ReceiveLoop.

Section DiscoveryRounds.
Context `{Resolver} `{GatewayLibrary}.

(** X14. An undecodable datagram from an address that has no hub and is
    not disabled ends the discovery round with the exception of the
    decoder: the datagrams behind it are never read, and the discovery
    object is left as it was when the datagram arrived. *)
Theorem discover_gateways_aborts (x : XiaomiMiioGatewayDiscovery)
    (before after : list datagram) (ip : string) :
  fst (discover_gateways before x) = Ok tt ->
  gateways (snd (discover_gateways before x)) !! ip = None ->
  ip ∉ disabled_gateways (snd (discover_gateways before x)) ->
  discover_gateways (before ++ (ip, None) :: after) x =
    (Raise ValueError, snd (discover_gateways before x)).
Proof.
  rewrite !discover_gateways_run, for_each_app.
  destruct (for_each receive before (fold_left configured (_gateways_config x) x))
    as [[[]|ex] y]; cbn [fst snd]; [|discriminate].
  intros _ Hnew Hen. cbn [for_each]. unfold bind.
  unfold receive at 1. unfold_m. cbn.
  rewrite Hnew. rewrite bool_decide_eq_false_2 by (intros [? ?]; discriminate).
  rewrite (bool_decide_eq_false_2 _ Hen). reflexivity.
Qed.

(** The hub at an address after the first loop: the hub of the last enabled
    entry placed there, or the hub that was there. *)
Lemma fold_configured_lookup (l : list gateway_config) (x : XiaomiMiioGatewayDiscovery)
    (ip : string) :
  gateways (fold_left configured l x) !! ip =
    match last (List.filter (enabled_at ip) l) with
    | Some gateway => Some (static_hub x gateway ip)
    | None => gateways x !! ip
    end.
Proof.
  induction l as [|g l IH] using rev_ind; [reflexivity|].
  rewrite fold_left_app, filter_snoc. cbn [fold_left].
  destruct (fold_configured_fields l x) as (_ & Hi & Hr & _).
  unfold enabled_at at 1. unfold configured at 1.
  destruct (static_address g) as [ip'|] eqn:Hg.
  - destruct (conf_disable g) eqn:Hen.
    + rewrite bool_decide_eq_false_2 by (intros [_ ?]; discriminate). exact IH.
    + destruct (decide (ip' = ip)) as [->|Hne].
      * rewrite bool_decide_eq_true_2 by auto. rewrite last_snoc. cbn.
        rewrite lookup_insert_eq. unfold static_hub. rewrite Hi, Hr. reflexivity.
      * rewrite bool_decide_eq_false_2 by (intros [? _]; congruence).
        cbn. rewrite lookup_insert_ne by exact Hne. exact IH.
  - rewrite bool_decide_eq_false_2 by (intros [? _]; discriminate). exact IH.
Qed.


End DiscoveryRounds.

Lemma discover_gateways_aborts_witness :
  @discover_gateways lan aqara_models ([] ++ ("192.168.1.9", None) :: [iam_kitchen])
    (discovery_of [entry_with_sid false]) =
    (Raise ValueError,
     snd (@discover_gateways lan aqara_models [] (discovery_of [entry_with_sid false]))).
Proof.
  apply (@discover_gateways_aborts lan aqara_models (discovery_of [entry_with_sid false])
           [] [iam_kitchen] "192.168.1.9").
  - reflexivity.
  - vm_compute. reflexivity.
  - vm_compute. intros Hin. apply elem_of_nil in Hin. exact Hin.
Defined.

Lemma receive_ignored_witness :
  @receive aqara_models ("192.168.1.5", None) discovered = (Ok tt, discovered).
Proof.
  destruct (@receive_ignored aqara_models discovered "192.168.1.5" None) as (Hknown & _).
  apply Hknown. left. vm_compute. eauto.
Defined.

Lemma receive_loop_local_witness :
  gateways (discovery_of [entry_kitchen; entry_garage]) !! "192.168.1.7" = Some kitchen_hub \/
  (gateways (discovery_of [entry_kitchen; entry_garage]) !! "192.168.1.7" = None /\
   ip_adress kitchen_hub = "192.168.1.7" /\
   exists resp,
     ("192.168.1.7", Some resp) ∈ [iam_kitchen] /\ msg_cmd resp = Some "iam" /\
     msg_sid resp = Some (sid kitchen_hub) /\ msg_port resp = Some (port kitchen_hub) /\
     msg_proto_version resp = proto kitchen_hub).
Proof.
  apply (@receive_loop_local aqara_models [iam_kitchen]
           (discovery_of [entry_kitchen; entry_garage]) "192.168.1.7" kitchen_hub).
  vm_compute. reflexivity.
Defined.

Lemma receive_loop_disjoint_witness :
  gateways (snd (for_each (@receive aqara_models) [iam_kitchen]
                   (discovery_of [entry_with_sid true]))) !! "192.168.1.7" = None.
Proof.
  apply (@receive_loop_disjoint aqara_models [iam_kitchen]
           (discovery_of [entry_with_sid true])).
  - intros ip Hin. reflexivity.
  - vm_compute. apply list_elem_of_In. left. reflexivity.
Defined.


(** ** [setup] *)

Section Setup.
Context `{Resolver} `{GatewayLibrary}.

Lemma discover_gateways_fields (received : list datagram) (x : XiaomiMiioGatewayDiscovery) :
  _gateways_config (snd (discover_gateways received x)) = _gateways_config x /\
  _interface (snd (discover_gateways received x)) = _interface x /\
  _device_discovery_retries (snd (discover_gateways received x)) =
    _device_discovery_retries x.
Proof.
  rewrite discover_gateways_run.
  pose proof (for_each_receive_extends received (fold_left configured (_gateways_config x) x))
    as (Hcfg & Hi & Hr & _).
  destruct (fold_configured_fields (_gateways_config x) x) as (Hcfg' & Hi' & Hr' & _).
  repeat split; congruence.
Qed.

Lemma provenance_fields (x y : XiaomiMiioGatewayDiscovery) received n m ip g :
  _gateways_config y = _gateways_config x ->
  _interface y = _interface x ->
  _device_discovery_retries y = _device_discovery_retries x ->
  (n <= m)%nat ->
  provenance x received n ip g -> provenance y received m ip g.
Proof.
  intros Hcfg Hi Hr Hnm [(gateway & Hin & Haddr & Hen & ->)|(k & resp & Hk & Hrest)].
  - left. exists gateway. rewrite Hcfg. repeat split; try assumption.
    unfold static_hub. rewrite Hi, Hr. reflexivity.
  - right. exists k, resp. split; [lia | exact Hrest].
Qed.

(** One round keeps the provenance of the hubs. *)
Lemma discover_gateways_provenance (received : nat -> list datagram) (k : nat)
    (x : XiaomiMiioGatewayDiscovery) :
  (forall ip g, gateways x !! ip = Some g -> provenance x received k ip g) ->
  forall ip g,
    gateways (snd (discover_gateways (received k) x)) !! ip = Some g ->
    provenance (snd (discover_gateways (received k) x)) received (S k) ip g.
Proof.
  intros Hinv ip g Hlook.
  destruct (discover_gateways_fields (received k) x) as (Hcfg & Hi & Hr).
  apply (provenance_fields x _ received (S k) (S k) ip g Hcfg Hi Hr (le_n _)).
  rewrite discover_gateways_run in Hlook.
  apply receive_loop_local in Hlook
    as [Hstatic|(_ & Haddr & resp & Hresp & Hcmd & Hsid & Hport & Hproto)].
  - rewrite fold_configured_lookup in Hstatic.
    destruct (last (List.filter (enabled_at ip) (_gateways_config x))) as [gateway|] eqn:Hlast.
    + injection Hstatic as <-. left. exists gateway.
      apply last_Some in Hlast as (l' & Hl').
      assert (Hin : In gateway (List.filter (enabled_at ip) (_gateways_config x))).
      { rewrite Hl'. apply in_or_app. right. left. reflexivity. }
      apply filter_In in Hin as (Hin & Hen).
      apply bool_decide_eq_true in Hen as (Haddr & Hen).
      split; [apply list_elem_of_In; exact Hin|]. auto.
    + apply (provenance_fields x x received k (S k) ip g); auto.
  - right. exists k, resp. split; [lia|]. auto 10.
Qed.

Lemma discovery_rounds_S (received : nat -> list datagram) (k n : nat)
    (x : XiaomiMiioGatewayDiscovery) :
  discovery_rounds received k (S n) x =
    match discover_gateways (received k) x with
    | (Ok _, y) =>
        if (length (_gateways_config y) <=? size (gateways y))%nat then (Ok tt, y)
        else discovery_rounds received (S k) n y
    | (Raise e, y) => (Raise e, y)
    end.
Proof.
  cbn [discovery_rounds]. unfold bind at 1.
  destruct (discover_gateways (received k) x) as [[u|ex] y]; [|reflexivity].
  unfold bind, gets, ret. cbn [fst snd].
  destruct (length (_gateways_config y) <=? size (gateways y))%nat; reflexivity.
Qed.

Lemma setup_run (conf : option config) (device_discovery_retries : Z)
    (received : nat -> list datagram) :
  setup conf device_discovery_retries received =
    match
      discovery_rounds received 0
        (Z.to_nat (match conf with Some c => conf_discovery_retry c | None => 3 end))
        (mkXiaomiMiioGatewayDiscovery
           (match conf with Some c => conf_gateways c | None => [] end)
           (match conf with Some c => conf_interface c | None => "any" end)
           device_discovery_retries ∅ [])
    with
    | (Ok _, y) => (Ok (negb (size (gateways y) =? 0)%nat), y)
    | (Raise e, y) => (Raise e, y)
    end.
Proof.
  unfold setup. unfold bind at 1.
  destruct (discovery_rounds _ _ _ _) as [[u|ex] y]; [|reflexivity].
  unfold bind, gets. cbn.
  destruct (size (gateways y) =? 0)%nat; reflexivity.
Qed.

Lemma discovery_rounds_provenance (received : nat -> list datagram) (n k : nat)
    (x : XiaomiMiioGatewayDiscovery) :
  (forall ip g, gateways x !! ip = Some g -> provenance x received k ip g) ->
  forall ip g,
    gateways (snd (discovery_rounds received k n x)) !! ip = Some g ->
    provenance (snd (discovery_rounds received k n x)) received (k + n) ip g.
Proof.
  revert k x. induction n as [|n IH]; intros k x Hinv ip g.
  - cbn. intros Hlook.
    apply (provenance_fields x x received k (k + 0) ip g); auto. lia.
  - rewrite discovery_rounds_S.
    pose proof (discover_gateways_provenance received k x Hinv) as Hstep.
    destruct (discover_gateways (received k) x) as [[u|ex] y]; cbn [snd] in *.
    + destruct (length (_gateways_config y) <=? size (gateways y))%nat.
      * cbn [snd]. intros Hlook.
        apply (provenance_fields y y received (S k) (k + S n) ip g); auto. lia.
      * intros Hlook. replace (k + S n)%nat with (S k + n)%nat by lia.
        apply IH; assumption.
    + intros Hlook.
      apply (provenance_fields y y received (S k) (k + S n) ip g); auto. lia.
Qed.

(** X16. Every hub that [setup] ends with comes from an enabled entry of
    the configuration placed at the address of the hub, or was built from
    an ['iam'] reply received from that address in one of the rounds. *)
Theorem setup_provenance (conf : option config) (device_discovery_retries : Z)
    (received : nat -> list datagram) (ip : string) (g : XiaomiMiioGateway) :
  let x := snd (setup conf device_discovery_retries received) in
  let rounds :=
    Z.to_nat (match conf with Some c => conf_discovery_retry c | None => 3 end) in
  gateways x !! ip = Some g -> provenance x received rounds ip g.
Proof.
  cbn zeta. rewrite setup_run.
  set (x0 := mkXiaomiMiioGatewayDiscovery _ _ _ ∅ []).
  set (n := Z.to_nat _).
  pose proof (discovery_rounds_provenance received n 0 x0) as Hrounds.
  destruct (discovery_rounds received 0 n x0) as [[u|ex] y]; cbn [snd] in *;
    apply Hrounds; intros ip' g'; subst x0; cbn; rewrite lookup_empty; discriminate.
Qed.

(** X17. [setup] gives up exactly when it ends without any hub; with
    [discovery_retry] at 0 no round takes place, statically configured
    gateways included, and it gives up whatever the configuration holds. *)
Theorem setup_gives_up (conf : option config) (device_discovery_retries : Z)
    (received : nat -> list datagram) :
  (forall b, fst (setup conf device_discovery_retries received) = Ok b ->
     (b = false <-> gateways (snd (setup conf device_discovery_retries received)) = ∅)) /\
  (forall c, conf = Some c -> conf_discovery_retry c <= 0 ->
     setup conf device_discovery_retries received =
       (Ok false,
        mkXiaomiMiioGatewayDiscovery (conf_gateways c) (conf_interface c)
          device_discovery_retries ∅ [])).
Proof.
  split.
  - intros b. rewrite setup_run.
    destruct (discovery_rounds _ _ _ _) as [[u|ex] y]; cbn [fst snd];
      [|discriminate].
    destruct (Nat.eqb_spec (size (gateways y)) 0) as [Hsize|Hsize]; cbn.
    + intros [= <-]. split; [intros _; apply map_size_empty_iff; exact Hsize | reflexivity].
    + intros [= <-]. split; [discriminate|].
      intros Hempty. apply map_size_empty_iff in Hempty. contradiction.
  - intros c -> Hretry. rewrite setup_run.
    replace (Z.to_nat (conf_discovery_retry c)) with 0%nat by lia.
    reflexivity.
Qed.

End Setup.

Lemma setup_provenance_witness :
  @provenance lan (snd (@setup lan aqara_models (Some lan_config) 5 kitchen_replies))
    kitchen_replies (Z.to_nat 3) "192.168.1.5"
    (static_hub (discovery_of [entry_with_sid false]) (entry_with_sid false) "192.168.1.5").
Proof.
  apply (@setup_provenance lan aqara_models (Some lan_config) 5 kitchen_replies
           "192.168.1.5").
  vm_compute. reflexivity.
Defined.

Lemma setup_gives_up_witness :
  gateways (snd (@setup lan aqara_models None 5 (fun _ => []))) = ∅ /\
  @setup lan aqara_models (Some (mkConfig [entry_with_sid false] "any" 0)) 5 kitchen_replies =
    (Ok false, mkXiaomiMiioGatewayDiscovery [entry_with_sid false] "any" 5 ∅ []).
Proof.
  split.
  - destruct (@setup_gives_up lan aqara_models None 5 (fun _ => [])) as (Hgive & _).
    apply (Hgive false); reflexivity.
  - destruct (@setup_gives_up lan aqara_models
                (Some (mkConfig [entry_with_sid false] "any" 0)) 5 kitchen_replies)
      as (_ & Hzero).
    apply (Hzero (mkConfig [entry_with_sid false] "any" 0)); [reflexivity | cbn; lia].
Defined.

(** ** [_add_gateway_to_schema] and the services *)

Lemma normal_form_idem (s : string) :
  str_lower (remove_colons (str_lower (remove_colons s))) = str_lower (remove_colons s).
Proof. rewrite remove_colons_lower, remove_colons_idem. apply str_lower_idem. Qed.

Lemma gateway_Some (values : list XiaomiMiioGateway) (v : value) (hub : XiaomiMiioGateway) :
  Services.gateway values v = Some hub ->
  hub ∈ values /\ sid hub = str_lower (remove_colons (Services.py_str v)).
Proof.
  unfold Services.gateway. intros Hfind. apply find_some in Hfind as (Hin & Heq).
  split; [apply list_elem_of_In; exact Hin | apply String.eqb_eq; exact Heq].
Qed.

Lemma gateway_is_Some (values : list XiaomiMiioGateway) (v : value) (hub : XiaomiMiioGateway) :
  hub ∈ values -> sid hub = str_lower (remove_colons (Services.py_str v)) ->
  exists hub', Services.gateway values v = Some hub' /\ sid hub' = sid hub.
Proof.
  intros Hin Hsid. unfold Services.gateway.
  destruct (List.find _ values) as [hub'|] eqn:Hfind.
  - exists hub'. split; [reflexivity|].
    apply find_some in Hfind as (_ & Heq). apply String.eqb_eq in Heq. congruence.
  - apply list_elem_of_In in Hin.
    pose proof (find_none _ _ Hfind hub Hin) as Hne. cbn in Hne.
    apply String.eqb_neq in Hne. contradiction.
Qed.

(** X18. The validator of [gw_mac] answers with a known hub whose sid is
    the given one without colons and in lower case, and it rejects the
    value only when no known hub has that sid. *)
Theorem gateway_finds (values : list XiaomiMiioGateway) (v : value) :
  match Services.gateway values v with
  | Some hub => hub ∈ values /\ sid hub = str_lower (remove_colons (Services.py_str v))
  | None =>
      forall hub, hub ∈ values -> sid hub <> str_lower (remove_colons (Services.py_str v))
  end.
Proof.
  destruct (Services.gateway values v) as [hub|] eqn:Hg.
  - apply gateway_Some. exact Hg.
  - intros hub Hin Hsid.
    destruct (gateway_is_Some values v hub Hin Hsid) as (hub' & Hsome & _). congruence.
Qed.

Lemma gateway_finds_witness :
  kitchen_hub ∈ [kitchen_hub; loud_hub] /\
  sid kitchen_hub = str_lower (remove_colons (Services.py_str (VStr "78:11:DC:B0:79:17"))).
Proof. exact (gateway_finds [kitchen_hub; loud_hub] (VStr "78:11:DC:B0:79:17")). Defined.

(** X19. A gateway placed by its entry of the configuration is addressed by
    a service call that spells the mac as the configuration does, colons
    and capitals included. *)
Theorem gateway_configured_spelling (required : bool) (r : raw_gateway) (c : gateway_config)
    (mac ip : string) (x : XiaomiMiioGatewayDiscovery) (values : list XiaomiMiioGateway) :
  GATEWAY_CONFIG required r = Some c ->
  raw_mac r = Some mac ->
  static_hub x (_fix_conf_defaults c) ip ∈ values ->
  exists hub,
    Services.gateway values (VStr mac) = Some hub /\
    sid hub = sid (static_hub x (_fix_conf_defaults c) ip).
Proof.
  intros Hc Hmac Hin.
  apply GATEWAY_CONFIG_Some in Hc as (key & port & m & _ & _ & Hm & ->).
  rewrite Hmac in Hm. unfold Optional in Hm.
  destruct (GW_MAC mac) as [m'|] eqn:Hgw; [|discriminate]. injection Hm as <-.
  unfold GW_MAC in Hgw. apply Length_str_Some in Hgw as (-> & _).
  apply (gateway_is_Some values (VStr mac) _ Hin). reflexivity.
Qed.

Lemma gateway_configured_spelling_witness :
  exists hub,
    Services.gateway [loud_hub; static_hub discovered upstairs_entry "192.168.1.5"]
      (VStr "78:11:DC:B0:79:17") = Some hub /\
    sid hub = "7811dcb07917".
Proof.
  apply (gateway_configured_spelling false gateway_upstairs upstairs_entry
           "78:11:DC:B0:79:17" "192.168.1.5" discovered
           [loud_hub; static_hub discovered upstairs_entry "192.168.1.5"]).
  - vm_compute. reflexivity.
  - reflexivity.
  - apply list_elem_of_In. right. left. reflexivity.
Defined.

(** X20. A hub whose sid holds a colon or a capital letter, as the reply of
    a hub may, is out of reach of the services: no value of [gw_mac]
    selects it. *)
Theorem gateway_out_of_reach (values : list XiaomiMiioGateway) (hub : XiaomiMiioGateway)
    (v : value) :
  str_lower (remove_colons (sid hub)) <> sid hub ->
  Services.gateway values v <> Some hub.
Proof.
  intros Hsid Hg. apply gateway_Some in Hg as (_ & Heq).
  apply Hsid. rewrite Heq. apply normal_form_idem.
Qed.

Lemma gateway_out_of_reach_witness :
  Services.gateway [loud_hub] (VStr "7811DCB07917") <> Some loud_hub.
Proof.
  apply (gateway_out_of_reach [loud_hub] loud_hub (VStr "7811DCB07917")).
  vm_compute. discriminate.
Defined.

(** X21. A call without [gw_mac] is accepted only when exactly one hub is
    known, and it then goes to that hub; it is accepted when the sid of
    that hub is in lower case without colons and the rest of the call is
    valid. *)
Theorem add_gateway_default {A B : Type} (values : list XiaomiMiioGateway)
    (schema : A -> option B) (a : A) :
  (forall hub b,
     Services._add_gateway_to_schema values schema (Services.mkCall None a) = Some (hub, b) ->
     values = [hub] /\ schema a = Some b) /\
  (forall hub b,
     values = [hub] -> str_lower (remove_colons (sid hub)) = sid hub -> schema a = Some b ->
     Services._add_gateway_to_schema values schema (Services.mkCall None a) = Some (hub, b)).
Proof.
  split.
  - intros hub b. unfold Services._add_gateway_to_schema. cbn.
    destruct values as [|only [|second rest]]; cbn; try discriminate.
    unfold Services.gateway. cbn.
    destruct (String.eqb (sid only) _); cbn; [|discriminate].
    destruct (schema a) as [b'|]; cbn; [|discriminate].
    intros [= <- <-]. split; reflexivity.
  - intros hub b -> Hsid Hb. unfold Services._add_gateway_to_schema. cbn.
    unfold Services.gateway. cbn. rewrite Hsid, String.eqb_refl. cbn.
    rewrite Hb. reflexivity.
Qed.

Lemma add_gateway_default_witness :
  Services._add_gateway_to_schema [kitchen_hub]
    (@Services.SERVICE_SCHEMA_PLAY_RINGTONE plain_builtins)
    (Services.mkCall None (Services.mkRawRingtone (Some (VInt 8)) None)) =
    Some (kitchen_hub, Services.mkRingtone 8 None).
Proof.
  apply (proj2 (add_gateway_default [kitchen_hub]
                  (@Services.SERVICE_SCHEMA_PLAY_RINGTONE plain_builtins)
                  (Services.mkRawRingtone (Some (VInt 8)) None))
           kitchen_hub (Services.mkRingtone 8 None)); reflexivity.
Defined.

Section Ringtone.
Context `{Builtins}.

Lemma Clamp_range (v : Z) : 0 <= Services.Clamp 0 100 v <= 100.
Proof.
  unfold Services.Clamp.
  destruct (Z.ltb_spec v 0); [lia|]. destruct (Z.ltb_spec 100 v); lia.
Qed.

(** X22. Whatever the call, the service [play_ringtone] writes to a known
    hub, under the sid of that hub, the ringtone [mid] asked for, which is
    none of 9 and 14 to 19, and a [vol] only when the call gives one, the
    volume asked for brought into 0..100. *)
Theorem play_ringtone_write (values : list XiaomiMiioGateway)
    (c : Services.call Services.raw_ringtone)
    (hub : XiaomiMiioGateway) (to : string) (kwargs : list (string * Z)) :
  Services.play_ringtone values c = Some (hub, to, kwargs) ->
  hub ∈ values /\ to = sid hub /\
  exists given mid,
    Services.raw_ringtone_id (Services.members c) = Some given /\
    py_int given = Ok mid /\ (mid ∉ [9; 14; 15; 16; 17; 18; 19]) /\
    match Services.raw_ringtone_vol (Services.members c) with
    | None => kwargs = [("mid", mid)]
    | Some asked =>
        exists vol, py_int asked = Ok vol /\
          kwargs = [("mid", mid); ("vol", Services.Clamp 0 100 vol)] /\
          0 <= Services.Clamp 0 100 vol <= 100
    end.
Proof.
  unfold Services.play_ringtone, Services._add_gateway_to_schema.
  destruct c as [mac [given asked]]. cbn [Services.gw_mac Services.members].
  destruct (match mac with Some v => Some v | None => _ end) as [v|]; cbn; [|discriminate].
  destruct (Services.gateway values v) as [hub'|] eqn:Hg; cbn; [|discriminate].
  apply gateway_Some in Hg as (Hin & _).
  unfold Services.SERVICE_SCHEMA_PLAY_RINGTONE. cbn.
  destruct given as [given|]; cbn; [|discriminate].
  unfold Services.Coerce_int.
  destruct (py_int given) as [mid|e] eqn:Hmid; cbn; [|discriminate].
  unfold Services.NotIn.
  destruct (existsb (Z.eqb mid) _) eqn:Hex; cbn; [discriminate|].
  assert (Hout : mid ∉ [9; 14; 15; 16; 17; 18; 19]).
  { intros Hmem. apply list_elem_of_In in Hmem.
    assert (Htrue : existsb (Z.eqb mid) [9; 14; 15; 16; 17; 18; 19] = true).
    { apply existsb_exists. exists mid. split; [exact Hmem | apply Z.eqb_refl]. }
    congruence. }
  destruct asked as [asked|]; cbn.
  - destruct (py_int asked) as [vol|e] eqn:Hvol; cbn; [|discriminate].
    intros [= <- <- <-]. split; [exact Hin|]. split; [reflexivity|].
    exists given, mid. repeat split; try assumption.
    exists vol. split; [reflexivity|]. split; [reflexivity | apply Clamp_range].
  - intros [= <- <- <-]. split; [exact Hin|]. split; [reflexivity|].
    exists given, mid. repeat split; assumption.
Qed.

End Ringtone.

Lemma play_ringtone_write_witness :
  kitchen_hub ∈ [kitchen_hub; loud_hub] /\
  @Services.play_ringtone plain_builtins [kitchen_hub; loud_hub] ring_kitchen =
    Some (kitchen_hub, "7811dcb07917", [("mid", 8); ("vol", 100)]).
Proof.
  assert (Hrun : @Services.play_ringtone plain_builtins [kitchen_hub; loud_hub] ring_kitchen =
                   Some (kitchen_hub, "7811dcb07917", [("mid", 8); ("vol", 100)]))
    by (vm_compute; reflexivity).
  split; [|exact Hrun].
  apply (@play_ringtone_write plain_builtins [kitchen_hub; loud_hub] ring_kitchen
           kitchen_hub "7811dcb07917" [("mid", 8); ("vol", 100)] Hrun).
Defined.

(** ** [setup_platform] *)

Section SetupPlatform.
Context `{Builtins}.

Lemma parse_data_keys (data raw_data : payload) (s : GenericSwitch.XiaomiGenericSwitch) :
  GenericSwitch._data_key (snd (GenericSwitch.parse_data data raw_data s)) =
    GenericSwitch._data_key s /\
  GenericSwitch._supports_power_consumption (snd (GenericSwitch.parse_data data raw_data s)) =
    GenericSwitch._supports_power_consumption s.
Proof.
  decode_start s. repeat (decode_step data; try (split; reflexivity)).
Qed.

(** What the constructor answers with. *)
Lemma XiaomiGenericSwitch__init___Ok (dev : Platform.zigbee_device)
    (name data_key : string) (supports : bool) (hub : XiaomiMiioGateway)
    (s : Platform.SwitchObject) :
  Platform.XiaomiGenericSwitch__init__ dev name data_key supports hub = Ok s ->
  Platform._xiaomi_hub s = hub /\
  _sid (GenericSwitch.base (Platform.switch s)) = Platform.dev_sid dev /\
  GenericSwitch._data_key (Platform.switch s) = data_key /\
  GenericSwitch._supports_power_consumption (Platform.switch s) = supports /\
  Platform._type s = name /\
  Platform._name s = name ++ "_" ++ Platform.dev_sid dev /\
  Platform._unique_id s =
    if String.eqb data_key "" then name ++ Platform.dev_sid dev
    else data_key ++ Platform.dev_sid dev.
Proof.
  unfold Platform.XiaomiGenericSwitch__init__.
  set (self := GenericSwitch.mkXiaomiGenericSwitch _ _ _ _ _ _ _).
  unfold bind.
  pose proof (parse_data_base (Platform.dev_data dev) (Platform.dev_raw_data dev) self)
    as Hbase.
  pose proof (parse_data_keys (Platform.dev_data dev) (Platform.dev_raw_data dev) self)
    as (Hkey & Hsup).
  destruct (GenericSwitch.parse_data _ _ self) as [[b|e] s1]; [|discriminate].
  cbn [snd] in *. unfold super. cbn [device with_device GenericSwitch.entity].
  pose proof (parse_voltage_frame (Platform.dev_data dev) (GenericSwitch.base s1))
    as (Hsid & _).
  destruct (parse_voltage _ (GenericSwitch.base s1)) as [[b'|e'] d']; [|discriminate].
  cbn [snd] in Hsid. intros [= <-].
  cbn [Platform._xiaomi_hub Platform.switch Platform._type Platform._name
       Platform._unique_id].
  destruct s1 as [d1 st1 key1 inuse1 lp1 pc1 sup1]. cbn in *. subst.
  rewrite Hsid. auto 10.
Qed.

Lemma append_switch_run (device : Platform.zigbee_device) (name data_key : string)
    (supports : bool) (gateway : XiaomiMiioGateway) (devices : list Platform.SwitchDevice) :
  Platform.append_switch device name data_key supports gateway devices =
    match Platform.XiaomiGenericSwitch__init__ device name data_key supports gateway with
    | Ok s => (Ok tt, (devices ++ [Platform.Generic s])%list)
    | Raise e => (Raise e, devices)
    end.
Proof.
  unfold Platform.append_switch. unfold_m.
  destruct (Platform.XiaomiGenericSwitch__init__ _ _ _ _ _); reflexivity.
Qed.

Lemma append_switch_Ok (device : Platform.zigbee_device) (name data_key : string)
    (supports : bool) (gateway : XiaomiMiioGateway)
    (devices devices' : list Platform.SwitchDevice) :
  data_key ∈ ["status"; "channel_0"; "channel_1"] ->
  Platform.append_switch device name data_key supports gateway devices = (Ok tt, devices') ->
  exists s, devices' = (devices ++ [Platform.Generic s])%list /\
    switch_of gateway device s /\ GenericSwitch._data_key (Platform.switch s) = data_key.
Proof.
  intros Hkey. rewrite append_switch_run.
  destruct (Platform.XiaomiGenericSwitch__init__ _ _ _ _ _) as [s|e] eqn:Hinit;
    [|discriminate].
  intros [= <-]. exists s. split; [reflexivity|].
  apply XiaomiGenericSwitch__init___Ok in Hinit
    as (Hhub & Hsid & Hdk & _ & _ & _ & Huid).
  unfold switch_of. rewrite Hdk. repeat split; try assumption.
  rewrite Huid.
  destruct (String.eqb_spec data_key "") as [Hempty|]; [|reflexivity].
  rewrite Hempty in Hkey. apply list_elem_of_In in Hkey. cbn in Hkey.
  destruct Hkey as [Hk|[Hk|[Hk|[]]]]; discriminate Hk.
Qed.

Lemma plug_data_key_Ok (device : Platform.zigbee_device) (data_key : string) :
  Platform.plug_data_key device = Ok data_key ->
  data_key ∈ ["status"; "channel_0"; "channel_1"].
Proof.
  unfold Platform.plug_data_key.
  destruct (Platform.dev_proto device) as [proto|].
  - destruct (py_int _) as [n|e]; [|discriminate].
    destruct (n =? 1); intros [= <-]; apply list_elem_of_In; cbn; auto.
  - intros [= <-]. apply list_elem_of_In; cbn; auto.
Qed.

(** The unique id tells the data key and the sid apart. *)
Lemma unique_id_inj (k k' s s' : string) :
  k ∈ ["status"; "channel_0"; "channel_1"] ->
  k' ∈ ["status"; "channel_0"; "channel_1"] ->
  k ++ s = k' ++ s' -> k = k' /\ s = s'.
Proof.
  intros Hk Hk'. apply list_elem_of_In in Hk, Hk'. cbn in Hk, Hk'.
  destruct Hk as [<-|[<-|[<-|[]]]]; destruct Hk' as [<-|[<-|[<-|[]]]]; cbn;
    intros Heq; try discriminate Heq; injection Heq as Heq; auto.
Qed.

(** What one turn of the inner loop adds. *)
Lemma add_device_Ok (gateway : XiaomiMiioGateway) (device : Platform.zigbee_device)
    (devices devices' : list Platform.SwitchDevice) :
  Platform.add_device gateway device devices = (Ok tt, devices') ->
  exists new,
    devices' = (devices ++ map Platform.Generic new)%list /\
    Forall (switch_of gateway device) new /\
    NoDup (map (fun s => GenericSwitch._data_key (Platform.switch s)) new) /\
    (Platform.dev_model device ∈ switch_models -> new <> []).
Proof.
  unfold Platform.add_device, Platform.model_in.
  assert (Hone : forall name data_key supports,
    data_key ∈ ["status"; "channel_0"; "channel_1"] ->
    Platform.append_switch device name data_key supports gateway devices = (Ok tt, devices') ->
    exists new,
      devices' = (devices ++ map Platform.Generic new)%list /\
      Forall (switch_of gateway device) new /\
      NoDup (map (fun s => GenericSwitch._data_key (Platform.switch s)) new) /\
      (Platform.dev_model device ∈ switch_models -> new <> [])).
  { intros name data_key supports Hkey Hrun.
    apply append_switch_Ok in Hrun as (s & -> & Hof & _); [|exact Hkey].
    exists [s]. split; [reflexivity|]. split; [constructor; [exact Hof | constructor]|].
    split; [|discriminate].
    cbn. apply NoDup_singleton. }
  assert (Hplug : forall name,
    (let* data_key := lift (Platform.plug_data_key device) in
     Platform.append_switch device name data_key true gateway) devices = (Ok tt, devices') ->
    exists new,
      devices' = (devices ++ map Platform.Generic new)%list /\
      Forall (switch_of gateway device) new /\
      NoDup (map (fun s => GenericSwitch._data_key (Platform.switch s)) new) /\
      (Platform.dev_model device ∈ switch_models -> new <> [])).
  { intros name. unfold bind at 1. unfold lift.
    destruct (Platform.plug_data_key device) as [data_key|e] eqn:Hkey; [|discriminate].
    apply plug_data_key_Ok in Hkey. apply Hone. exact Hkey. }
  assert (Htwo : forall name0 name1,
    (Platform.append_switch device name0 "channel_0" false gateway >>
     Platform.append_switch device name1 "channel_1" false gateway) devices =
      (Ok tt, devices') ->
    exists new,
      devices' = (devices ++ map Platform.Generic new)%list /\
      Forall (switch_of gateway device) new /\
      NoDup (map (fun s => GenericSwitch._data_key (Platform.switch s)) new) /\
      (Platform.dev_model device ∈ switch_models -> new <> [])).
  { intros name0 name1. unfold bind at 1.
    destruct (Platform.append_switch device name0 "channel_0" false gateway devices)
      as [[[]|e] devices1] eqn:Hfirst; [|discriminate].
    intros Hsecond.
    apply append_switch_Ok in Hfirst as (s0 & -> & Hof0 & Hk0);
      [|apply list_elem_of_In; cbn; auto].
    apply append_switch_Ok in Hsecond as (s1 & -> & Hof1 & Hk1);
      [|apply list_elem_of_In; cbn; auto].
    exists [s0; s1]. split; [rewrite <- app_assoc; reflexivity|].
    split; [apply Forall_cons; split; [exact Hof0 | apply Forall_cons; split; [exact Hof1 | apply Forall_nil_2]]|].
    split; [|discriminate].
    cbn. rewrite Hk0, Hk1. apply NoDup_cons. split.
    - intros Hin. apply list_elem_of_In in Hin. cbn in Hin.
      destruct Hin as [Hin|[]]. discriminate Hin.
    - apply NoDup_singleton. }
  destruct (String.eqb_spec (Platform.dev_model device) "plug") as [Hm|Hm];
    [apply Hplug|].
  destruct (existsb _ ["ctrl_neutral1"; "ctrl_neutral1.aq1"]) eqn:H1;
    [apply Hone; apply list_elem_of_In; cbn; auto|].
  destruct (existsb _ ["ctrl_ln1"; "ctrl_ln1.aq1"]) eqn:H2;
    [apply Hone; apply list_elem_of_In; cbn; auto|].
  destruct (existsb _ ["ctrl_neutral2"; "ctrl_neutral2.aq1"]) eqn:H3; [apply Htwo|].
  destruct (existsb _ ["ctrl_ln2"; "ctrl_ln2.aq1"]) eqn:H4; [apply Htwo|].
  destruct (existsb _ ["86plug"; "ctrl_86plug"; "ctrl_86plug.aq1"]) eqn:H5; [apply Hplug|].
  intros [= <-]. exists []. split; [rewrite app_nil_r; reflexivity|].
  split; [constructor|]. split; [constructor|].
  intros Hmodel. exfalso. apply list_elem_of_In in Hmodel.
  cbn in H1, H2, H3, H4, H5.
  repeat match goal with
         | Hx : (_ || _)%bool = false |- _ => apply Bool.orb_false_iff in Hx as [? ?]
         | Hx : String.eqb _ _ = false |- _ => apply String.eqb_neq in Hx
         end.
  cbn in Hmodel. intuition congruence.
Qed.

Lemma elem_of_map {A B} (f : A -> B) (l : list A) (x : B) :
  x ∈ map f l <-> exists y, x = f y /\ y ∈ l.
Proof.
  rewrite list_elem_of_In, in_map_iff. split.
  - intros (y & <- & Hy). exists y. split; [reflexivity | apply list_elem_of_In; exact Hy].
  - intros (y & -> & Hy). exists y. split; [reflexivity | apply list_elem_of_In; exact Hy].
Qed.

Lemma inner_loop_Ok (gateway : XiaomiMiioGateway) (ds : list Platform.zigbee_device)
    (devices devices' : list Platform.SwitchDevice) :
  for_each (Platform.add_device gateway) ds devices = (Ok tt, devices') ->
  exists news,
    devices' = (devices ++ map Platform.Generic (concat news))%list /\
    Forall2 made_for (map (pair gateway) ds) news.
Proof.
  revert devices. induction ds as [|d ds IH]; intros devices; cbn [for_each].
  - intros [= <-]. exists []. split; [cbn; rewrite app_nil_r; reflexivity | constructor].
  - unfold bind at 1.
    destruct (Platform.add_device gateway d devices) as [[[]|e] devices1] eqn:Hadd;
      [|discriminate].
    intros Hrest. apply add_device_Ok in Hadd as (new & -> & Hof & Hkeys & Hmodel).
    apply IH in Hrest as (news & -> & Hall).
    exists (new :: news). split.
    + cbn [concat]. rewrite map_app, <- app_assoc. reflexivity.
    + cbn [map]. constructor; [|exact Hall]. repeat split; assumption.
Qed.

Lemma loops_Ok (items : list (XiaomiMiioGateway * list Platform.zigbee_device))
    (devices devices' : list Platform.SwitchDevice) :
  for_each (fun item => for_each (Platform.add_device (fst item)) (snd item)) items devices =
    (Ok tt, devices') ->
  exists news,
    devices' = (devices ++ map Platform.Generic (concat news))%list /\
    Forall2 made_for (listed items) news.
Proof.
  revert devices. induction items as [|[gateway ds] items IH]; intros devices;
    cbn [for_each].
  - intros [= <-]. exists []. split; [cbn; rewrite app_nil_r; reflexivity | constructor].
  - unfold bind at 1. cbn [fst snd].
    destruct (for_each (Platform.add_device gateway) ds devices) as [[[]|e] devices1]
      eqn:Hinner; [|discriminate].
    intros Hrest. apply inner_loop_Ok in Hinner as (news1 & -> & Hall1).
    apply IH in Hrest as (news2 & -> & Hall2).
    exists (news1 ++ news2)%list. split.
    + rewrite concat_app, map_app, <- app_assoc. reflexivity.
    + unfold listed. cbn [flat_map fst snd]. apply Forall2_app; assumption.
Qed.

Lemma made_for_sound (ps : list (XiaomiMiioGateway * Platform.zigbee_device))
    (news : list (list Platform.SwitchObject)) (s : Platform.SwitchObject) :
  Forall2 made_for ps news -> s ∈ concat news ->
  exists p, p ∈ ps /\ switch_of (fst p) (snd p) s.
Proof.
  induction 1 as [|p new ps news (Hof & _) Hall IH]; cbn [concat].
  - intros Hin. apply elem_of_nil in Hin. contradiction.
  - intros Hin. apply elem_of_app in Hin as [Hin|Hin].
    + exists p. split; [apply elem_of_cons; left; reflexivity|].
      rewrite Forall_forall in Hof. apply Hof. exact Hin.
    + destruct (IH Hin) as (p' & Hp' & Hof'). exists p'.
      split; [apply elem_of_cons; right; exact Hp' | exact Hof'].
Qed.

Lemma made_for_complete (ps : list (XiaomiMiioGateway * Platform.zigbee_device))
    (news : list (list Platform.SwitchObject)) (p : XiaomiMiioGateway * Platform.zigbee_device) :
  Forall2 made_for ps news -> p ∈ ps -> Platform.dev_model (snd p) ∈ switch_models ->
  exists s, s ∈ concat news /\ switch_of (fst p) (snd p) s.
Proof.
  induction 1 as [|p0 new ps news (Hof & _ & Hmodel) Hall IH]; cbn [concat].
  - intros Hin. apply elem_of_nil in Hin. contradiction.
  - intros Hin Hknown. apply elem_of_cons in Hin as [->|Hin].
    + destruct new as [|s new]; [exfalso; apply (Hmodel Hknown); reflexivity|].
      exists s. split; [apply elem_of_app; left; apply elem_of_cons; left; reflexivity|].
      apply Forall_cons in Hof as (Hs & _). exact Hs.
    + destruct (IH Hin Hknown) as (s & Hs & Hof'). exists s.
      split; [apply elem_of_app; right; exact Hs | exact Hof'].
Qed.

Lemma made_for_unique_ids (p : XiaomiMiioGateway * Platform.zigbee_device)
    (new : list Platform.SwitchObject) :
  made_for p new -> NoDup (map Platform._unique_id new).
Proof.
  intros (Hof & Hkeys & _). induction new as [|s new IH]; cbn [map] in *.
  - constructor.
  - apply Forall_cons in Hof as ((_ & _ & Hk & Hu) & Hof).
    apply NoDup_cons in Hkeys as (Hnotin & Hkeys).
    apply NoDup_cons. split; [|apply IH; assumption].
    intros Hin. apply Hnotin. apply elem_of_map in Hin as (s' & Heq & Hs').
    apply elem_of_map. exists s'. split; [|exact Hs'].
    rewrite Forall_forall in Hof. destruct (Hof s' Hs') as (_ & _ & Hk' & Hu').
    rewrite Hu, Hu' in Heq. apply unique_id_inj in Heq as (Heq & _); assumption.
Qed.

Lemma made_for_NoDup (ps : list (XiaomiMiioGateway * Platform.zigbee_device))
    (news : list (list Platform.SwitchObject)) :
  Forall2 made_for ps news ->
  NoDup (map (fun p => Platform.dev_sid (snd p)) ps) ->
  NoDup (map Platform._unique_id (concat news)).
Proof.
  induction 1 as [|p new ps news Hmade Hall IH]; cbn [concat map].
  - intros _. constructor.
  - intros Hsids. apply NoDup_cons in Hsids as (Hnotin & Hsids).
    rewrite map_app. apply NoDup_app. split; [|split].
    + apply (made_for_unique_ids p). exact Hmade.
    + intros u Hu Hu'. apply Hnotin.
      apply elem_of_map in Hu as (s & -> & Hs).
      apply elem_of_map in Hu' as (s' & Heq & Hs').
      destruct Hmade as (Hof & _). rewrite Forall_forall in Hof.
      destruct (Hof s Hs) as (_ & _ & Hk & Hid).
      destruct (made_for_sound ps news s' Hall Hs') as (p' & Hp' & _ & _ & Hk' & Hid').
      rewrite Hid, Hid' in Heq. apply unique_id_inj in Heq as (_ & Heq); [|assumption..].
      apply elem_of_map. exists p'. split; [exact Heq | exact Hp'].
    + apply IH. exact Hsids.
Qed.

Lemma generic_switches_app (front : list Platform.SwitchObject)
    (r : RadioSwitch.XiaomiGatewayRadioSwitch) :
  generic_switches (map Platform.Generic front ++ [Platform.Radio r]) = front.
Proof.
  unfold generic_switches. induction front as [|s front IH]; cbn; [reflexivity|].
  cbn in IH. rewrite IH. reflexivity.
Qed.

Section SetupPlatformRadio.
Context `{Platform.MiioInfo}.

Lemma setup_platform_inr (items : list (XiaomiMiioGateway * list Platform.zigbee_device))
    (devices : list Platform.SwitchDevice) :
  Platform.setup_platform items = inr devices ->
  exists news gateway ds radio,
    Forall2 made_for (listed items) news /\
    last items = Some (gateway, ds) /\
    Platform.XiaomiGatewayRadioSwitch__init__ gateway = inr radio /\
    devices = (map Platform.Generic (concat news) ++ [Platform.Radio radio])%list.
Proof.
  unfold Platform.setup_platform.
  destruct (for_each _ items []) as [[[]|e] devices1] eqn:Hloops; [|discriminate].
  apply loops_Ok in Hloops as (news & -> & Hall).
  destruct (last items) as [[gateway ds]|]; [|discriminate].
  destruct (Platform.XiaomiGatewayRadioSwitch__init__ gateway) as [e|radio] eqn:Hradio;
    [discriminate|].
  intros [= <-]. exists news, gateway, ds, radio. auto.
Qed.

(** X23. When the devices that the hubs list have different sids, the
    switches that [setup_platform] adds have different unique ids, the two
    channels of a wall switch included. *)
Theorem setup_platform_unique_ids
    (items : list (XiaomiMiioGateway * list Platform.zigbee_device))
    (devices : list Platform.SwitchDevice) :
  Platform.setup_platform items = inr devices ->
  NoDup (map (fun p => Platform.dev_sid (snd p)) (listed items)) ->
  NoDup (map Platform._unique_id (generic_switches devices)).
Proof.
  intros Hrun Hsids.
  apply setup_platform_inr in Hrun as (news & gateway & ds & radio & Hall & _ & _ & ->).
  rewrite generic_switches_app. apply (made_for_NoDup (listed items)); assumption.
Qed.

(** X24. The switches that [setup_platform] adds are those of the devices
    listed: each writes to the hub that lists its device, under the sid of
    the device, and every listed device of a known model has its switch. *)
Theorem setup_platform_switches
    (items : list (XiaomiMiioGateway * list Platform.zigbee_device))
    (devices : list Platform.SwitchDevice) :
  Platform.setup_platform items = inr devices ->
  (forall s, Platform.Generic s ∈ devices ->
     exists p, p ∈ listed items /\ switch_of (fst p) (snd p) s) /\
  (forall p, p ∈ listed items -> Platform.dev_model (snd p) ∈ switch_models ->
     exists s, Platform.Generic s ∈ devices /\ switch_of (fst p) (snd p) s).
Proof.
  intros Hrun.
  apply setup_platform_inr in Hrun as (news & gateway & ds & radio & Hall & _ & _ & ->).
  split.
  - intros s Hin. apply elem_of_app in Hin as [Hin|Hin].
    + apply elem_of_map in Hin as (s' & [= <-] & Hs').
      apply (made_for_sound _ news); assumption.
    + apply list_elem_of_singleton in Hin. discriminate Hin.
  - intros p Hp Hknown.
    destruct (made_for_complete _ news p Hall Hp Hknown) as (s & Hs & Hof).
    exists s. split; [|exact Hof].
    apply elem_of_app. left. apply elem_of_map. exists s. auto.
Qed.

(** X25. [setup_platform] adds one radio switch, after the switches of the
    devices: that of the hub that comes last, named after the sid of that
    hub, and that hub has a miio client. *)
Theorem setup_platform_radio
    (items : list (XiaomiMiioGateway * list Platform.zigbee_device))
    (devices : list Platform.SwitchDevice) :
  Platform.setup_platform items = inr devices ->
  exists front gateway ds radio,
    devices = (map Platform.Generic front ++ [Platform.Radio radio])%list /\
    last items = Some (gateway, ds) /\
    is_Some (miio gateway) /\
    RadioSwitch._name radio = "gateway_radio_" ++ sid gateway /\
    RadioSwitch._state radio = None.
Proof.
  intros Hrun.
  apply setup_platform_inr in Hrun as (news & gateway & ds & radio & _ & Hlast & Hradio & ->).
  exists (concat news), gateway, ds, radio.
  unfold Platform.XiaomiGatewayRadioSwitch__init__ in Hradio.
  destruct (miio gateway) as [client|]; [|discriminate].
  destruct (Platform.info client) as [answer|]; [|discriminate].
  injection Hradio as <-. cbn. eauto 10.
Qed.

(** X26. When the hub that comes last was made without a miio token, or
    with an empty one, [setup_platform] raises and adds nothing, whatever
    the hubs list; so it does without any hub. *)
Theorem setup_platform_without_token
    (front : list (XiaomiMiioGateway * list Platform.zigbee_device))
    (ds : list Platform.zigbee_device)
    (ip : string) (port : value) (sid_ : string) (key : option string) (retries : Z)
    (interface : string) (proto token : option string) :
  truthy_str token = None ->
  let gateway := XiaomiMiioGateway__init__ ip port sid_ key retries interface proto token in
  (Platform.setup_platform (front ++ [(gateway, ds)]) = inl Platform.AttributeError \/
   exists e, Platform.setup_platform (front ++ [(gateway, ds)]) = inl (Platform.Builtin e)) /\
  Platform.setup_platform [] = inl (Platform.Builtin UnboundLocalError).
Proof.
  intros Htoken gateway. split; [|reflexivity].
  unfold Platform.setup_platform.
  destruct (for_each _ (front ++ [(gateway, ds)])%list []) as [[[]|e] devices];
    [|right; exists e; reflexivity].
  rewrite last_snoc. left.
  unfold Platform.XiaomiGatewayRadioSwitch__init__, gateway, XiaomiMiioGateway__init__.
  cbn [miio]. rewrite Htoken. reflexivity.
Qed.

End SetupPlatformRadio.

End SetupPlatform.

Lemma setup_platform_unique_ids_witness :
  exists devices,
    @Platform.setup_platform plain_builtins answering_miio kitchen_items = inr devices /\
    NoDup (map Platform._unique_id (generic_switches devices)).
Proof.
  eexists. split; [vm_compute; reflexivity|].
  apply (@setup_platform_unique_ids plain_builtins answering_miio kitchen_items).
  - vm_compute. reflexivity.
  - apply (bool_decide_unpack _). vm_compute. exact I.
Defined.

Lemma setup_platform_switches_witness :
  exists devices,
    @Platform.setup_platform plain_builtins answering_miio kitchen_items = inr devices /\
    exists s, Platform.Generic s ∈ devices /\ switch_of kitchen_hub kitchen_plug s.
Proof.
  eexists. split; [vm_compute; reflexivity|].
  refine (proj2 (@setup_platform_switches plain_builtins answering_miio kitchen_items _ _)
            (kitchen_hub, kitchen_plug) _ _).
  - vm_compute. reflexivity.
  - apply list_elem_of_In. left. reflexivity.
  - apply list_elem_of_In. left. reflexivity.
Defined.

Lemma setup_platform_radio_witness :
  exists devices,
    @Platform.setup_platform plain_builtins answering_miio kitchen_items = inr devices /\
    exists front gateway ds radio,
      devices = (map Platform.Generic front ++ [Platform.Radio radio])%list /\
      last kitchen_items = Some (gateway, ds) /\
      is_Some (miio gateway) /\
      RadioSwitch._name radio = "gateway_radio_" ++ sid gateway /\
      RadioSwitch._state radio = None.
Proof.
  eexists. split; [vm_compute; reflexivity|].
  apply (@setup_platform_radio plain_builtins answering_miio kitchen_items).
  vm_compute. reflexivity.
Defined.

Lemma setup_platform_without_token_witness :
  (@Platform.setup_platform plain_builtins answering_miio
     (kitchen_items ++ [(tokenless_hub, [kitchen_plug])]) = inl Platform.AttributeError \/
   exists e,
     @Platform.setup_platform plain_builtins answering_miio
       (kitchen_items ++ [(tokenless_hub, [kitchen_plug])]) = inl (Platform.Builtin e)) /\
  @Platform.setup_platform plain_builtins answering_miio [] =
    inl (Platform.Builtin UnboundLocalError).
Proof.
  apply (@setup_platform_without_token plain_builtins answering_miio kitchen_items
           [kitchen_plug] "192.168.1.8" (VStr "9898") "7811dcaa0001" None 5 "any"
           (Some "1.1.2") None).
  reflexivity.
Defined.
